(** * Guzo: the request-to-trip matching flow of the driver and admin
      dashboards, over a model of the hosted database.

    Sources embedded here:
    - [src/pages/DriverDashboard.tsx]: [fetchBookings], [fetchMyTrips],
      [fetchPendingRequests], [handleCreateTrip], [handleUpdateTrip],
      [handleDeleteTrip], [handleAssignRequest] and the [matchingTrips]
      filter of the Pending Requests tab;
    - the admin dashboard: [fetchData], [handleUpdateTripPrice],
      [handleMatchRequest] and the trip filter of its matching panel;
    - [supabase/schema.sql]: the [bookings], [driver_trips] and [profiles]
      tables with their column types, check constraints, foreign keys and
      the [updated_at] trigger.

    Conventions.
    - Seat counts are [Z].  Money columns are [decimal(10,2)]; they are kept
      as a [Z] number of hundredths.  The client multiplies in IEEE doubles
      and the column rounds to two decimals on storage; for every value the
      column accepts (fewer than 10^8 units) the rounded double product is
      the exact product, which is what the model computes.
    - Timestamps are [Z] (milliseconds since the epoch), the value
      [new Date(...)] compares.
    - A nullable column read by the client is an [option]; [null] behaves as
      [0] in a JavaScript comparison or sum and as false under [||] and [!].
    - Row-level security is not part of the model: every request is issued by
      a session the policies let through.
    - The relations a [select] embeds ([bookings( * )], [profiles(...)]) are
      only rendered, never used by the handlers, and are left out. *)

From Stdlib Require Import ZArith List Bool Lia.
From stdpp Require Import base decidable option list strings gmap.

Local Open Scope Z_scope.

(** ** Column types *)

Definition uuid := string.

Module UserRole.
Inductive t := admin | driver | customer.
End UserRole.

Module BookingStatus.
Inductive t := pending | assigned | completed | cancelled.
End BookingStatus.

Module BookingType.
Inductive t := seat | whole_car | custom_request.
End BookingType.

Module TripStatus.
Inductive t := scheduled | in_progress | completed | cancelled.
End TripStatus.

#[global] Instance user_role_eq_dec : EqDecision UserRole.t.
Proof. solve_decision. Defined.
#[global] Instance booking_status_eq_dec : EqDecision BookingStatus.t.
Proof. solve_decision. Defined.
#[global] Instance booking_type_eq_dec : EqDecision BookingType.t.
Proof. solve_decision. Defined.
#[global] Instance trip_status_eq_dec : EqDecision TripStatus.t.
Proof. solve_decision. Defined.

(** ** Rows *)

Module Profile.
Record t := mk {
  id : uuid;
  full_name : option string;
  phone_number : string;
  role : UserRole.t;
  is_active : bool;
  created_at : Z
}.
End Profile.

Module Booking.
Record t := mk {
  id : uuid;
  created_at : Z;
  customer_name : string;
  customer_phone : string;
  customer_id : option uuid;
  pickup_location : string;
  dropoff_location : string;
  scheduled_time : Z;
  status : BookingStatus.t;
  booking_type : BookingType.t;
  assigned_driver_id : option uuid;
  driver_trip_id : option uuid;
  seats_booked : option Z;
  price : option Z;
  notes : option string
}.
End Booking.

Module Trip.
Record t := mk {
  id : uuid;
  driver_id : uuid;
  origin : string;
  destination : string;
  departure_time : Z;
  available_seats : Z;
  booked_seats : Z;
  price_per_seat : Z;
  whole_car_price : Z;
  status : TripStatus.t;
  created_at : Z;
  updated_at : Z
}.
End Trip.

(** The object passed to [.update(...)] on [bookings]: a field that is [None]
    is absent from the object and its column is left alone. *)
Module BookingPatch.
Record t := mk {
  driver_trip_id : option uuid;
  assigned_driver_id : option uuid;
  status : option BookingStatus.t;
  seats_booked : option Z;
  price : option Z
}.

Definition apply (p : t) (b : Booking.t) : Booking.t :=
  Booking.mk
    (Booking.id b) (Booking.created_at b)
    (Booking.customer_name b) (Booking.customer_phone b)
    (Booking.customer_id b)
    (Booking.pickup_location b) (Booking.dropoff_location b)
    (Booking.scheduled_time b)
    (default (Booking.status b) (status p))
    (Booking.booking_type b)
    (match assigned_driver_id p with
     | Some d => Some d | None => Booking.assigned_driver_id b end)
    (match driver_trip_id p with
     | Some d => Some d | None => Booking.driver_trip_id b end)
    (match seats_booked p with
     | Some n => Some n | None => Booking.seats_booked b end)
    (match price p with
     | Some n => Some n | None => Booking.price b end)
    (Booking.notes b).
End BookingPatch.

(** The object passed to [.update(...)] on [driver_trips].  The source
    builds three such objects: [{ booked_seats }] in the two match handlers,
    and [{ price_per_seat }] and [{ whole_car_price }] in the price fields of
    both dashboards.  [handleUpdateTrip] declares its parameter as [any],
    but these are the only objects it is called with.  The record has a
    field for each column a trip form carries; [id], [driver_id],
    [created_at] and [updated_at] are never a key of an update in the
    source and have no field here, so nothing can be concluded from this
    type about an update that would carry them. *)
Module TripPatch.
Record t := mk {
  origin : option string;
  destination : option string;
  departure_time : option Z;
  available_seats : option Z;
  booked_seats : option Z;
  price_per_seat : option Z;
  whole_car_price : option Z;
  status : option TripStatus.t
}.

Definition empty : t := mk None None None None None None None None.

(** [{ booked_seats: n }], [{ price_per_seat: n }] and
    [{ whole_car_price: n }]. *)
Definition setBookedSeats (n : Z) : t :=
  mk None None None None (Some n) None None None.
Definition setPricePerSeat (n : Z) : t :=
  mk None None None None None (Some n) None None.
Definition setWholeCarPrice (n : Z) : t :=
  mk None None None None None None (Some n) None.

Definition apply (p : t) (r : Trip.t) : Trip.t :=
  Trip.mk
    (Trip.id r) (Trip.driver_id r)
    (default (Trip.origin r) (origin p))
    (default (Trip.destination r) (destination p))
    (default (Trip.departure_time r) (departure_time p))
    (default (Trip.available_seats r) (available_seats p))
    (default (Trip.booked_seats r) (booked_seats p))
    (default (Trip.price_per_seat r) (price_per_seat p))
    (default (Trip.whole_car_price r) (whole_car_price p))
    (default (Trip.status r) (status p))
    (Trip.created_at r) (Trip.updated_at r).
End TripPatch.

(** The row object passed to [.insert([...])] on [driver_trips] by
    [handleCreateTrip].  [parseInt] and [parseFloat] give [NaN] on an
    unparsable field, which is sent as [null]: [None] here. *)
Module NewTrip.
Record t := mk {
  driver_id : uuid;
  origin : string;
  destination : string;
  departure_time : option Z;
  available_seats : option Z;
  price_per_seat : option Z;
  whole_car_price : option Z
}.
End NewTrip.

(** ** JavaScript coercions used by the handlers *)

(** [ToNumber] of a nullable integer column: [null] is [0]. *)
Definition to_number (o : option Z) : Z := default 0 o.

(** Truthiness of a possibly missing number: [undefined], [null] and [0]
    are false. *)
Definition truthy (o : option Z) : bool :=
  match o with
  | Some n => negb (n =? 0)
  | None => false
  end.

(** [a || b] on possibly missing numbers. *)
Definition js_or (a b : option Z) : option Z :=
  if truthy a then a else b.

(** Truthiness of a nullable text value: [null] and the empty string are
    false. *)
Definition truthy_str (o : option string) : bool :=
  match o with
  | Some s => negb (String.eqb s "")
  | None => false
  end.

(** The template literal [`${requestId}-${tripId}`]. *)
Definition seatKey (requestId tripId : uuid) : string :=
  requestId +:+ "-" +:+ tripId.

(** ** The hosted database *)

Record Db := mkDb {
  bookings : list Booking.t;
  driver_trips : list Trip.t;
  profiles : list Profile.t
}.

Inductive DbError :=
| network_failure
| numeric_out_of_range
| not_null_violation
| check_violation
| foreign_key_violation
| unique_violation.

(** [integer] and [decimal(10,2)] columns (the latter in hundredths). *)
Definition int4 (n : Z) : Prop := -2147483648 <= n <= 2147483647.
Definition decimal_10_2 (n : Z) : Prop := -10000000000 < n < 10000000000.

(** [check (available_seats > 0)], [check (booked_seats >= 0)] and
    [constraint seats_check check (booked_seats <= available_seats)]. *)
Definition trip_checks (r : Trip.t) : Prop :=
  Trip.available_seats r > 0 /\
  Trip.booked_seats r >= 0 /\
  Trip.booked_seats r <= Trip.available_seats r.

Definition trip_in_range (r : Trip.t) : Prop :=
  int4 (Trip.available_seats r) /\ int4 (Trip.booked_seats r) /\
  decimal_10_2 (Trip.price_per_seat r) /\
  decimal_10_2 (Trip.whole_car_price r).

Definition booking_in_range (b : Booking.t) : Prop :=
  int4 (to_number (Booking.seats_booked b)) /\
  decimal_10_2 (to_number (Booking.price b)).

Definition references {A} (key : A -> uuid) (rows : list A)
    (o : option uuid) : Prop :=
  match o with
  | Some k => k ∈ (key <$> rows)
  | None => True
  end.

(** The foreign keys of [bookings] an update can write:
    [assigned_driver_id] references [profiles(id)] and [driver_trip_id]
    references [driver_trips(id)].  A key is checked when its column is
    written. *)
Definition patch_fks (d : Db) (p : BookingPatch.t) : Prop :=
  references Profile.id (profiles d) (BookingPatch.assigned_driver_id p) /\
  references Trip.id (driver_trips d) (BookingPatch.driver_trip_id p).

#[global] Instance int4_dec n : Decision (int4 n).
Proof. unfold int4. apply _. Defined.
#[global] Instance decimal_10_2_dec n : Decision (decimal_10_2 n).
Proof. unfold decimal_10_2. apply _. Defined.
#[global] Instance trip_checks_dec r : Decision (trip_checks r).
Proof. unfold trip_checks. apply _. Defined.
#[global] Instance trip_in_range_dec r : Decision (trip_in_range r).
Proof. unfold trip_in_range. apply _. Defined.
#[global] Instance booking_in_range_dec b : Decision (booking_in_range b).
Proof. unfold booking_in_range. apply _. Defined.
#[global] Instance references_dec {A} (key : A -> uuid) rows o :
  Decision (references key rows o).
Proof. destruct o; simpl; apply _. Defined.
#[global] Instance patch_fks_dec d p : Decision (patch_fks d p).
Proof. unfold patch_fks. apply _. Defined.

(** [before update on driver_trips ... update_updated_at_column()]. *)
Definition touch (now : Z) (r : Trip.t) : Trip.t :=
  Trip.mk (Trip.id r) (Trip.driver_id r) (Trip.origin r)
    (Trip.destination r) (Trip.departure_time r) (Trip.available_seats r)
    (Trip.booked_seats r) (Trip.price_per_seat r) (Trip.whole_car_price r)
    (Trip.status r) (Trip.created_at r) now.

(** [update bookings set ... where id = k]: every matching row is rewritten;
    the statement is rejected as a whole when a rewritten row does not fit
    its column types or a written key references no row. *)
Definition patch_booking (k : uuid) (p : BookingPatch.t) (b : Booking.t)
    : Booking.t :=
  if String.eqb (Booking.id b) k then BookingPatch.apply p b else b.

Definition db_update_bookings (d : Db) (k : uuid) (p : BookingPatch.t)
    : DbError + Db :=
  let rows := patch_booking k p <$> bookings d in
  let hit := filter (fun b => Booking.id b = k) rows in
  if decide (Forall booking_in_range hit) then
    if decide (Forall (fun _ => patch_fks d p) hit) then
      inr (mkDb rows (driver_trips d) (profiles d))
    else inl foreign_key_violation
  else inl numeric_out_of_range.

(** [update driver_trips set ... where id = k], with the trigger. *)
Definition patch_trip (now : Z) (k : uuid) (p : TripPatch.t) (r : Trip.t)
    : Trip.t :=
  if String.eqb (Trip.id r) k then touch now (TripPatch.apply p r) else r.

Definition db_update_driver_trips (now : Z) (d : Db) (k : uuid)
    (p : TripPatch.t) : DbError + Db :=
  let rows := patch_trip now k p <$> driver_trips d in
  let hit := filter (fun r => Trip.id r = k) rows in
  if decide (Forall trip_in_range hit) then
    if decide (Forall trip_checks hit) then
      inr (mkDb (bookings d) rows (profiles d))
    else inl check_violation
  else inl numeric_out_of_range.

(** [insert into driver_trips]: [id], [booked_seats], [status] and the two
    timestamps take their column defaults. *)
Definition db_insert_driver_trip (now : Z) (fresh : uuid) (d : Db)
    (n : NewTrip.t) : DbError + Db :=
  match NewTrip.departure_time n, NewTrip.available_seats n,
        NewTrip.price_per_seat n, NewTrip.whole_car_price n with
  | Some dep, Some avail, Some pps, Some wcp =>
      let r := Trip.mk fresh (NewTrip.driver_id n) (NewTrip.origin n)
                 (NewTrip.destination n) dep avail 0 pps wcp
                 TripStatus.scheduled now now in
      if decide (trip_in_range r) then
        if decide (trip_checks r) then
          if decide (fresh ∈ (Trip.id <$> driver_trips d)) then
            inl unique_violation
          else if decide (NewTrip.driver_id n ∈ (Profile.id <$> profiles d))
          then inr (mkDb (bookings d) (driver_trips d ++ [r]) (profiles d))
          else inl foreign_key_violation
        else inl check_violation
      else inl numeric_out_of_range
  | _, _, _, _ => inl not_null_violation
  end.

(** [delete from driver_trips where id = k]; [bookings.driver_trip_id] is
    declared [on delete set null]. *)
Definition unlink_trip (k : uuid) (b : Booking.t) : Booking.t :=
  if decide (Booking.driver_trip_id b = Some k) then
    Booking.mk
      (Booking.id b) (Booking.created_at b)
      (Booking.customer_name b) (Booking.customer_phone b)
      (Booking.customer_id b)
      (Booking.pickup_location b) (Booking.dropoff_location b)
      (Booking.scheduled_time b) (Booking.status b) (Booking.booking_type b)
      (Booking.assigned_driver_id b) None
      (Booking.seats_booked b) (Booking.price b) (Booking.notes b)
  else b.

Definition db_delete_driver_trip (d : Db) (k : uuid) : Db :=
  mkDb (unlink_trip k <$> bookings d)
       (filter (fun r => Trip.id r <> k) (driver_trips d))
       (profiles d).

(** [.order(column, { ascending })]: a stable insertion sort on the key
    (the database leaves the order of rows with equal keys open). *)
Fixpoint insert_by {A} (key : A -> Z) (ascending : bool) (x : A)
    (l : list A) : list A :=
  match l with
  | [] => [x]
  | y :: l' =>
      if (if ascending then key x <=? key y else key y <=? key x)
      then x :: y :: l'
      else y :: insert_by key ascending x l'
  end.

Definition order {A} (key : A -> Z) (ascending : bool) (l : list A)
    : list A :=
  foldr (insert_by key ascending) [] l.

(** ** Requests to the backend

    A handler runs against the database and a script of replies, one per
    request it issues, and leaves a trace of what it did.  A reply says
    whether the request reached the database at all, the server clock when
    it was processed, and the identifier [uuid_generate_v4()] would draw.
    When the script is exhausted the request gets no answer. *)

Record Reply := mkReply {
  delivered : bool;
  server_time : Z;
  fresh_uuid : uuid
}.

(** The two instants [fetchData] derives from the date of the filter (the
    value of a date input): [new Date(filters.date)] after
    [setHours(0, 0, 0, 0)] and after [setHours(23, 59, 59, 999)].  The date
    string is read as midnight UTC and the hours are then set in the
    browser's local time, so both instants depend on the browser's time
    zone: the window is the local day on which midnight UTC of the date
    falls, which west of UTC is the day before the one selected, and which
    lasts 23 or 25 hours when the clocks change.  The two instants are
    therefore kept as they come; nothing is assumed about how far apart
    they are or on which calendar day they fall. *)
Record DateWindow := mkDateWindow {
  startDate : Z;
  endDate : Z
}.

(** The admin dashboard's [filters] state.  An empty string (no filter) is
    [None]; a date is kept as the window [fetchData] derives from it. *)
Record Filters := mkFilters {
  filter_date : option DateWindow;
  filter_driver : option uuid;
  filter_status : option TripStatus.t
}.

Inductive Call :=
| UpdateBookings (k : uuid) (p : BookingPatch.t)
| UpdateDriverTrips (k : uuid) (p : TripPatch.t)
| InsertDriverTrip (n : NewTrip.t)
| DeleteDriverTrip (k : uuid)
| SelectAssignedBookings (driver : uuid)
| SelectMyTrips (driver : uuid)
| SelectPendingRequests
| SelectBookings (date : option DateWindow)
| SelectDriverTrips (f : Filters)
| SelectDrivers.

Inductive AlertMsg :=
| NotEnoughSeats (availableSeats : Z)
| MoreThanRequested (requested : option Z)
| ErrorCreatingTrip (e : DbError)
| ErrorUpdatingTrip (e : DbError)
| ErrorDeletingTrip (e : DbError)
| ErrorAssigningRequest (e : DbError)
| ErrorMatchingRequest (e : DbError)
| ErrorUpdatingPrice (e : DbError).

Inductive Event :=
| Request (c : Call) (error : option DbError)
| Alert (m : AlertMsg)
| ConsoleError (e : DbError).

Record Run (A : Type) := mkRun {
  value : A;
  final : Db;
  rest : list Reply;
  trace : list Event
}.
Arguments mkRun {A}.
Arguments value {A}.
Arguments final {A}.
Arguments rest {A}.
Arguments trace {A}.

Definition M (A : Type) : Type := Db -> list Reply -> Run A.

Definition ret {A} (a : A) : M A :=
  fun d n => mkRun a d n [].

Definition bind {A B} (m : M A) (f : A -> M B) : M B :=
  fun d n =>
    let r1 := m d n in
    let r2 := f (value r1) (final r1) (rest r1) in
    mkRun (value r2) (final r2) (rest r2) (trace r1 ++ trace r2).

Notation "'let*' x ':=' m 'in' k" := (bind m (fun x => k))
  (at level 10, x name, m at level 100, k at level 200).

Definition emit (e : Event) : M unit :=
  fun d n => mkRun tt d n [e].

Definition alert (m : AlertMsg) : M unit := emit (Alert m).

(** One awaited query: [{ data, error }] is [inr data] or [inl error]. *)
Definition request {A} (c : Call) (exec : Reply -> Db -> DbError + (A * Db))
    : M (DbError + A) :=
  fun d n =>
    match n with
    | [] => mkRun (inl network_failure) d []
              [Request c (Some network_failure)]
    | r :: n' =>
        if delivered r then
          match exec r d with
          | inr (a, d') => mkRun (inr a) d' n' [Request c None]
          | inl e => mkRun (inl e) d n' [Request c (Some e)]
          end
        else mkRun (inl network_failure) d n'
               [Request c (Some network_failure)]
    end.

Definition writes (r : DbError + Db) : DbError + (unit * Db) :=
  match r with
  | inr d' => inr (tt, d')
  | inl e => inl e
  end.

Definition reads {A} (rows : A) (d : Db) : DbError + (A * Db) :=
  inr (rows, d).

Definition update_bookings (k : uuid) (p : BookingPatch.t)
    : M (DbError + unit) :=
  request (UpdateBookings k p) (fun _ d => writes (db_update_bookings d k p)).

Definition update_driver_trips (k : uuid) (p : TripPatch.t)
    : M (DbError + unit) :=
  request (UpdateDriverTrips k p)
    (fun r d => writes (db_update_driver_trips (server_time r) d k p)).

Definition insert_driver_trip (n : NewTrip.t) : M (DbError + unit) :=
  request (InsertDriverTrip n)
    (fun r d =>
       writes (db_insert_driver_trip (server_time r) (fresh_uuid r) d n)).

Definition delete_driver_trip (k : uuid) : M (DbError + unit) :=
  request (DeleteDriverTrip k)
    (fun _ d => writes (inr (db_delete_driver_trip d k))).

(** [.gte(column, startDate.toISOString())
     .lte(column, endDate.toISOString())], applied when a date is set. *)
Definition in_window (date : option DateWindow) (time : Z) : Prop :=
  match date with
  | Some w => startDate w <= time <= endDate w
  | None => True
  end.

#[global] Instance in_window_dec date time : Decision (in_window date time).
Proof. destruct date; simpl; apply _. Defined.

Definition matches {A} `{EqDecision A} (f : option A) (x : A) : Prop :=
  match f with
  | Some y => x = y
  | None => True
  end.

#[global] Instance matches_dec {A} `{EqDecision A} (f : option A) (x : A) :
  Decision (matches f x).
Proof. destruct f; simpl; apply _. Defined.

(** The queries of the two dashboards, as the rows they return. *)

(** [.eq('assigned_driver_id', user.id).neq('status', 'completed')
     .order('scheduled_time', { ascending: true })] *)
Definition select_assigned_bookings (driver : uuid)
    : M (DbError + list Booking.t) :=
  request (SelectAssignedBookings driver)
    (fun _ d =>
       reads (order Booking.scheduled_time true
                (filter (fun b => Booking.assigned_driver_id b = Some driver /\
                                  Booking.status b <> BookingStatus.completed)
                        (bookings d))) d).

(** [.eq('driver_id', user.id).order('departure_time', { ascending: true })] *)
Definition select_my_trips (driver : uuid) : M (DbError + list Trip.t) :=
  request (SelectMyTrips driver)
    (fun _ d =>
       reads (order Trip.departure_time true
                (filter (fun r => Trip.driver_id r = driver)
                        (driver_trips d))) d).

(** [.eq('booking_type', 'custom_request').eq('status', 'pending')
     .is('driver_trip_id', null).order('created_at', { ascending: false })] *)
Definition select_pending_requests : M (DbError + list Booking.t) :=
  request SelectPendingRequests
    (fun _ d =>
       reads (order Booking.created_at false
                (filter (fun b =>
                           Booking.booking_type b = BookingType.custom_request /\
                           Booking.status b = BookingStatus.pending /\
                           Booking.driver_trip_id b = None)
                        (bookings d))) d).

(** The admin's [bookingsQuery]: all bookings, newest first, restricted to
    the window of the selected date when [filters.date] is set. *)
Definition select_bookings (date : option DateWindow)
    : M (DbError + list Booking.t) :=
  request (SelectBookings date)
    (fun _ d =>
       reads (order Booking.created_at false
                (filter (fun b => in_window date (Booking.scheduled_time b))
                        (bookings d))) d).

(** The admin's [tripsQuery]. *)
Definition select_driver_trips (f : Filters) : M (DbError + list Trip.t) :=
  request (SelectDriverTrips f)
    (fun _ d =>
       reads (order Trip.departure_time true
                (filter (fun r =>
                           matches (filter_driver f) (Trip.driver_id r) /\
                           matches (filter_status f) (Trip.status r) /\
                           in_window (filter_date f) (Trip.departure_time r))
                        (driver_trips d))) d).

(** [.from('profiles').select('*').eq('role', 'driver')] *)
Definition select_drivers : M (DbError + list Profile.t) :=
  request SelectDrivers
    (fun _ d =>
       reads (filter (fun p => Profile.role p = UserRole.driver)
                     (profiles d)) d).

(** [rows.find(r => r.id === k)] *)
Definition find_booking (k : uuid) (rows : list Booking.t)
    : option Booking.t :=
  find (fun r => String.eqb (Booking.id r) k) rows.

Definition find_trip (k : uuid) (rows : list Trip.t) : option Trip.t :=
  find (fun r => String.eqb (Trip.id r) k) rows.

(** ** The driver dashboard *)

Module DriverDashboard.

(** The trip form, with its numeric fields already parsed. *)
Record TripForm := mkTripForm {
  form_origin : string;
  form_destination : string;
  form_departure_time : option Z;
  form_available_seats : option Z;
  form_price_per_seat : option Z;
  form_whole_car_price : option Z
}.

Definition blank_form : TripForm :=
  mkTripForm "" "" None None None None.

(** The component state the handlers read and set; [user] comes from
    [useAuth()]. *)
Record State := mkState {
  user : option uuid;
  assignedBookings : list Booking.t;
  myTrips : list Trip.t;
  pendingRequests : list Booking.t;
  showCreateTrip : bool;
  editingTrip : option uuid;
  assigningRequest : option uuid;
  assignmentSeats : gmap string Z;
  newTrip : TripForm
}.

Definition setAssignedBookings (v : list Booking.t) (s : State) : State :=
  mkState (user s) v (myTrips s) (pendingRequests s) (showCreateTrip s)
    (editingTrip s) (assigningRequest s) (assignmentSeats s) (newTrip s).

Definition setMyTrips (v : list Trip.t) (s : State) : State :=
  mkState (user s) (assignedBookings s) v (pendingRequests s)
    (showCreateTrip s) (editingTrip s) (assigningRequest s)
    (assignmentSeats s) (newTrip s).

Definition setPendingRequests (v : list Booking.t) (s : State) : State :=
  mkState (user s) (assignedBookings s) (myTrips s) v (showCreateTrip s)
    (editingTrip s) (assigningRequest s) (assignmentSeats s) (newTrip s).

Definition setShowCreateTrip (v : bool) (s : State) : State :=
  mkState (user s) (assignedBookings s) (myTrips s) (pendingRequests s) v
    (editingTrip s) (assigningRequest s) (assignmentSeats s) (newTrip s).

Definition setEditingTrip (v : option uuid) (s : State) : State :=
  mkState (user s) (assignedBookings s) (myTrips s) (pendingRequests s)
    (showCreateTrip s) v (assigningRequest s) (assignmentSeats s)
    (newTrip s).

Definition setAssigningRequest (v : option uuid) (s : State) : State :=
  mkState (user s) (assignedBookings s) (myTrips s) (pendingRequests s)
    (showCreateTrip s) (editingTrip s) v (assignmentSeats s) (newTrip s).

Definition setAssignmentSeats (v : gmap string Z) (s : State) : State :=
  mkState (user s) (assignedBookings s) (myTrips s) (pendingRequests s)
    (showCreateTrip s) (editingTrip s) (assigningRequest s) v (newTrip s).

Definition setNewTrip (v : TripForm) (s : State) : State :=
  mkState (user s) (assignedBookings s) (myTrips s) (pendingRequests s)
    (showCreateTrip s) (editingTrip s) (assigningRequest s)
    (assignmentSeats s) v.

Definition fetchBookings (s : State) : M State :=
  match user s with
  | None => ret s
  | Some uid =>
      let* r := select_assigned_bookings uid in
      match r with
      | inr data => ret (setAssignedBookings data s)
      | inl _ => ret s
      end
  end.

Definition fetchMyTrips (s : State) : M State :=
  match user s with
  | None => ret s
  | Some uid =>
      let* r := select_my_trips uid in
      match r with
      | inr data => ret (setMyTrips data s)
      | inl _ => ret s
      end
  end.

Definition fetchPendingRequests (s : State) : M State :=
  match user s with
  | None => ret s
  | Some _ =>
      let* r := select_pending_requests in
      match r with
      | inr data => ret (setPendingRequests data s)
      | inl _ => ret s
      end
  end.

Definition handleCreateTrip (s : State) : M State :=
  match user s with
  | None => ret s
  | Some uid =>
      let f := newTrip s in
      let* r := insert_driver_trip
                  (NewTrip.mk uid (form_origin f) (form_destination f)
                     (form_departure_time f) (form_available_seats f)
                     (form_price_per_seat f) (form_whole_car_price f)) in
      match r with
      | inr _ =>
          fetchMyTrips (setNewTrip blank_form (setShowCreateTrip false s))
      | inl e =>
          let* _ := alert (ErrorCreatingTrip e) in ret s
      end
  end.

Definition handleUpdateTrip (s : State) (tripId : uuid)
    (updates : TripPatch.t) : M State :=
  let* r := update_driver_trips tripId updates in
  match r with
  | inr _ => fetchMyTrips (setEditingTrip None s)
  | inl e => let* _ := alert (ErrorUpdatingTrip e) in ret s
  end.

(** [confirmed] is the answer to the [confirm(...)] dialog. *)
Definition handleDeleteTrip (s : State) (tripId : uuid) (confirmed : bool)
    : M State :=
  if confirmed then
    let* r := delete_driver_trip tripId in
    match r with
    | inr _ => fetchMyTrips s
    | inl e => let* _ := alert (ErrorDeletingTrip e) in ret s
    end
  else ret s.

(** The three refreshes started, without being awaited, once an
    assignment went through; they are answered in the order they were
    started. *)
Definition refresh (s : State) : M State :=
  let* s1 := fetchPendingRequests s in
  let* s2 := fetchMyTrips s1 in
  fetchBookings s2.

Definition assignment (tripId uid : uuid) (seats price : Z)
    : BookingPatch.t :=
  BookingPatch.mk (Some tripId) (Some uid) (Some BookingStatus.assigned)
    (Some seats) (Some price).

Definition handleAssignRequest (s : State) (requestId tripId : uuid)
    (seats : Z) : M State :=
  match user s with
  | None => ret s
  | Some uid =>
      match find_booking requestId (pendingRequests s),
            find_trip tripId (myTrips s) with
      | Some request, Some trip =>
          let availableSeats :=
            Trip.available_seats trip - Trip.booked_seats trip in
          if decide (seats > availableSeats) then
            let* _ := alert (NotEnoughSeats availableSeats) in ret s
          else if decide (seats > to_number (Booking.seats_booked request))
          then
            let* _ := alert (MoreThanRequested (Booking.seats_booked request))
            in ret s
          else
            let price := seats * Trip.price_per_seat trip in
            let* bookingError :=
              update_bookings requestId
                (assignment tripId uid seats price) in
            match bookingError with
            | inr _ =>
                let* tripError :=
                  update_driver_trips tripId
                    (TripPatch.setBookedSeats
                       (Trip.booked_seats trip + seats)) in
                match tripError with
                | inr _ =>
                    refresh (setAssignmentSeats ∅
                               (setAssigningRequest None s))
                | inl e =>
                    let* _ := alert (ErrorUpdatingTrip e) in ret s
                end
            | inl e =>
                let* _ := alert (ErrorAssigningRequest e) in ret s
            end
      | _, _ => ret s
      end
  end.

(** The trips offered for a pending request in the Pending Requests tab. *)
Definition matchingTrips (trips : list Trip.t) (request : Booking.t)
    : list Trip.t :=
  filter (fun trip =>
            Trip.status trip = TripStatus.scheduled /\
            Trip.origin trip = Booking.pickup_location request /\
            Trip.destination trip = Booking.dropoff_location request /\
            Trip.available_seats trip - Trip.booked_seats trip > 0 /\
            Trip.departure_time trip >= Booking.scheduled_time request)
         trips.

End DriverDashboard.

(** ** The admin dashboard *)

Module AdminDashboard.

Inductive PriceField := price_per_seat | whole_car_price.

Record State := mkState {
  bookings : list Booking.t;
  customRequests : list Booking.t;
  driverTrips : list Trip.t;
  drivers : list Profile.t;
  filters : Filters;
  editingPrice : option (uuid * PriceField);
  matchingRequest : option uuid;
  matchingSeats : gmap string Z
}.

Definition setBookings (v : list Booking.t) (s : State) : State :=
  mkState v (customRequests s) (driverTrips s) (drivers s) (filters s)
    (editingPrice s) (matchingRequest s) (matchingSeats s).

Definition setCustomRequests (v : list Booking.t) (s : State) : State :=
  mkState (bookings s) v (driverTrips s) (drivers s) (filters s)
    (editingPrice s) (matchingRequest s) (matchingSeats s).

Definition setDriverTrips (v : list Trip.t) (s : State) : State :=
  mkState (bookings s) (customRequests s) v (drivers s) (filters s)
    (editingPrice s) (matchingRequest s) (matchingSeats s).

Definition setDrivers (v : list Profile.t) (s : State) : State :=
  mkState (bookings s) (customRequests s) (driverTrips s) v (filters s)
    (editingPrice s) (matchingRequest s) (matchingSeats s).

Definition setEditingPrice (v : option (uuid * PriceField)) (s : State)
    : State :=
  mkState (bookings s) (customRequests s) (driverTrips s) (drivers s)
    (filters s) v (matchingRequest s) (matchingSeats s).

Definition setMatchingRequest (v : option uuid) (s : State) : State :=
  mkState (bookings s) (customRequests s) (driverTrips s) (drivers s)
    (filters s) (editingPrice s) v (matchingSeats s).

Definition setMatchingSeats (v : gmap string Z) (s : State) : State :=
  mkState (bookings s) (customRequests s) (driverTrips s) (drivers s)
    (filters s) (editingPrice s) (matchingRequest s) v.

(** The filter [fetchData] applies to the fetched bookings. *)
Definition pendingRequests (bookingsData : list Booking.t)
    : list Booking.t :=
  filter (fun b =>
            Booking.booking_type b = BookingType.custom_request /\
            Booking.status b = BookingStatus.pending /\
            truthy_str (Booking.driver_trip_id b) = false)
         bookingsData.

Definition fetchData (s : State) : M State :=
  let* r1 := select_bookings (filter_date (filters s)) in
  let* _ := match r1 with
            | inl e => emit (ConsoleError e)
            | inr _ => ret tt
            end in
  let s1 := match r1 with
            | inr bookingsData =>
                setCustomRequests (pendingRequests bookingsData)
                  (setBookings bookingsData s)
            | inl _ => s
            end in
  let* r2 := select_driver_trips (filters s) in
  let s2 := match r2 with
            | inr tripsData => setDriverTrips tripsData s1
            | inl _ => s1
            end in
  let* r3 := select_drivers in
  match r3 with
  | inr driversData => ret (setDrivers driversData s2)
  | inl _ => ret s2
  end.

Definition handleUpdateTripPrice (s : State) (tripId : uuid)
    (field : PriceField) (value : Z) : M State :=
  let* r := update_driver_trips tripId
              (match field with
               | price_per_seat => TripPatch.setPricePerSeat value
               | whole_car_price => TripPatch.setWholeCarPrice value
               end) in
  match r with
  | inr _ => fetchData (setEditingPrice None s)
  | inl e => let* _ := alert (ErrorUpdatingPrice e) in ret s
  end.

(** [seatsToAssign || matchingSeats[`${requestId}-${tripId}`] ||
     request.seats_booked || 1] *)
Definition seatsFor (s : State) (request : Booking.t)
    (requestId tripId : uuid) (seatsToAssign : option Z) : Z :=
  default 1
    (js_or (js_or (js_or seatsToAssign
                         (matchingSeats s !! seatKey requestId tripId))
                  (Booking.seats_booked request))
           (Some 1)).

Definition updateData (tripId : uuid) (trip : Trip.t) (seats : Z)
    : BookingPatch.t :=
  BookingPatch.mk (Some tripId) (Some (Trip.driver_id trip))
    (Some BookingStatus.assigned) (Some seats)
    (Some (seats * Trip.price_per_seat trip)).

Definition handleMatchRequest (s : State) (requestId tripId : uuid)
    (seatsToAssign : option Z) : M State :=
  match find_booking requestId (customRequests s),
        find_trip tripId (driverTrips s) with
  | Some request, Some trip =>
      let availableSeats :=
        Trip.available_seats trip - Trip.booked_seats trip in
      let seats := seatsFor s request requestId tripId seatsToAssign in
      if decide (seats > availableSeats) then
        let* _ := alert (NotEnoughSeats availableSeats) in ret s
      else if decide (seats > to_number (Booking.seats_booked request))
      then
        let* _ := alert (MoreThanRequested (Booking.seats_booked request))
        in ret s
      else
        let* bookingError :=
          update_bookings requestId (updateData tripId trip seats) in
        match bookingError with
        | inr _ =>
            let newBookedSeats := Trip.booked_seats trip + seats in
            let* tripError :=
              update_driver_trips tripId
                (TripPatch.setBookedSeats newBookedSeats) in
            match tripError with
            | inr _ =>
                fetchData (setMatchingSeats ∅ (setMatchingRequest None s))
            | inl e =>
                let* _ := alert (ErrorUpdatingTrip e) in ret s
            end
        | inl e =>
            let* _ := alert (ErrorMatchingRequest e) in ret s
        end
  | _, _ => ret s
  end.

(** The trips listed in the "Match with Available Trip" panel of a
    request. *)
Definition tripsToMatch (trips : list Trip.t) (request : Booking.t)
    : list Trip.t :=
  filter (fun t =>
            Trip.status t = TripStatus.scheduled /\
            Trip.departure_time t >= Booking.scheduled_time request)
         trips.

End AdminDashboard.

(** ** Reading a trace *)

(** The requests of a trace, in the order they were issued. *)
Definition calls (tr : list Event) : list Call :=
  omap (fun e => match e with Request c _ => Some c | _ => None end) tr.

Definition is_write (c : Call) : bool :=
  match c with
  | UpdateBookings _ _ | UpdateDriverTrips _ _
  | InsertDriverTrip _ | DeleteDriverTrip _ => true
  | _ => false
  end.

(** An event of a refresh: a query that writes nothing, or a logged
    error. *)
Definition is_refresh (e : Event) : Prop :=
  match e with
  | Request c _ => is_write c = false
  | ConsoleError _ => True
  | Alert _ => False
  end.

Definition reads_trips (c : Call) : bool :=
  match c with
  | SelectMyTrips _ | SelectDriverTrips _ => true
  | _ => false
  end.

(** The trace answered a [bookings] (a [driver_trips]) update on row [k]
    without an error. *)
Definition booking_updated (k : uuid) (tr : list Event) : Prop :=
  exists p, Request (UpdateBookings k p) None ∈ tr.

Definition trip_updated (k : uuid) (tr : list Event) : Prop :=
  exists p, Request (UpdateDriverTrips k p) None ∈ tr.

(** The shape "read the trip, update the booking, update the trip" of a
    list of requests. *)
Definition read_update_update (cs : list Call) : bool :=
  match cs with
  | [c1; UpdateBookings _ _; UpdateDriverTrips _ _] => reads_trips c1
  | _ => false
  end.

(** What a match or assign action can leave in the trace: the updates
    [ub] on [bookings] and [ut] on [driver_trips], each at most once and in
    this order, then only the refresh. *)
Inductive match_flow (ub ut : Call) : list Event -> Prop :=
| flow_nothing : match_flow ub ut []
| flow_refused m : match_flow ub ut [Alert m]
| flow_booking_failed e m :
    match_flow ub ut [Request ub (Some e); Alert m]
| flow_trip_failed e m :
    match_flow ub ut [Request ub None; Request ut (Some e); Alert m]
| flow_done tr :
    Forall is_refresh tr ->
    match_flow ub ut (Request ub None :: Request ut None :: tr).

(** How a match or assign action that got past its guards can end, from the
    database [d] and the client state [s]: [p] is the update sent for
    booking [k] and [q] the one sent for trip [t].  Either the booking
    update is refused and nothing changes; or it is applied and the trip
    update is refused; or both are applied, one after the other, and the
    client refreshes. *)
Inductive match_outcome {S} (d : Db) (s : S) (k t : uuid)
    (p : BookingPatch.t) (q : TripPatch.t)
    (onBooking onTrip : DbError -> AlertMsg) : Run S -> Prop :=
| booking_refused e n' :
    match_outcome d s k t p q onBooking onTrip
      (mkRun s d n'
         [Request (UpdateBookings k p) (Some e); Alert (onBooking e)])
| trip_refused d1 e n' :
    db_update_bookings d k p = inr d1 ->
    match_outcome d s k t p q onBooking onTrip
      (mkRun s d1 n'
         [Request (UpdateBookings k p) None;
          Request (UpdateDriverTrips t q) (Some e); Alert (onTrip e)])
| both_applied d1 now d2 s' n' tr :
    db_update_bookings d k p = inr d1 ->
    db_update_driver_trips now d1 t q = inr d2 ->
    Forall is_refresh tr ->
    match_outcome d s k t p q onBooking onTrip
      (mkRun s' d2 n'
         (Request (UpdateBookings k p) None ::
          Request (UpdateDriverTrips t q) None :: tr)).

(** A computation that only refreshes the client: it leaves the database as
    it found it and issues no write. *)
Definition refreshes {A} (m : M A) : Prop :=
  forall d n, final (m d n) = d /\ Forall is_refresh (trace (m d n)).

(** A computation that keeps the check constraints of [driver_trips]. *)
Definition keeps_checks {A} (m : M A) : Prop :=
  forall d n,
    Forall trip_checks (driver_trips d) ->
    Forall trip_checks (driver_trips (final (m d n))).

(** The trips the driver dashboard holds are the signed-in driver's own:
    [fetchMyTrips] is the only writer of [myTrips]. *)
Definition own_trips (s : DriverDashboard.State) : Prop :=
  forall uid,
    DriverDashboard.user s = Some uid ->
    Forall (fun r => Trip.driver_id r = uid) (DriverDashboard.myTrips s).

(** Two rows of [driver_trips] that agree on every column but
    [booked_seats] and [updated_at]. *)
Definition same_but_booked_seats (r r' : Trip.t) : Prop :=
  Trip.id r' = Trip.id r /\
  Trip.driver_id r' = Trip.driver_id r /\
  Trip.origin r' = Trip.origin r /\
  Trip.destination r' = Trip.destination r /\
  Trip.departure_time r' = Trip.departure_time r /\
  Trip.available_seats r' = Trip.available_seats r /\
  Trip.price_per_seat r' = Trip.price_per_seat r /\
  Trip.whole_car_price r' = Trip.whole_car_price r /\
  Trip.status r' = Trip.status r /\
  Trip.created_at r' = Trip.created_at r.

(** Two rows of [driver_trips] that agree on every column but the two
    prices and [updated_at]. *)
Definition same_but_prices (r r' : Trip.t) : Prop :=
  Trip.id r' = Trip.id r /\
  Trip.driver_id r' = Trip.driver_id r /\
  Trip.origin r' = Trip.origin r /\
  Trip.destination r' = Trip.destination r /\
  Trip.departure_time r' = Trip.departure_time r /\
  Trip.available_seats r' = Trip.available_seats r /\
  Trip.booked_seats r' = Trip.booked_seats r /\
  Trip.status r' = Trip.status r /\
  Trip.created_at r' = Trip.created_at r.

(** The seats of a trip that are still free. *)
Definition remaining (r : Trip.t) : Z :=
  Trip.available_seats r - Trip.booked_seats r.

(** The writers of [driver_trips]: one step of any of them. *)
Inductive trip_step (d : Db) : Db -> Prop :=
| step_create_trip s n :
    trip_step d (final (DriverDashboard.handleCreateTrip s d n))
| step_update_trip s k p n :
    trip_step d (final (DriverDashboard.handleUpdateTrip s k p d n))
| step_delete_trip s k c n :
    trip_step d (final (DriverDashboard.handleDeleteTrip s k c d n))
| step_assign_request s k t seats n :
    trip_step d (final (DriverDashboard.handleAssignRequest s k t seats d n))
| step_update_trip_price s k f v n :
    trip_step d (final (AdminDashboard.handleUpdateTripPrice s k f v d n))
| step_match_request s k t seats n :
    trip_step d (final (AdminDashboard.handleMatchRequest s k t seats d n)).

(** ** Sample data *)

Module Sample.

Definition abel : Profile.t :=
  Profile.mk "d1" (Some "Abel") "0911000001" UserRole.driver true 0.
Definition sara : Profile.t :=
  Profile.mk "c1" (Some "Sara") "0911000002" UserRole.customer false 0.

(** Addis Ababa to Hawassa, 4 seats at 500.00 each. *)
Definition hawassa : Trip.t :=
  Trip.mk "t1" "d1" "Addis Ababa" "Hawassa" 2000 4 0 50000 180000
    TripStatus.scheduled 0 0.

(** Bahir Dar to Gondar, 3 seats at 300.00 each. *)
Definition gondar : Trip.t :=
  Trip.mk "t2" "d1" "Bahir Dar" "Gondar" 3000 3 0 30000 80000
    TripStatus.scheduled 0 0.

(** A pending request for one seat from Addis Ababa to Hawassa. *)
Definition request : Booking.t :=
  Booking.mk "r1" 10 "Sara" "0911000002" (Some "c1")
    "Addis Ababa" "Hawassa" 1000
    BookingStatus.pending BookingType.custom_request
    None None (Some 1) None None.

Definition db : Db := mkDb [request] [hawassa; gondar] [abel; sara].

Definition ok (now : Z) : Reply := mkReply true now "".
Definition lost : Reply := mkReply false 0 "".

Definition driver : DriverDashboard.State :=
  DriverDashboard.mkState (Some "d1") [] [hawassa; gondar] [request]
    false None None ∅ DriverDashboard.blank_form.

Definition no_filters : Filters := mkFilters None None None.

Definition admin : AdminDashboard.State :=
  AdminDashboard.mkState [request] [request] [hawassa; gondar] [abel]
    no_filters None None ∅.

(** The admin dashboard with a date selected whose window runs from
    86400000 to 172799999. *)
Definition on_day : DateWindow := mkDateWindow 86400000 172799999.

Definition admin_on_day : AdminDashboard.State :=
  AdminDashboard.mkState [] [] [] [] (mkFilters (Some on_day) None None)
    None None ∅.

Definition trip_form : DriverDashboard.TripForm :=
  DriverDashboard.mkTripForm "Addis Ababa" "Adama" (Some 5000) (Some 4)
    (Some 20000) (Some 70000).

(** The driver about to submit the trip form, a database without trips,
    and a reply that draws the identifier [t9]. *)
Definition creating : DriverDashboard.State :=
  DriverDashboard.mkState (Some "d1") [] [] [] true None None ∅ trip_form.

Definition no_trips : Db := mkDb [request] [] [abel; sara].

Definition created (now : Z) : Reply := mkReply true now "t9".

End Sample.

(** ** The rest of the two dashboards

    The seat selectors of the two matching panels, the price fields of the
    driver's trip card, the "Complete Job" button of the driver and the
    price field of the admin's request card. *)

(** [a || b] where [b] is a number. *)
Definition js_or_else (a : option Z) (b : Z) : Z :=
  default b (js_or a (Some b)).

Module DriverTabs.

(** [Math.min(availableSeats, request.seats_booked || 1)] *)
Definition maxSeats (request : Booking.t) (trip : Trip.t) : Z :=
  Z.min (Trip.available_seats trip - Trip.booked_seats trip)
        (js_or_else (Booking.seats_booked request) 1).

(** [assignmentSeats[seatKey] ||
     Math.min(maxSeats, request.seats_booked || 1)] *)
Definition selectedSeats (s : DriverDashboard.State) (request : Booking.t)
    (trip : Trip.t) : Z :=
  js_or_else
    (DriverDashboard.assignmentSeats s
       !! seatKey (Booking.id request) (Trip.id trip))
    (Z.min (maxSeats request trip)
           (js_or_else (Booking.seats_booked request) 1)).

(** The [onChange] of the seat input; [typed] is [parseInt(e.target.value)],
    [None] when it is [NaN]. *)
Definition changeSeats (s : DriverDashboard.State) (request : Booking.t)
    (trip : Trip.t) (typed : option Z) : DriverDashboard.State :=
  let seats := js_or_else typed 1 in
  DriverDashboard.setAssignmentSeats
    (<[seatKey (Booking.id request) (Trip.id trip) :=
         Z.min (Z.max 1 seats) (maxSeats request trip)]>
       (DriverDashboard.assignmentSeats s))
    s.

(** The [onClick] of the Assign button. *)
Definition assign (s : DriverDashboard.State) (request : Booking.t)
    (trip : Trip.t) : M DriverDashboard.State :=
  DriverDashboard.handleAssignRequest s (Booking.id request) (Trip.id trip)
    (selectedSeats s request trip).

(** The [onBlur] of the two fields of the "Edit Trip Pricing" panel, the
    only callers of [handleUpdateTrip]; [typed] is
    [parseFloat(e.target.value)], [None] when the field is empty. *)
Definition blurPricePerSeat (s : DriverDashboard.State) (trip : Trip.t)
    (typed : option Z) : M DriverDashboard.State :=
  match typed with
  | Some v =>
      DriverDashboard.handleUpdateTrip s (Trip.id trip)
        (TripPatch.setPricePerSeat v)
  | None => ret s
  end.

Definition blurWholeCarPrice (s : DriverDashboard.State) (trip : Trip.t)
    (typed : option Z) : M DriverDashboard.State :=
  match typed with
  | Some v =>
      DriverDashboard.handleUpdateTrip s (Trip.id trip)
        (TripPatch.setWholeCarPrice v)
  | None => ret s
  end.

Definition completeJob (s : DriverDashboard.State) (bookingId : uuid)
    : M DriverDashboard.State :=
  let* r := update_bookings bookingId
              (BookingPatch.mk None None (Some BookingStatus.completed)
                 None None) in
  match r with
  | inr _ => DriverDashboard.fetchBookings s
  | inl _ => ret s
  end.

End DriverTabs.

Module AdminTabs.

(** [request.seats_booked || 1] *)
Definition requestedSeats (request : Booking.t) : Z :=
  js_or_else (Booking.seats_booked request) 1.

Definition maxSeats (request : Booking.t) (trip : Trip.t) : Z :=
  Z.min (Trip.available_seats trip - Trip.booked_seats trip)
        (requestedSeats request).

(** [availableSeats > 0 && requestedSeats > 0]: whether the Match button is
    rendered. *)
Definition canMatch (request : Booking.t) (trip : Trip.t) : bool :=
  (Trip.available_seats trip - Trip.booked_seats trip >? 0) &&
  (requestedSeats request >? 0).

(** [matchingSeats[seatKey] || Math.min(requestedSeats, availableSeats)] *)
Definition selectedSeats (s : AdminDashboard.State) (request : Booking.t)
    (trip : Trip.t) : Z :=
  js_or_else
    (AdminDashboard.matchingSeats s
       !! seatKey (Booking.id request) (Trip.id trip))
    (Z.min (requestedSeats request)
           (Trip.available_seats trip - Trip.booked_seats trip)).

Definition changeSeats (s : AdminDashboard.State) (request : Booking.t)
    (trip : Trip.t) (typed : option Z) : AdminDashboard.State :=
  let seats := js_or_else typed 1 in
  AdminDashboard.setMatchingSeats
    (<[seatKey (Booking.id request) (Trip.id trip) :=
         Z.min (Z.max 1 seats) (maxSeats request trip)]>
       (AdminDashboard.matchingSeats s))
    s.

(** The [onClick] of the Match button. *)
Definition clickMatch (s : AdminDashboard.State) (request : Booking.t)
    (trip : Trip.t) : M AdminDashboard.State :=
  AdminDashboard.handleMatchRequest s (Booking.id request) (Trip.id trip)
    (Some (selectedSeats s request trip)).

Definition handleUpdateBookingPrice (s : AdminDashboard.State)
    (bookingId : uuid) (price : Z) : M AdminDashboard.State :=
  let* r := update_bookings bookingId
              (BookingPatch.mk None None None None (Some price)) in
  match r with
  | inr _ => AdminDashboard.fetchData s
  | inl e => let* _ := alert (ErrorUpdatingPrice e) in ret s
  end.

End AdminTabs.

(** A list of rows in the order [.order(key, { ascending })] asks for. *)
Fixpoint ordered {A} (key : A -> Z) (ascending : bool) (l : list A) : Prop :=
  match l with
  | [] => True
  | x :: l' =>
      Forall (fun y => if ascending then key x <= key y else key y <= key x)
             l' /\
      ordered key ascending l'
  end.

(** More sample data: a request that asks for two seats, one whose
    [seats_booked] is null and one whose [seats_booked] is negative; a job
    assigned to the driver. *)
Module Sample2.

Definition for_two : Booking.t :=
  Booking.mk "r2" 20 "Sara" "0911000002" (Some "c1")
    "Addis Ababa" "Hawassa" 1000
    BookingStatus.pending BookingType.custom_request
    None None (Some 2) None None.

Definition seatless : Booking.t :=
  Booking.mk "r3" 30 "Sara" "0911000002" (Some "c1")
    "Addis Ababa" "Hawassa" 1000
    BookingStatus.pending BookingType.custom_request
    None None None None None.

Definition negative : Booking.t :=
  Booking.mk "r4" 40 "Sara" "0911000002" (Some "c1")
    "Addis Ababa" "Hawassa" 1000
    BookingStatus.pending BookingType.custom_request
    None None (Some (-1)) None None.

Definition job : Booking.t :=
  Booking.mk "r5" 50 "Sara" "0911000002" (Some "c1")
    "Addis Ababa" "Hawassa" 1000
    BookingStatus.assigned BookingType.custom_request
    (Some "d1") (Some "t1") (Some 1) (Some 50000) None.

Definition db : Db :=
  mkDb [for_two; seatless; negative; job]
       [Sample.hawassa; Sample.gondar] [Sample.abel; Sample.sara].

Definition driver : DriverDashboard.State :=
  DriverDashboard.mkState (Some "d1") [job]
    [Sample.hawassa; Sample.gondar] [for_two; seatless; negative]
    false None None ∅ DriverDashboard.blank_form.

Definition admin : AdminDashboard.State :=
  AdminDashboard.mkState [for_two; seatless; negative; job]
    [for_two; seatless; negative] [Sample.hawassa; Sample.gondar]
    [Sample.abel] Sample.no_filters None None ∅.

(** A database with two requests that can be matched, and a driver and an
    admin who both hold the same copy of its trips. *)
Definition two_requests : Db :=
  mkDb [Sample.request; for_two] [Sample.hawassa; Sample.gondar]
       [Sample.abel; Sample.sara].

Definition driver_of_two : DriverDashboard.State :=
  DriverDashboard.mkState (Some "d1") []
    [Sample.hawassa; Sample.gondar] [Sample.request; for_two]
    false None None ∅ DriverDashboard.blank_form.

Definition admin_of_two : AdminDashboard.State :=
  AdminDashboard.mkState [Sample.request; for_two]
    [Sample.request; for_two] [Sample.hawassa; Sample.gondar]
    [Sample.abel] Sample.no_filters None None ∅.

(** The trip to Hawassa once three of its four seats have been booked, and
    the database of the two requests with that row. *)
Definition hawassa_booked : Trip.t :=
  Trip.mk "t1" "d1" "Addis Ababa" "Hawassa" 2000 4 3 50000 180000
    TripStatus.scheduled 0 5.

Definition booked : Db :=
  mkDb [Sample.request; for_two] [hawassa_booked; Sample.gondar]
       [Sample.abel; Sample.sara].

End Sample2.

(** * Properties *)

(** ** The database statements *)

Lemma db_update_bookings_inr d k p d' :
  db_update_bookings d k p = inr d' ->
  d' = mkDb (patch_booking k p <$> bookings d) (driver_trips d) (profiles d).
Proof.
  unfold db_update_bookings. intros H.
  repeat case_decide; congruence.
Qed.

Lemma db_update_driver_trips_inr now d k p d' :
  db_update_driver_trips now d k p = inr d' ->
  d' = mkDb (bookings d) (patch_trip now k p <$> driver_trips d) (profiles d)
  /\ Forall trip_checks
       (filter (fun r => Trip.id r = k)
               (patch_trip now k p <$> driver_trips d)).
Proof.
  unfold db_update_driver_trips. intros H.
  repeat case_decide; try congruence.
  split; [congruence | assumption].
Qed.

Lemma patch_booking_id k p b : Booking.id (patch_booking k p b) = Booking.id b.
Proof. unfold patch_booking. destruct (String.eqb _ _); reflexivity. Qed.

Lemma patch_trip_id now k p r : Trip.id (patch_trip now k p r) = Trip.id r.
Proof. unfold patch_trip. destruct (String.eqb _ _); reflexivity. Qed.

Lemma patch_booking_hit k p b :
  Booking.id b = k -> patch_booking k p b = BookingPatch.apply p b.
Proof.
  intros <-. unfold patch_booking. now rewrite String.eqb_refl.
Qed.

Lemma patch_booking_miss k p b :
  Booking.id b <> k -> patch_booking k p b = b.
Proof.
  intros H. unfold patch_booking.
  destruct (String.eqb_spec (Booking.id b) k); [contradiction | reflexivity].
Qed.

Lemma patch_trip_hit now k p r :
  Trip.id r = k -> patch_trip now k p r = touch now (TripPatch.apply p r).
Proof.
  intros <-. unfold patch_trip. now rewrite String.eqb_refl.
Qed.

Lemma patch_trip_miss now k p r :
  Trip.id r <> k -> patch_trip now k p r = r.
Proof.
  intros H. unfold patch_trip.
  destruct (String.eqb_spec (Trip.id r) k); [contradiction | reflexivity].
Qed.

(** Every row of [driver_trips] satisfies its check constraints after an
    accepted update, if it did before. *)
Lemma db_update_driver_trips_checks now d k p d' :
  Forall trip_checks (driver_trips d) ->
  db_update_driver_trips now d k p = inr d' ->
  Forall trip_checks (driver_trips d').
Proof.
  intros Hinv H. apply db_update_driver_trips_inr in H as [-> Hhit].
  simpl. rewrite Forall_forall in *. intros r' Hr'.
  apply list_elem_of_fmap in Hr' as [r [-> Hr]].
  destruct (decide (Trip.id r = k)) as [Heq | Hne].
  - apply Hhit. apply list_elem_of_filter. split.
    + now rewrite patch_trip_id.
    + apply list_elem_of_fmap. eauto.
  - rewrite patch_trip_miss by assumption. auto.
Qed.

Lemma db_insert_driver_trip_checks now fresh d n d' :
  Forall trip_checks (driver_trips d) ->
  db_insert_driver_trip now fresh d n = inr d' ->
  Forall trip_checks (driver_trips d').
Proof.
  intros Hinv. unfold db_insert_driver_trip.
  destruct (NewTrip.departure_time n), (NewTrip.available_seats n),
    (NewTrip.price_per_seat n), (NewTrip.whole_car_price n); try discriminate.
  repeat case_decide; try discriminate.
  intros [= <-]. simpl. apply Forall_app. split; [assumption |].
  constructor; [assumption | constructor].
Qed.

Lemma db_delete_driver_trip_checks d k :
  Forall trip_checks (driver_trips d) ->
  Forall trip_checks (driver_trips (db_delete_driver_trip d k)).
Proof.
  intros Hinv. simpl. rewrite Forall_forall in *. intros r Hr.
  apply list_elem_of_filter in Hr as [_ Hr]. auto.
Qed.

(** ** Requests and the monad *)

Lemma request_read {A} c (rows : Db -> A) d n :
  request c (fun _ d => reads (rows d) d) d n =
  match n with
  | r :: n' =>
      if delivered r then mkRun (inr (rows d)) d n' [Request c None]
      else mkRun (inl network_failure) d n' [Request c (Some network_failure)]
  | [] => mkRun (inl network_failure) d [] [Request c (Some network_failure)]
  end.
Proof. unfold request, reads. destruct n as [| r n']; reflexivity. Qed.

Lemma request_read_cases {A} c (rows : Db -> A) d n :
  request c (fun _ d => reads (rows d) d) d n =
    mkRun (inr (rows d)) d (tail n) [Request c None] \/
  exists e,
    request c (fun _ d => reads (rows d) d) d n =
    mkRun (inl e) d (tail n) [Request c (Some e)].
Proof.
  rewrite request_read.
  destruct n as [| r n']; [| destruct (delivered r)]; simpl; eauto.
Qed.

Lemma request_write c exec d n :
  (exists e,
     request c (fun r d => writes (exec r d)) d n =
     mkRun (inl e) d (tail n) [Request c (Some e)]) \/
  (exists r n' d',
     n = r :: n' /\ delivered r = true /\ exec r d = inr d' /\
     request c (fun r d => writes (exec r d)) d n =
     mkRun (inr tt) d' n' [Request c None]).
Proof.
  unfold request. destruct n as [| r n']; [left; eauto |].
  destruct (delivered r) eqn:Hr; [| left; eauto].
  destruct (exec r d) as [e | d'] eqn:He; simpl.
  - left; eauto.
  - right. exists r, n', d'. auto.
Qed.

Lemma update_bookings_run k p d n :
  (exists e,
     update_bookings k p d n =
     mkRun (inl e) d (tail n) [Request (UpdateBookings k p) (Some e)]) \/
  (exists d',
     db_update_bookings d k p = inr d' /\
     update_bookings k p d n =
     mkRun (inr tt) d' (tail n) [Request (UpdateBookings k p) None]).
Proof.
  unfold update_bookings.
  destruct (request_write (UpdateBookings k p)
              (fun _ d => db_update_bookings d k p) d n)
    as [[e He] | (r & n' & d' & -> & _ & Hd & He)]; eauto.
Qed.

Lemma update_driver_trips_run k p d n :
  (exists e,
     update_driver_trips k p d n =
     mkRun (inl e) d (tail n) [Request (UpdateDriverTrips k p) (Some e)]) \/
  (exists now d',
     db_update_driver_trips now d k p = inr d' /\
     update_driver_trips k p d n =
     mkRun (inr tt) d' (tail n) [Request (UpdateDriverTrips k p) None]).
Proof.
  unfold update_driver_trips.
  destruct (request_write (UpdateDriverTrips k p)
              (fun r d => db_update_driver_trips (server_time r) d k p) d n)
    as [[e He] | (r & n' & d' & -> & _ & Hd & He)]; eauto.
Qed.

Lemma refreshes_ret {A} (a : A) : refreshes (ret a).
Proof. intros d n. split; [reflexivity | constructor]. Qed.

Lemma refreshes_bind {A B} (m : M A) (f : A -> M B) :
  refreshes m -> (forall a, refreshes (f a)) -> refreshes (bind m f).
Proof.
  intros Hm Hf d n. unfold bind. simpl.
  destruct (Hm d n) as [Hd Ht].
  destruct (Hf (value (m d n)) (final (m d n)) (rest (m d n))) as [Hd' Ht'].
  split; [congruence | now apply Forall_app].
Qed.

Lemma refreshes_read {A} c (rows : Db -> A) :
  is_write c = false ->
  refreshes (request c (fun _ d => reads (rows d) d)).
Proof.
  intros Hc d n. rewrite request_read.
  destruct n as [| r n']; [| destruct (delivered r)]; simpl;
    (split; [reflexivity | repeat constructor; assumption]).
Qed.

Lemma refreshes_console e : refreshes (emit (ConsoleError e)).
Proof. intros d n. split; [reflexivity | repeat constructor]. Qed.

Ltac refresh_steps :=
  repeat first
    [ apply refreshes_ret
    | apply refreshes_console
    | apply refreshes_read; reflexivity
    | apply refreshes_bind; [| intros ?]
    | match goal with
      | |- refreshes (match ?x with _ => _ end) => destruct x
      end ].

Lemma fetchBookings_refreshes s : refreshes (DriverDashboard.fetchBookings s).
Proof.
  unfold DriverDashboard.fetchBookings, select_assigned_bookings.
  refresh_steps.
Qed.

Lemma fetchMyTrips_refreshes s : refreshes (DriverDashboard.fetchMyTrips s).
Proof.
  unfold DriverDashboard.fetchMyTrips, select_my_trips. refresh_steps.
Qed.

Lemma fetchPendingRequests_refreshes s :
  refreshes (DriverDashboard.fetchPendingRequests s).
Proof.
  unfold DriverDashboard.fetchPendingRequests, select_pending_requests.
  refresh_steps.
Qed.

Lemma refresh_refreshes s : refreshes (DriverDashboard.refresh s).
Proof.
  unfold DriverDashboard.refresh.
  apply refreshes_bind; [apply fetchPendingRequests_refreshes | intros s1].
  apply refreshes_bind; [apply fetchMyTrips_refreshes | intros s2].
  apply fetchBookings_refreshes.
Qed.

Lemma fetchData_refreshes s : refreshes (AdminDashboard.fetchData s).
Proof.
  unfold AdminDashboard.fetchData, select_bookings, select_driver_trips,
    select_drivers.
  refresh_steps.
Qed.

(** ** The two handlers, case by case *)

Arguments DriverDashboard.refresh : simpl never.
Arguments AdminDashboard.fetchData : simpl never.

Section Assign.

Variables (s : DriverDashboard.State) (requestId tripId uid : uuid).
Variables (seats : Z) (request : Booking.t) (trip : Trip.t).

Hypothesis Huser : DriverDashboard.user s = Some uid.
Hypothesis Hrequest :
  find_booking requestId (DriverDashboard.pendingRequests s) = Some request.
Hypothesis Htrip :
  find_trip tripId (DriverDashboard.myTrips s) = Some trip.

Lemma handleAssignRequest_refused d n :
  seats > remaining trip \/ seats > to_number (Booking.seats_booked request) ->
  exists m,
    DriverDashboard.handleAssignRequest s requestId tripId seats d n =
    mkRun s d n [Alert m].
Proof.
  intros Hguard. unfold DriverDashboard.handleAssignRequest.
  rewrite Huser, Hrequest, Htrip. unfold remaining in Hguard.
  repeat case_decide; try (exfalso; lia); eexists; reflexivity.
Qed.

Lemma handleAssignRequest_admitted d n :
  seats <= remaining trip ->
  seats <= to_number (Booking.seats_booked request) ->
  match_outcome d s requestId tripId
    (DriverDashboard.assignment tripId uid seats
       (seats * Trip.price_per_seat trip))
    (TripPatch.setBookedSeats (Trip.booked_seats trip + seats))
    ErrorAssigningRequest ErrorUpdatingTrip
    (DriverDashboard.handleAssignRequest s requestId tripId seats d n).
Proof.
  intros Hfree Hasked. unfold DriverDashboard.handleAssignRequest.
  rewrite Huser, Hrequest, Htrip. unfold remaining in Hfree.
  repeat case_decide; try (exfalso; lia).
  unfold bind.
  destruct (update_bookings_run requestId
              (DriverDashboard.assignment tripId uid seats
                 (seats * Trip.price_per_seat trip)) d n)
    as [[e ->] | [d1 [Hd1 ->]]]; cbn.
  { apply booking_refused. }
  destruct (update_driver_trips_run tripId
              (TripPatch.setBookedSeats (Trip.booked_seats trip + seats))
              d1 (tail n))
    as [[e ->] | [now [d2 [Hd2 ->]]]]; cbn.
  { now apply trip_refused. }
  match goal with
  | |- context [DriverDashboard.refresh ?s' d2 ?n'] =>
      destruct (refresh_refreshes s' d2 n') as [-> Htr]
  end.
  eapply both_applied; eassumption.
Qed.

End Assign.

Section Match.

Variables (s : AdminDashboard.State) (requestId tripId : uuid).
Variables (seatsToAssign : option Z) (request : Booking.t) (trip : Trip.t).

Hypothesis Hrequest :
  find_booking requestId (AdminDashboard.customRequests s) = Some request.
Hypothesis Htrip :
  find_trip tripId (AdminDashboard.driverTrips s) = Some trip.

Abbreviation seats :=
  (AdminDashboard.seatsFor s request requestId tripId seatsToAssign).

Lemma handleMatchRequest_refused d n :
  seats > remaining trip \/ seats > to_number (Booking.seats_booked request) ->
  exists m,
    AdminDashboard.handleMatchRequest s requestId tripId seatsToAssign d n =
    mkRun s d n [Alert m].
Proof.
  intros Hguard. unfold AdminDashboard.handleMatchRequest.
  rewrite Hrequest, Htrip. unfold remaining in Hguard.
  repeat case_decide; try (exfalso; lia); eexists; reflexivity.
Qed.

Lemma handleMatchRequest_admitted d n :
  seats <= remaining trip ->
  seats <= to_number (Booking.seats_booked request) ->
  match_outcome d s requestId tripId
    (AdminDashboard.updateData tripId trip seats)
    (TripPatch.setBookedSeats (Trip.booked_seats trip + seats))
    ErrorMatchingRequest ErrorUpdatingTrip
    (AdminDashboard.handleMatchRequest s requestId tripId seatsToAssign d n).
Proof.
  intros Hfree Hasked. unfold AdminDashboard.handleMatchRequest.
  rewrite Hrequest, Htrip. unfold remaining in Hfree.
  repeat case_decide; try (exfalso; lia).
  unfold bind.
  destruct (update_bookings_run requestId
              (AdminDashboard.updateData tripId trip seats) d n)
    as [[e ->] | [d1 [Hd1 ->]]]; cbn.
  { apply booking_refused. }
  destruct (update_driver_trips_run tripId
              (TripPatch.setBookedSeats (Trip.booked_seats trip + seats))
              d1 (tail n))
    as [[e ->] | [now [d2 [Hd2 ->]]]]; cbn.
  { now apply trip_refused. }
  match goal with
  | |- context [AdminDashboard.fetchData ?s' d2 ?n'] =>
      destruct (fetchData_refreshes s' d2 n') as [Hd Htr]
  end.
  rewrite Hd. eapply both_applied; eassumption.
Qed.

End Match.

(** ** What an outcome tells about the trace and the database *)

Lemma refresh_no_write tr c e :
  Forall is_refresh tr -> Request c e ∈ tr -> is_write c = false.
Proof.
  intros Htr Hin. rewrite Forall_forall in Htr. exact (Htr _ Hin).
Qed.

Section Outcome.

Context {S : Type}.
Variables (d : Db) (s : S) (k t : uuid).
Variables (p : BookingPatch.t) (q : TripPatch.t).
Variables (onBooking onTrip : DbError -> AlertMsg) (r : Run S).

Hypothesis Hr : match_outcome d s k t p q onBooking onTrip r.

Lemma outcome_flow :
  match_flow (UpdateBookings k p) (UpdateDriverTrips t q) (trace r).
Proof. destruct Hr; simpl; now constructor. Qed.

Lemma outcome_booking_updated k' :
  booking_updated k' (trace r) ->
  bookings (final r) = patch_booking k p <$> bookings d.
Proof.
  intros [p' Hin].
  destruct Hr as [e n' | d1 e n' H1 | d1 now d2 s' n' tr H1 H2 Htr]; simpl in *.
  - apply list_elem_of_In in Hin. simpl in Hin.
    destruct Hin as [Hin | [Hin | []]]; discriminate Hin.
  - now apply db_update_bookings_inr in H1 as ->.
  - apply db_update_bookings_inr in H1 as ->.
    now apply db_update_driver_trips_inr in H2 as [-> _].
Qed.

Lemma outcome_trip_updated t' :
  trip_updated t' (trace r) ->
  exists now,
    driver_trips (final r) = patch_trip now t q <$> driver_trips d /\
    bookings (final r) = patch_booking k p <$> bookings d.
Proof.
  intros [q' Hin].
  destruct Hr as [e n' | d1 e n' H1 | d1 now d2 s' n' tr H1 H2 Htr]; simpl in *.
  - apply list_elem_of_In in Hin. simpl in Hin.
    destruct Hin as [Hin | [Hin | []]]; discriminate Hin.
  - apply list_elem_of_In in Hin. simpl in Hin.
    destruct Hin as [Hin | [Hin | [Hin | []]]]; discriminate Hin.
  - exists now. apply db_update_bookings_inr in H1 as ->.
    apply db_update_driver_trips_inr in H2 as [-> _]. simpl. auto.
Qed.

Lemma outcome_trip_not_updated :
  ~ trip_updated t (trace r) -> driver_trips (final r) = driver_trips d.
Proof.
  intros Hno.
  destruct Hr as [e n' | d1 e n' H1 | d1 now d2 s' n' tr H1 H2 Htr]; simpl in *.
  - reflexivity.
  - now apply db_update_bookings_inr in H1 as ->.
  - exfalso. apply Hno. exists q. apply list_elem_of_In. simpl. auto.
Qed.

Lemma outcome_first_request :
  exists e, head (trace r) = Some (Request (UpdateBookings k p) e).
Proof. destruct Hr; simpl; eauto. Qed.

End Outcome.

(** The row of a booking after an update with [p]. *)
Lemma patched_booking_row k p (rows : list Booking.t) b :
  b ∈ (patch_booking k p <$> rows) -> Booking.id b = k ->
  exists b0, b0 ∈ rows /\ Booking.id b0 = k /\ b = BookingPatch.apply p b0.
Proof.
  intros Hin Hid. apply list_elem_of_fmap in Hin as [b0 [-> Hb0]].
  rewrite patch_booking_id in Hid. exists b0.
  rewrite patch_booking_hit by assumption. auto.
Qed.

(** ** Ordering keeps the rows *)

Lemma elem_of_insert_by {A} (key : A -> Z) asc x y (l : list A) :
  x ∈ insert_by key asc y l <-> x = y \/ x ∈ l.
Proof.
  induction l as [| z l IH]; simpl.
  - rewrite list_elem_of_singleton. rewrite elem_of_nil. tauto.
  - destruct (if asc then key y <=? key z else key z <=? key y).
    + rewrite !elem_of_cons. tauto.
    + rewrite !elem_of_cons, IH. tauto.
Qed.

Lemma elem_of_order {A} (key : A -> Z) asc x (l : list A) :
  x ∈ order key asc l <-> x ∈ l.
Proof.
  unfold order. induction l as [| y l IH]; simpl.
  - reflexivity.
  - rewrite elem_of_insert_by, elem_of_cons, IH. reflexivity.
Qed.

(** ** The driver's trips are the driver's own *)

Lemma fetchMyTrips_own s d n :
  own_trips s -> own_trips (value (DriverDashboard.fetchMyTrips s d n)).
Proof.
  intros Hown. unfold DriverDashboard.fetchMyTrips.
  destruct (DriverDashboard.user s) as [uid |] eqn:Huser; [| exact Hown].
  unfold bind, select_my_trips. rewrite request_read.
  destruct n as [| r n']; [exact Hown |].
  destruct (delivered r); [| exact Hown].
  simpl. intros uid' Huid'. simpl in Huid'.
  assert (uid' = uid) as -> by congruence.
  simpl. apply Forall_forall. intros row Hrow.
  apply elem_of_order, list_elem_of_filter in Hrow. tauto.
Qed.

Lemma fetchMyTrips_sample_own :
  own_trips Sample.driver /\
  own_trips
    (value (DriverDashboard.fetchMyTrips Sample.driver Sample.db
              [Sample.ok 1])).
Proof.
  assert (own_trips Sample.driver) as H.
  { intros uid [= <-]. simpl. repeat constructor. }
  split; [exact H | apply fetchMyTrips_own, H].
Defined.

Lemma find_trip_Some k rows r :
  find_trip k rows = Some r -> r ∈ rows /\ Trip.id r = k.
Proof.
  unfold find_trip. intros H. apply find_some in H as [Hin Heq].
  split; [now apply list_elem_of_In | now apply String.eqb_eq].
Qed.

Lemma find_booking_Some k rows b :
  find_booking k rows = Some b -> b ∈ rows /\ Booking.id b = k.
Proof.
  unfold find_booking. intros H. apply find_some in H as [Hin Heq].
  split; [now apply list_elem_of_In | now apply String.eqb_eq].
Qed.

(** The seat count the admin handler settles on is the one it is given,
    when it is given one that is not zero. *)
Lemma seatsFor_given s request requestId tripId n :
  n <> 0 ->
  AdminDashboard.seatsFor s request requestId tripId (Some n) = n.
Proof.
  intros Hn. apply Z.eqb_neq in Hn.
  unfold AdminDashboard.seatsFor, js_or, truthy.
  repeat (rewrite Hn; simpl). reflexivity.
Qed.

Lemma patch_booking_ids k p (rows : list Booking.t) :
  Booking.id <$> (patch_booking k p <$> rows) = Booking.id <$> rows.
Proof.
  induction rows as [| b rows IH]; [reflexivity |].
  rewrite !fmap_cons. f_equal; [apply patch_booking_id | exact IH].
Qed.

(** ** The price of a matched request *)

(** C1.  When a custom request is matched to a trip with a seat count that
    passes both seat guards, the first thing the handler does is to send a
    booking update whose price is the seat count times the trip's
    [price_per_seat]; and once that update is applied, the booking row
    carries exactly that price.  This holds for the driver's
    [handleAssignRequest], with the seat count it is called with, and for
    the admin's [handleMatchRequest], with the seat count it settles on
    (the one it is called with when that is not zero). *)
Theorem matched_price_is_seats_times_rate :
  (forall s requestId tripId uid seats request trip d n,
     DriverDashboard.user s = Some uid ->
     find_booking requestId (DriverDashboard.pendingRequests s)
       = Some request ->
     find_trip tripId (DriverDashboard.myTrips s) = Some trip ->
     seats <= remaining trip ->
     seats <= to_number (Booking.seats_booked request) ->
     let r := DriverDashboard.handleAssignRequest s requestId tripId seats d n
     in
     (exists p e,
        head (trace r) = Some (Request (UpdateBookings requestId p) e) /\
        BookingPatch.price p = Some (seats * Trip.price_per_seat trip)) /\
     (booking_updated requestId (trace r) ->
      forall b, b ∈ bookings (final r) -> Booking.id b = requestId ->
        Booking.price b = Some (seats * Trip.price_per_seat trip))) /\
  (forall s requestId tripId seatsToAssign request trip d n,
     find_booking requestId (AdminDashboard.customRequests s)
       = Some request ->
     find_trip tripId (AdminDashboard.driverTrips s) = Some trip ->
     let seats :=
       AdminDashboard.seatsFor s request requestId tripId seatsToAssign in
     seats <= remaining trip ->
     seats <= to_number (Booking.seats_booked request) ->
     let r :=
       AdminDashboard.handleMatchRequest s requestId tripId seatsToAssign d n
     in
     (forall given, seatsToAssign = Some given -> given <> 0 ->
        seats = given) /\
     (exists p e,
        head (trace r) = Some (Request (UpdateBookings requestId p) e) /\
        BookingPatch.price p = Some (seats * Trip.price_per_seat trip)) /\
     (booking_updated requestId (trace r) ->
      forall b, b ∈ bookings (final r) -> Booking.id b = requestId ->
        Booking.price b = Some (seats * Trip.price_per_seat trip))).
Proof.
  split.
  - intros s requestId tripId uid seats request trip d n
      Huser Hrequest Htrip Hfree Hasked r.
    pose proof (handleAssignRequest_admitted s requestId tripId uid seats
                  request trip Huser Hrequest Htrip d n Hfree Hasked) as Hr.
    fold r in Hr. split.
    + destruct (outcome_first_request _ _ _ _ _ _ _ _ _ Hr) as [e He].
      eexists _, e. split; [exact He | reflexivity].
    + intros Hdone b Hb Hid.
      rewrite (outcome_booking_updated _ _ _ _ _ _ _ _ _ Hr _ Hdone) in Hb.
      apply patched_booking_row in Hb as (b0 & _ & _ & ->); [| assumption].
      reflexivity.
  - intros s requestId tripId seatsToAssign request trip d n
      Hrequest Htrip seats Hfree Hasked r.
    pose proof (handleMatchRequest_admitted s requestId tripId seatsToAssign
                  request trip Hrequest Htrip d n Hfree Hasked) as Hr.
    fold seats in Hr. fold r in Hr. split; [| split].
    + intros given -> Hgiven. now apply seatsFor_given.
    + destruct (outcome_first_request _ _ _ _ _ _ _ _ _ Hr) as [e He].
      eexists _, e. split; [exact He | reflexivity].
    + intros Hdone b Hb Hid.
      rewrite (outcome_booking_updated _ _ _ _ _ _ _ _ _ Hr _ Hdone) in Hb.
      apply patched_booking_row in Hb as (b0 & _ & _ & ->); [| assumption].
      reflexivity.
Qed.

Lemma matched_price_is_seats_times_rate_witness :
  (let r := DriverDashboard.handleAssignRequest Sample.driver "r1" "t1" 1
              Sample.db [Sample.ok 1; Sample.ok 2] in
   booking_updated "r1" (trace r) /\
   forall b, b ∈ bookings (final r) -> Booking.id b = "r1" ->
     Booking.price b = Some (1 * 50000)) /\
  (let r := AdminDashboard.handleMatchRequest Sample.admin "r1" "t2" (Some 1)
              Sample.db [Sample.ok 1; Sample.ok 2] in
   booking_updated "r1" (trace r) /\
   forall b, b ∈ bookings (final r) -> Booking.id b = "r1" ->
     Booking.price b = Some (1 * 30000)).
Proof.
  split.
  - assert (booking_updated "r1"
              (trace (DriverDashboard.handleAssignRequest Sample.driver
                        "r1" "t1" 1 Sample.db [Sample.ok 1; Sample.ok 2])))
      as Hdone.
    { exists (DriverDashboard.assignment "t1" "d1" 1 50000).
      vm_compute. apply list_elem_of_here. }
    split; [exact Hdone |].
    refine (proj2 (proj1 matched_price_is_seats_times_rate
                     Sample.driver "r1" "t1" "d1" 1 Sample.request
                     Sample.hawassa Sample.db [Sample.ok 1; Sample.ok 2]
                     eq_refl eq_refl eq_refl _ _) Hdone);
      vm_compute; discriminate.
  - assert (booking_updated "r1"
              (trace (AdminDashboard.handleMatchRequest Sample.admin
                        "r1" "t2" (Some 1) Sample.db
                        [Sample.ok 1; Sample.ok 2])))
      as Hdone.
    { exists (AdminDashboard.updateData "t2" Sample.gondar 1).
      vm_compute. apply list_elem_of_here. }
    split; [exact Hdone |].
    refine (proj2 (proj2 (proj2 matched_price_is_seats_times_rate
                     Sample.admin "r1" "t2" (Some 1) Sample.request
                     Sample.gondar Sample.db [Sample.ok 1; Sample.ok 2]
                     eq_refl eq_refl _ _)) Hdone);
      vm_compute; discriminate.
Defined.

(** ** The booking row after a match *)

(** C6.  Once the booking update of a match has been applied, every row of
    [bookings] with the request's id has [driver_trip_id] set to the trip's
    id, [assigned_driver_id] set to the trip's driver, status [assigned]
    and [seats_booked] set to the assigned seat count; it is no longer a
    pending request without a trip, and a row with that id is still there
    if one was.  For the driver's handler the assigned driver is the
    signed-in user, who is the driver of every trip the dashboard holds. *)
Theorem matched_booking_row :
  (forall s requestId tripId uid seats request trip d n,
     own_trips s ->
     DriverDashboard.user s = Some uid ->
     find_booking requestId (DriverDashboard.pendingRequests s)
       = Some request ->
     find_trip tripId (DriverDashboard.myTrips s) = Some trip ->
     seats <= remaining trip ->
     seats <= to_number (Booking.seats_booked request) ->
     let r := DriverDashboard.handleAssignRequest s requestId tripId seats d n
     in
     booking_updated requestId (trace r) ->
     (forall b, b ∈ bookings (final r) -> Booking.id b = requestId ->
        Booking.driver_trip_id b = Some (Trip.id trip) /\
        Booking.assigned_driver_id b = Some (Trip.driver_id trip) /\
        Booking.status b = BookingStatus.assigned /\
        Booking.seats_booked b = Some seats) /\
     (requestId ∈ (Booking.id <$> bookings d) ->
      requestId ∈ (Booking.id <$> bookings (final r)))) /\
  (forall s requestId tripId seatsToAssign request trip d n,
     find_booking requestId (AdminDashboard.customRequests s)
       = Some request ->
     find_trip tripId (AdminDashboard.driverTrips s) = Some trip ->
     let seats :=
       AdminDashboard.seatsFor s request requestId tripId seatsToAssign in
     seats <= remaining trip ->
     seats <= to_number (Booking.seats_booked request) ->
     let r :=
       AdminDashboard.handleMatchRequest s requestId tripId seatsToAssign d n
     in
     booking_updated requestId (trace r) ->
     (forall b, b ∈ bookings (final r) -> Booking.id b = requestId ->
        Booking.driver_trip_id b = Some (Trip.id trip) /\
        Booking.assigned_driver_id b = Some (Trip.driver_id trip) /\
        Booking.status b = BookingStatus.assigned /\
        Booking.seats_booked b = Some seats) /\
     (requestId ∈ (Booking.id <$> bookings d) ->
      requestId ∈ (Booking.id <$> bookings (final r)))).
Proof.
  split.
  - intros s requestId tripId uid seats request trip d n
      Hown Huser Hrequest Htrip Hfree Hasked r Hdone.
    pose proof (handleAssignRequest_admitted s requestId tripId uid seats
                  request trip Huser Hrequest Htrip d n Hfree Hasked) as Hr.
    fold r in Hr.
    rewrite (outcome_booking_updated _ _ _ _ _ _ _ _ _ Hr _ Hdone).
    apply find_trip_Some in Htrip as [Hin Hid].
    assert (Trip.driver_id trip = uid) as Hdriver.
    { specialize (Hown uid Huser). rewrite Forall_forall in Hown. auto. }
    split.
    + intros b Hb Hb_id.
      apply patched_booking_row in Hb as (b0 & _ & _ & ->); [| assumption].
      simpl. rewrite Hid, Hdriver. auto.
    + now rewrite patch_booking_ids.
  - intros s requestId tripId seatsToAssign request trip d n
      Hrequest Htrip seats Hfree Hasked r Hdone.
    pose proof (handleMatchRequest_admitted s requestId tripId seatsToAssign
                  request trip Hrequest Htrip d n Hfree Hasked) as Hr.
    fold seats in Hr. fold r in Hr.
    rewrite (outcome_booking_updated _ _ _ _ _ _ _ _ _ Hr _ Hdone).
    apply find_trip_Some in Htrip as [Hin Hid].
    split.
    + intros b Hb Hb_id.
      apply patched_booking_row in Hb as (b0 & _ & _ & ->); [| assumption].
      simpl. rewrite Hid. auto.
    + now rewrite patch_booking_ids.
Qed.

Lemma matched_booking_row_witness :
  let r := DriverDashboard.handleAssignRequest Sample.driver "r1" "t1" 1
             Sample.db [Sample.ok 1; Sample.lost] in
  booking_updated "r1" (trace r) /\
  forall b, b ∈ bookings (final r) -> Booking.id b = "r1" ->
    Booking.driver_trip_id b = Some "t1" /\
    Booking.assigned_driver_id b = Some "d1" /\
    Booking.status b = BookingStatus.assigned /\
    Booking.seats_booked b = Some 1.
Proof.
  assert (booking_updated "r1"
            (trace (DriverDashboard.handleAssignRequest Sample.driver
                      "r1" "t1" 1 Sample.db [Sample.ok 1; Sample.lost])))
    as Hdone.
  { exists (DriverDashboard.assignment "t1" "d1" 1 50000).
    vm_compute. apply list_elem_of_here. }
  split; [exact Hdone |].
  refine (proj1 (proj1 matched_booking_row
                   Sample.driver "r1" "t1" "d1" 1 Sample.request
                   Sample.hawassa Sample.db [Sample.ok 1; Sample.lost]
                   (proj1 fetchMyTrips_sample_own)
                   eq_refl eq_refl eq_refl _ _ Hdone));
    vm_compute; discriminate.
Defined.

(** ** Refused seat counts *)

(** C8.  If the seat count to assign exceeds the trip's remaining seats
    ([available_seats - booked_seats]) or the seats the customer asked for
    ([request.seats_booked]), the handler issues no request at all: the
    database, bookings and trips alike, is left as it was and so is the
    client state; the only thing it does is to alert.  For the admin's
    handler the seat count is the one it settles on. *)
Theorem refused_seats_write_nothing :
  (forall s requestId tripId seats request trip d n,
     find_booking requestId (DriverDashboard.pendingRequests s)
       = Some request ->
     find_trip tripId (DriverDashboard.myTrips s) = Some trip ->
     seats > remaining trip \/
       seats > to_number (Booking.seats_booked request) ->
     let r := DriverDashboard.handleAssignRequest s requestId tripId seats d n
     in
     final r = d /\ calls (trace r) = [] /\ value r = s /\
     (is_Some (DriverDashboard.user s) -> exists m, trace r = [Alert m])) /\
  (forall s requestId tripId seatsToAssign request trip d n,
     find_booking requestId (AdminDashboard.customRequests s)
       = Some request ->
     find_trip tripId (AdminDashboard.driverTrips s) = Some trip ->
     let seats :=
       AdminDashboard.seatsFor s request requestId tripId seatsToAssign in
     seats > remaining trip \/
       seats > to_number (Booking.seats_booked request) ->
     let r :=
       AdminDashboard.handleMatchRequest s requestId tripId seatsToAssign d n
     in
     final r = d /\ calls (trace r) = [] /\ value r = s /\
     exists m, trace r = [Alert m]).
Proof.
  split.
  - intros s requestId tripId seats request trip d n Hrequest Htrip Hguard r.
    destruct (DriverDashboard.user s) as [uid |] eqn:Huser.
    + destruct (handleAssignRequest_refused s requestId tripId uid seats
                  request trip Huser Hrequest Htrip d n Hguard) as [m Hm].
      subst r. rewrite Hm. simpl. eauto.
    + subst r. unfold DriverDashboard.handleAssignRequest. rewrite Huser.
      simpl. repeat split; try reflexivity.
      intros [x Hx]. discriminate Hx.
  - intros s requestId tripId seatsToAssign request trip d n
      Hrequest Htrip seats Hguard r.
    destruct (handleMatchRequest_refused s requestId tripId seatsToAssign
                request trip Hrequest Htrip d n Hguard) as [m Hm].
    subst r. rewrite Hm. simpl. eauto.
Qed.

Lemma refused_seats_write_nothing_witness :
  (let r := DriverDashboard.handleAssignRequest Sample.driver "r1" "t1" 5
              Sample.db [Sample.ok 1; Sample.ok 2] in
   final r = Sample.db /\ calls (trace r) = []) /\
  (let r := AdminDashboard.handleMatchRequest Sample.admin "r1" "t1" (Some 2)
              Sample.db [Sample.ok 1; Sample.ok 2] in
   final r = Sample.db /\ calls (trace r) = []).
Proof.
  split.
  - destruct (proj1 refused_seats_write_nothing
                Sample.driver "r1" "t1" 5 Sample.request Sample.hawassa
                Sample.db [Sample.ok 1; Sample.ok 2] eq_refl eq_refl)
      as (Hd & Hc & _).
    + left. vm_compute. reflexivity.
    + split; assumption.
  - destruct (proj2 refused_seats_write_nothing
                Sample.admin "r1" "t1" (Some 2) Sample.request Sample.hawassa
                Sample.db [Sample.ok 1; Sample.ok 2] eq_refl eq_refl)
      as (Hd & Hc & _).
    + right. vm_compute. reflexivity.
    + split; assumption.
Defined.

(** ** The trip row after a match *)

(** C4, as worded, fails when the client's copy of the trip is stale.  The
    stored row of the trip to Hawassa has three of its four seats booked,
    the driver's copy still shows none; assigning one seat goes through,
    both updates are applied, and the row ends with one seat booked
    instead of four: its remaining seats go from one up to three. *)
Lemma stale_copy_overwrites_booked_seats :
  let r := DriverDashboard.handleAssignRequest Sample.driver "r1" "t1" 1
             Sample2.booked
             [Sample.ok 6; Sample.ok 7; Sample.ok 8; Sample.ok 9;
              Sample.ok 10] in
  find_trip "t1" (DriverDashboard.myTrips Sample.driver)
    = Some Sample.hawassa /\
  Trip.booked_seats Sample.hawassa = 0 /\
  find_trip "t1" (driver_trips Sample2.booked) = Some Sample2.hawassa_booked /\
  Trip.booked_seats Sample2.hawassa_booked = 3 /\
  remaining Sample2.hawassa_booked = 1 /\
  Request (UpdateBookings "r1"
             (DriverDashboard.assignment "t1" "d1" 1 50000)) None
    ∈ trace r /\
  Request (UpdateDriverTrips "t1" (TripPatch.setBookedSeats 1)) None
    ∈ trace r /\
  (forall m, Alert m ∉ trace r) /\
  exists row',
    find_trip "t1" (driver_trips (final r)) = Some row' /\
    same_but_booked_seats Sample2.hawassa_booked row' /\
    Trip.booked_seats row' = 1 /\
    Trip.booked_seats row' <> Trip.booked_seats Sample2.hawassa_booked + 1 /\
    remaining row' = 3 /\
    remaining row' <> remaining Sample2.hawassa_booked - 1.
Proof.
  intros r.
  assert (trace r =
          [Request (UpdateBookings "r1"
                      (DriverDashboard.assignment "t1" "d1" 1 50000)) None;
           Request (UpdateDriverTrips "t1" (TripPatch.setBookedSeats 1)) None;
           Request SelectPendingRequests None;
           Request (SelectMyTrips "d1") None;
           Request (SelectAssignedBookings "d1") None])
    as Htrace by (vm_compute; reflexivity).
  rewrite Htrace.
  split; [reflexivity |]. split; [reflexivity |]. split; [reflexivity |].
  split; [reflexivity |]. split; [reflexivity |].
  split; [apply list_elem_of_here |].
  split; [apply list_elem_of_further, list_elem_of_here |].
  split.
  - intros m Hm. apply list_elem_of_In in Hm. simpl in Hm.
    destruct Hm as [H | [H | [H | [H | [H | []]]]]]; discriminate H.
  - eexists. split; [vm_compute; reflexivity |].
    split; [vm_compute; tauto |].
    repeat split; vm_compute; discriminate.
Qed.

(** C4, amended.  When both updates of a match of [seats] seats have been
    applied, [driver_trips] has the same rows as before; the row of the
    trip has [booked_seats] equal to the client's copy of [booked_seats]
    plus [seats] (not the row's own [booked_seats] plus [seats]) and agrees
    with the old row on [available_seats], [price_per_seat],
    [whole_car_price], [origin], [destination], [departure_time] and
    [status] (and on [id], [driver_id] and [created_at]; the trigger stamps
    [updated_at]); every other row is untouched.  The remaining seats of
    the trip go down by [seats] exactly when the client's copy of
    [booked_seats] is the row's value. *)
Theorem matched_trip_row :
  (forall s requestId tripId uid seats request trip d n,
     DriverDashboard.user s = Some uid ->
     find_booking requestId (DriverDashboard.pendingRequests s)
       = Some request ->
     find_trip tripId (DriverDashboard.myTrips s) = Some trip ->
     seats <= remaining trip ->
     seats <= to_number (Booking.seats_booked request) ->
     let r := DriverDashboard.handleAssignRequest s requestId tripId seats d n
     in
     booking_updated requestId (trace r) ->
     trip_updated tripId (trace r) ->
     length (driver_trips (final r)) = length (driver_trips d) /\
     forall i row, driver_trips d !! i = Some row ->
       exists row',
         driver_trips (final r) !! i = Some row' /\
         (Trip.id row <> tripId -> row' = row) /\
         (Trip.id row = tripId ->
            Trip.booked_seats row' = Trip.booked_seats trip + seats /\
            same_but_booked_seats row row' /\
            (remaining row' = remaining row - seats <->
             Trip.booked_seats trip = Trip.booked_seats row))) /\
  (forall s requestId tripId seatsToAssign request trip d n,
     find_booking requestId (AdminDashboard.customRequests s)
       = Some request ->
     find_trip tripId (AdminDashboard.driverTrips s) = Some trip ->
     let seats :=
       AdminDashboard.seatsFor s request requestId tripId seatsToAssign in
     seats <= remaining trip ->
     seats <= to_number (Booking.seats_booked request) ->
     let r :=
       AdminDashboard.handleMatchRequest s requestId tripId seatsToAssign d n
     in
     booking_updated requestId (trace r) ->
     trip_updated tripId (trace r) ->
     length (driver_trips (final r)) = length (driver_trips d) /\
     forall i row, driver_trips d !! i = Some row ->
       exists row',
         driver_trips (final r) !! i = Some row' /\
         (Trip.id row <> tripId -> row' = row) /\
         (Trip.id row = tripId ->
            Trip.booked_seats row' = Trip.booked_seats trip + seats /\
            same_but_booked_seats row row' /\
            (remaining row' = remaining row - seats <->
             Trip.booked_seats trip = Trip.booked_seats row))).
Proof.
  assert (forall now tripId booked (rows rows' : list Trip.t),
            rows' = patch_trip now tripId (TripPatch.setBookedSeats booked)
                      <$> rows ->
            length rows' = length rows /\
            forall i row, rows !! i = Some row ->
              exists row',
                rows' !! i = Some row' /\
                (Trip.id row <> tripId -> row' = row) /\
                (Trip.id row = tripId ->
                   Trip.booked_seats row' = booked /\
                   same_but_booked_seats row row' /\
                   (forall seats,
                      remaining row' = remaining row - seats <->
                      booked = Trip.booked_seats row + seats))) as Hrows.
  { intros now tripId booked rows rows' ->. split.
    - apply length_fmap.
    - intros i row Hrow. eexists. split.
      + rewrite list_lookup_fmap, Hrow. reflexivity.
      + split.
        * intros Hne. now apply patch_trip_miss.
        * intros Heq. rewrite patch_trip_hit by assumption.
          split; [reflexivity |]. split.
          -- unfold same_but_booked_seats. simpl. tauto.
          -- intros seats. unfold remaining. simpl. lia. }
  split.
  - intros s requestId tripId uid seats request trip d n
      Huser Hrequest Htrip Hfree Hasked r _ Hdone.
    pose proof (handleAssignRequest_admitted s requestId tripId uid seats
                  request trip Huser Hrequest Htrip d n Hfree Hasked) as Hr.
    fold r in Hr.
    destruct (outcome_trip_updated _ _ _ _ _ _ _ _ _ Hr _ Hdone)
      as [now [Htrips _]].
    destruct (Hrows _ _ _ _ _ Htrips) as [Hlen Hrow].
    split; [exact Hlen |]. intros i row Hi.
    destruct (Hrow i row Hi) as (row' & Hi' & Hmiss & Hhit).
    exists row'. split; [exact Hi' |]. split; [exact Hmiss |].
    intros Heq. destruct (Hhit Heq) as (Hbooked & Hsame & Hrem).
    split; [exact Hbooked |]. split; [exact Hsame |].
    rewrite (Hrem seats). lia.
  - intros s requestId tripId seatsToAssign request trip d n
      Hrequest Htrip seats Hfree Hasked r _ Hdone.
    pose proof (handleMatchRequest_admitted s requestId tripId seatsToAssign
                  request trip Hrequest Htrip d n Hfree Hasked) as Hr.
    fold seats in Hr. fold r in Hr.
    destruct (outcome_trip_updated _ _ _ _ _ _ _ _ _ Hr _ Hdone)
      as [now [Htrips _]].
    destruct (Hrows _ _ _ _ _ Htrips) as [Hlen Hrow].
    split; [exact Hlen |]. intros i row Hi.
    destruct (Hrow i row Hi) as (row' & Hi' & Hmiss & Hhit).
    exists row'. split; [exact Hi' |]. split; [exact Hmiss |].
    intros Heq. destruct (Hhit Heq) as (Hbooked & Hsame & Hrem).
    split; [exact Hbooked |]. split; [exact Hsame |].
    rewrite (Hrem seats). lia.
Qed.

Lemma matched_trip_row_witness :
  let r := DriverDashboard.handleAssignRequest Sample.driver "r1" "t1" 1
             Sample.db [Sample.ok 1; Sample.ok 2] in
  exists row',
    driver_trips (final r) !! 0%nat = Some row' /\
    Trip.booked_seats row' = 0 + 1 /\
    same_but_booked_seats Sample.hawassa row' /\
    remaining row' = remaining Sample.hawassa - 1.
Proof.
  destruct (proj1 matched_trip_row
              Sample.driver "r1" "t1" "d1" 1 Sample.request Sample.hawassa
              Sample.db [Sample.ok 1; Sample.ok 2] eq_refl eq_refl eq_refl)
    as [_ Hrow].
  - vm_compute; discriminate.
  - vm_compute; discriminate.
  - exists (DriverDashboard.assignment "t1" "d1" 1 50000).
    vm_compute. apply list_elem_of_here.
  - exists (TripPatch.setBookedSeats 1).
    vm_compute. apply list_elem_of_further, list_elem_of_here.
  - destruct (Hrow 0%nat Sample.hawassa eq_refl)
      as (row' & Hi & _ & Hhit).
    destruct (Hhit eq_refl) as (Hbooked & Hsame & Hrem).
    exists row'. split; [exact Hi |]. split; [exact Hbooked |].
    split; [exact Hsame |]. apply Hrem. reflexivity.
Defined.

(** ** The two writes are not one *)

(** C2.  There is an execution of the driver's [handleAssignRequest], and
    one of the admin's [handleMatchRequest], in which the booking update is
    applied and the trip update that follows is refused: the booking, which
    was pending without a trip, ends up [assigned] with [driver_trip_id]
    set to the trip, while [driver_trips], and with it the trip's
    [booked_seats], is exactly as before. *)
Theorem match_is_not_atomic :
  (exists s requestId tripId seats d n,
     let r := DriverDashboard.handleAssignRequest s requestId tripId seats d n
     in
     booking_updated requestId (trace r) /\
     (exists q e, Request (UpdateDriverTrips tripId q) (Some e) ∈ trace r) /\
     ~ trip_updated tripId (trace r) /\
     (exists b0 b,
        bookings d = [b0] /\ bookings (final r) = [b] /\
        Booking.id b0 = requestId /\ Booking.id b = requestId /\
        Booking.status b0 = BookingStatus.pending /\
        Booking.driver_trip_id b0 = None /\
        Booking.status b = BookingStatus.assigned /\
        Booking.driver_trip_id b = Some tripId) /\
     driver_trips (final r) = driver_trips d) /\
  (exists s requestId tripId seatsToAssign d n,
     let r :=
       AdminDashboard.handleMatchRequest s requestId tripId seatsToAssign d n
     in
     booking_updated requestId (trace r) /\
     (exists q e, Request (UpdateDriverTrips tripId q) (Some e) ∈ trace r) /\
     ~ trip_updated tripId (trace r) /\
     (exists b0 b,
        bookings d = [b0] /\ bookings (final r) = [b] /\
        Booking.id b0 = requestId /\ Booking.id b = requestId /\
        Booking.status b0 = BookingStatus.pending /\
        Booking.driver_trip_id b0 = None /\
        Booking.status b = BookingStatus.assigned /\
        Booking.driver_trip_id b = Some tripId) /\
     driver_trips (final r) = driver_trips d).
Proof.
  split.
  - exists Sample.driver, "r1", "t1", 1, Sample.db, [Sample.ok 1; Sample.lost].
    intros r.
    assert (trace r =
            [Request (UpdateBookings "r1"
                        (DriverDashboard.assignment "t1" "d1" 1 50000)) None;
             Request (UpdateDriverTrips "t1" (TripPatch.setBookedSeats 1))
               (Some network_failure);
             Alert (ErrorUpdatingTrip network_failure)]) as Htrace
      by (vm_compute; reflexivity).
    rewrite Htrace. split; [| split; [| split; [| split]]].
    + eexists. apply list_elem_of_here.
    + eexists _, _. apply list_elem_of_further, list_elem_of_here.
    + intros [q Hq]. apply list_elem_of_In in Hq. simpl in Hq.
      destruct Hq as [Hq | [Hq | [Hq | []]]]; discriminate Hq.
    + eexists _, _. vm_compute. repeat split; reflexivity.
    + vm_compute. reflexivity.
  - exists Sample.admin, "r1", "t1", None, Sample.db,
      [Sample.ok 1; Sample.lost].
    intros r.
    assert (trace r =
            [Request (UpdateBookings "r1"
                        (AdminDashboard.updateData "t1" Sample.hawassa 1))
               None;
             Request (UpdateDriverTrips "t1" (TripPatch.setBookedSeats 1))
               (Some network_failure);
             Alert (ErrorUpdatingTrip network_failure)]) as Htrace
      by (vm_compute; reflexivity).
    rewrite Htrace. split; [| split; [| split; [| split]]].
    + eexists. apply list_elem_of_here.
    + eexists _, _. apply list_elem_of_further, list_elem_of_here.
    + intros [q Hq]. apply list_elem_of_In in Hq. simpl in Hq.
      destruct Hq as [Hq | [Hq | [Hq | []]]]; discriminate Hq.
    + eexists _, _. vm_compute. repeat split; reflexivity.
    + vm_compute. reflexivity.
Qed.

(** ** The order of the requests *)

Lemma match_flow_writes ub ut tr :
  match_flow ub ut tr ->
  forall i c e,
    tr !! i = Some (Request c e) -> is_write c = true ->
    (i = 0%nat /\ c = ub) \/
    (i = 1%nat /\ c = ut /\ tr !! 0%nat = Some (Request ub None)).
Proof.
  intros Hflow i c e Hi Hc.
  destruct Hflow as [| m | e' m | e' m | tr Htr].
  - discriminate Hi.
  - destruct i as [| i]; discriminate Hi.
  - destruct i as [| [| i]]; simpl in Hi; try discriminate Hi.
    left. split; [reflexivity | congruence].
  - destruct i as [| [| [| i]]]; simpl in Hi; try discriminate Hi.
    + left. split; [reflexivity | congruence].
    + right. repeat split; congruence.
  - destruct i as [| [| i]]; simpl in Hi.
    + left. split; [reflexivity | congruence].
    + right. repeat split; congruence.
    + exfalso. apply list_elem_of_lookup_2 in Hi.
      apply (refresh_no_write _ _ _ Htr) in Hi. congruence.
Qed.

Lemma handleAssignRequest_flow s requestId tripId seats d n :
  exists p q,
    match_flow (UpdateBookings requestId p) (UpdateDriverTrips tripId q)
      (trace (DriverDashboard.handleAssignRequest s requestId tripId seats
                d n)).
Proof.
  destruct (DriverDashboard.user s) as [uid |] eqn:Huser.
  2: { exists (BookingPatch.mk None None None None None), TripPatch.empty.
       unfold DriverDashboard.handleAssignRequest. rewrite Huser.
       apply flow_nothing. }
  destruct (find_booking requestId (DriverDashboard.pendingRequests s))
    as [request |] eqn:Hrequest.
  2: { exists (BookingPatch.mk None None None None None), TripPatch.empty.
       unfold DriverDashboard.handleAssignRequest.
       rewrite Huser, Hrequest. apply flow_nothing. }
  destruct (find_trip tripId (DriverDashboard.myTrips s))
    as [trip |] eqn:Htrip.
  2: { exists (BookingPatch.mk None None None None None), TripPatch.empty.
       unfold DriverDashboard.handleAssignRequest.
       rewrite Huser, Hrequest, Htrip. apply flow_nothing. }
  destruct (decide (seats > remaining trip \/
                    seats > to_number (Booking.seats_booked request)))
    as [Hguard | Hguard].
  - destruct (handleAssignRequest_refused s requestId tripId uid seats
                request trip Huser Hrequest Htrip d n Hguard) as [m ->].
    exists (BookingPatch.mk None None None None None), TripPatch.empty.
    apply flow_refused.
  - eexists _, _. eapply outcome_flow.
    apply (handleAssignRequest_admitted s requestId tripId uid seats
             request trip Huser Hrequest Htrip d n); lia.
Qed.

Lemma handleMatchRequest_flow s requestId tripId seatsToAssign d n :
  exists p q,
    match_flow (UpdateBookings requestId p) (UpdateDriverTrips tripId q)
      (trace (AdminDashboard.handleMatchRequest s requestId tripId
                seatsToAssign d n)).
Proof.
  destruct (find_booking requestId (AdminDashboard.customRequests s))
    as [request |] eqn:Hrequest.
  2: { exists (BookingPatch.mk None None None None None), TripPatch.empty.
       unfold AdminDashboard.handleMatchRequest.
       rewrite Hrequest. apply flow_nothing. }
  destruct (find_trip tripId (AdminDashboard.driverTrips s))
    as [trip |] eqn:Htrip.
  2: { exists (BookingPatch.mk None None None None None), TripPatch.empty.
       unfold AdminDashboard.handleMatchRequest.
       rewrite Hrequest, Htrip. apply flow_nothing. }
  destruct (decide
              (AdminDashboard.seatsFor s request requestId tripId
                 seatsToAssign > remaining trip \/
               AdminDashboard.seatsFor s request requestId tripId
                 seatsToAssign > to_number (Booking.seats_booked request)))
    as [Hguard | Hguard].
  - destruct (handleMatchRequest_refused s requestId tripId seatsToAssign
                request trip Hrequest Htrip d n Hguard) as [m ->].
    exists (BookingPatch.mk None None None None None), TripPatch.empty.
    apply flow_refused.
  - eexists _, _. eapply outcome_flow.
    apply (handleMatchRequest_admitted s requestId tripId seatsToAssign
             request trip Hrequest Htrip d n); lia.
Qed.

(** C3, as worded, fails: a fully successful assignment issues five
    requests, none of them a read of the trip before the two updates (the
    trip comes from the list the dashboard already holds); the reads come
    last. *)
Lemma match_is_not_read_update_update :
  let r := DriverDashboard.handleAssignRequest Sample.driver "r1" "t1" 1
             Sample.db
             [Sample.ok 1; Sample.ok 2; Sample.ok 3; Sample.ok 4; Sample.ok 5]
  in
  booking_updated "r1" (trace r) /\
  trip_updated "t1" (trace r) /\
  calls (trace r) =
    [UpdateBookings "r1" (DriverDashboard.assignment "t1" "d1" 1 50000);
     UpdateDriverTrips "t1" (TripPatch.setBookedSeats 1);
     SelectPendingRequests; SelectMyTrips "d1"; SelectAssignedBookings "d1"]
  /\ read_update_update (calls (trace r)) = false.
Proof.
  intros r. split; [| split; [| split]].
  - eexists. vm_compute. apply list_elem_of_here.
  - eexists. vm_compute. apply list_elem_of_further, list_elem_of_here.
  - vm_compute. reflexivity.
  - vm_compute. reflexivity.
Qed.

(** C3, amended.  Whatever its arguments, a match or assign action leaves
    one of five traces: nothing; an alert; a refused booking update and an
    alert; an applied booking update, a refused trip update and an alert; or
    an applied booking update, an applied trip update and then the refresh
    queries.  So the trip is not read over the network before the updates,
    each update is sent at most once (no retry), the booking update comes
    first, and a trip update is only ever sent right after the booking
    update was answered without error. *)
Theorem match_requests_in_order :
  (forall s requestId tripId seats d n,
     exists p q,
       let tr :=
         trace (DriverDashboard.handleAssignRequest s requestId tripId seats
                  d n) in
       match_flow (UpdateBookings requestId p) (UpdateDriverTrips tripId q)
         tr /\
       forall i c e,
         tr !! i = Some (Request c e) -> is_write c = true ->
         (i = 0%nat /\ c = UpdateBookings requestId p) \/
         (i = 1%nat /\ c = UpdateDriverTrips tripId q /\
          tr !! 0%nat = Some (Request (UpdateBookings requestId p) None))) /\
  (forall s requestId tripId seatsToAssign d n,
     exists p q,
       let tr :=
         trace (AdminDashboard.handleMatchRequest s requestId tripId
                  seatsToAssign d n) in
       match_flow (UpdateBookings requestId p) (UpdateDriverTrips tripId q)
         tr /\
       forall i c e,
         tr !! i = Some (Request c e) -> is_write c = true ->
         (i = 0%nat /\ c = UpdateBookings requestId p) \/
         (i = 1%nat /\ c = UpdateDriverTrips tripId q /\
          tr !! 0%nat = Some (Request (UpdateBookings requestId p) None))).
Proof.
  split.
  - intros s requestId tripId seats d n.
    destruct (handleAssignRequest_flow s requestId tripId seats d n)
      as (p & q & Hflow).
    exists p, q. split; [exact Hflow |].
    now apply match_flow_writes.
  - intros s requestId tripId seatsToAssign d n.
    destruct (handleMatchRequest_flow s requestId tripId seatsToAssign d n)
      as (p & q & Hflow).
    exists p, q. split; [exact Hflow |].
    now apply match_flow_writes.
Qed.

Lemma match_requests_in_order_witness :
  let tr :=
    trace (DriverDashboard.handleAssignRequest Sample.driver "r1" "t1" 1
             Sample.db [Sample.ok 1; Sample.ok 2]) in
  exists p, tr !! 0%nat = Some (Request (UpdateBookings "r1" p) None).
Proof.
  destruct (proj1 match_requests_in_order
              Sample.driver "r1" "t1" 1 Sample.db [Sample.ok 1; Sample.ok 2])
    as (p & q & _ & Hwrites).
  destruct (Hwrites 1%nat
              (UpdateDriverTrips "t1" (TripPatch.setBookedSeats 1)) None)
    as [[Hi _] | (_ & _ & Hfirst)].
  - vm_compute. reflexivity.
  - reflexivity.
  - discriminate Hi.
  - exists p. exact Hfirst.
Defined.

(** ** Which bookings are shown as pending requests *)

Lemma falsy_trip_id (o : option uuid) :
  o <> Some "" -> (truthy_str o = false <-> o = None).
Proof.
  intros Hne. destruct o as [k |]; simpl; [| tauto].
  destruct (String.eqb_spec k ""); simpl.
  - subst. contradiction.
  - split; discriminate.
Qed.

(** C5, as worded, fails for the admin's list: with a date filter on, a
    pending custom request without a trip that is scheduled before the
    window of the selected date is in the database and yet not among the
    admin's custom requests. *)
Lemma pending_request_hidden_by_date_filter :
  let r := AdminDashboard.fetchData Sample.admin_on_day Sample.db
             [Sample.ok 1; Sample.ok 2; Sample.ok 3] in
  Request (SelectBookings (Some Sample.on_day)) None ∈ trace r /\
  Booking.scheduled_time Sample.request < startDate Sample.on_day /\
  Sample.request ∈ bookings Sample.db /\
  Booking.booking_type Sample.request = BookingType.custom_request /\
  Booking.status Sample.request = BookingStatus.pending /\
  Booking.driver_trip_id Sample.request = None /\
  Sample.request ∉ AdminDashboard.customRequests (value r).
Proof.
  intros r. repeat split.
  - vm_compute. apply list_elem_of_here.
  - apply list_elem_of_here.
  - assert (AdminDashboard.customRequests (value r) = []) as ->
      by (vm_compute; reflexivity).
    apply not_elem_of_nil.
Qed.

(** C5, amended.  After [fetchPendingRequests] got its answer, the
    driver's Pending Requests list holds a booking if and only if it is in
    the database with [booking_type] [custom_request], status [pending] and
    no [driver_trip_id].  After [fetchData] got its bookings, the admin's
    Custom Requests list holds a booking if and only if it is in the
    database with the same three properties and, when a date is set in the
    filter, has its [scheduled_time] between the two instants [startDate]
    and [endDate], both included, that [fetchData] computes from that date
    in the browser's time zone. *)
Theorem pending_requests_shown :
  (forall s d n b,
     let r := DriverDashboard.fetchPendingRequests s d n in
     Request SelectPendingRequests None ∈ trace r ->
     (b ∈ DriverDashboard.pendingRequests (value r) <->
      b ∈ bookings d /\
      Booking.booking_type b = BookingType.custom_request /\
      Booking.status b = BookingStatus.pending /\
      Booking.driver_trip_id b = None)) /\
  (forall s d n b,
     let r := AdminDashboard.fetchData s d n in
     Request (SelectBookings (filter_date (AdminDashboard.filters s))) None
       ∈ trace r ->
     Booking.driver_trip_id b <> Some "" ->
     (b ∈ AdminDashboard.customRequests (value r) <->
      b ∈ bookings d /\
      in_window (filter_date (AdminDashboard.filters s))
        (Booking.scheduled_time b) /\
      Booking.booking_type b = BookingType.custom_request /\
      Booking.status b = BookingStatus.pending /\
      Booking.driver_trip_id b = None)).
Proof.
  split.
  - intros s d n b r. subst r. unfold DriverDashboard.fetchPendingRequests.
    destruct (DriverDashboard.user s) as [uid |]; simpl.
    2: { intros H. now apply elem_of_nil in H. }
    unfold bind, select_pending_requests. rewrite request_read.
    destruct n as [| r1 n]; [| destruct (delivered r1)]; simpl; intros Hin.
    + apply list_elem_of_singleton in Hin. discriminate Hin.
    + rewrite elem_of_order, list_elem_of_filter. tauto.
    + apply list_elem_of_singleton in Hin. discriminate Hin.
  - intros s d n b r Hin Hid. subst r. revert Hin.
    unfold AdminDashboard.fetchData, bind, select_bookings,
      select_driver_trips, select_drivers.
    destruct (request_read_cases
                (SelectBookings (filter_date (AdminDashboard.filters s)))
                (fun d =>
                   order Booking.created_at false
                     (filter (fun b =>
                                in_window
                                  (filter_date (AdminDashboard.filters s))
                                  (Booking.scheduled_time b))
                             (bookings d)))
                d n) as [-> | [e1 ->]]; cbn;
      match goal with
      | |- context [request (SelectDriverTrips ?f) ?x d ?m] =>
          destruct (request_read_cases (SelectDriverTrips f)
                      (fun d =>
                         order Trip.departure_time true
                           (filter (fun r =>
                                      matches (filter_driver f)
                                        (Trip.driver_id r) /\
                                      matches (filter_status f)
                                        (Trip.status r) /\
                                      in_window (filter_date f)
                                        (Trip.departure_time r))
                                   (driver_trips d)))
                      d m) as [-> | [e2 ->]]
      end; cbn;
      match goal with
      | |- context [request SelectDrivers ?x d ?m] =>
          destruct (request_read_cases SelectDrivers
                      (fun d =>
                         filter (fun p => Profile.role p = UserRole.driver)
                                (profiles d))
                      d m) as [-> | [e3 ->]]
      end; cbn; intros Hin;
      try (apply list_elem_of_In in Hin; simpl in Hin;
           exfalso; intuition discriminate);
      unfold AdminDashboard.pendingRequests;
      rewrite list_elem_of_filter, elem_of_order, list_elem_of_filter,
        (falsy_trip_id _ Hid); tauto.
Qed.

Lemma pending_requests_shown_witness :
  (let r := DriverDashboard.fetchPendingRequests Sample.driver Sample.db
              [Sample.ok 1] in
   Sample.request ∈ DriverDashboard.pendingRequests (value r)) /\
  (let r := AdminDashboard.fetchData Sample.admin Sample.db
              [Sample.ok 1; Sample.ok 2; Sample.ok 3] in
   Sample.request ∈ AdminDashboard.customRequests (value r)).
Proof.
  split.
  - apply (proj1 pending_requests_shown Sample.driver Sample.db
             [Sample.ok 1] Sample.request).
    + vm_compute. apply list_elem_of_here.
    + repeat split. apply list_elem_of_here.
  - apply (proj2 pending_requests_shown Sample.admin Sample.db
             [Sample.ok 1; Sample.ok 2; Sample.ok 3] Sample.request).
    + vm_compute. apply list_elem_of_here.
    + discriminate.
    + repeat split. apply list_elem_of_here.
Defined.

(** ** Matching twice *)


(** With every refresh answered, the second run finds no pending request
    any more and does nothing. *)
Example second_assign_after_refresh :
  let once :=
    DriverDashboard.handleAssignRequest Sample.driver "r1" "t1" 1 Sample.db
      [Sample.ok 1; Sample.ok 2; Sample.ok 3; Sample.ok 4; Sample.ok 5] in
  let twice :=
    DriverDashboard.handleAssignRequest (value once) "r1" "t1" 1
      (final once) [Sample.ok 6; Sample.ok 7] in
  trace twice = [] /\ final twice = final once.
Proof. vm_compute. split; reflexivity. Qed.

(** ** The seat invariant of [driver_trips] *)

Lemma keeps_checks_ret {A} (a : A) : keeps_checks (ret a).
Proof. intros d n H. exact H. Qed.

Lemma keeps_checks_bind {A B} (m : M A) (f : A -> M B) :
  keeps_checks m -> (forall a, keeps_checks (f a)) -> keeps_checks (bind m f).
Proof.
  intros Hm Hf d n H. unfold bind. simpl.
  apply Hf, Hm, H.
Qed.

Lemma keeps_checks_refreshes {A} (m : M A) : refreshes m -> keeps_checks m.
Proof. intros Hm d n H. now rewrite (proj1 (Hm d n)). Qed.

Lemma keeps_checks_emit e : keeps_checks (emit e).
Proof. intros d n H. exact H. Qed.

Lemma keeps_checks_write c exec :
  (forall r d d',
     Forall trip_checks (driver_trips d) -> exec r d = inr d' ->
     Forall trip_checks (driver_trips d')) ->
  keeps_checks (request c (fun r d => writes (exec r d))).
Proof.
  intros Hexec d n H.
  destruct (request_write c exec d n)
    as [[e ->] | (r & n' & d' & _ & _ & Hd' & ->)]; simpl.
  - exact H.
  - eapply Hexec; eassumption.
Qed.

Lemma update_bookings_keeps_checks k p : keeps_checks (update_bookings k p).
Proof.
  apply keeps_checks_write. intros _ d d' H Hd'.
  now apply db_update_bookings_inr in Hd' as ->.
Qed.

Lemma update_driver_trips_keeps_checks k p :
  keeps_checks (update_driver_trips k p).
Proof.
  apply (keeps_checks_write (UpdateDriverTrips k p)
           (fun r d => db_update_driver_trips (server_time r) d k p)).
  intros r d d' H Hd'. eapply db_update_driver_trips_checks; eassumption.
Qed.

Lemma insert_driver_trip_keeps_checks n : keeps_checks (insert_driver_trip n).
Proof.
  apply (keeps_checks_write (InsertDriverTrip n)
           (fun r d =>
              db_insert_driver_trip (server_time r) (fresh_uuid r) d n)).
  intros r d d' H Hd'. eapply db_insert_driver_trip_checks; eassumption.
Qed.

Lemma delete_driver_trip_keeps_checks k : keeps_checks (delete_driver_trip k).
Proof.
  apply (keeps_checks_write (DeleteDriverTrip k)
           (fun _ d => inr (db_delete_driver_trip d k))).
  intros _ d d' H [= <-]. now apply db_delete_driver_trip_checks.
Qed.

Ltac keeps_checks_steps :=
  repeat first
    [ apply keeps_checks_ret
    | apply keeps_checks_emit
    | apply update_bookings_keeps_checks
    | apply update_driver_trips_keeps_checks
    | apply insert_driver_trip_keeps_checks
    | apply delete_driver_trip_keeps_checks
    | apply keeps_checks_refreshes;
      first [ apply fetchMyTrips_refreshes
            | apply refresh_refreshes
            | apply fetchData_refreshes ]
    | apply keeps_checks_bind; [| intros ?]
    | match goal with
      | |- keeps_checks (match ?x with _ => _ end) => destruct x
      | |- keeps_checks (if ?x then _ else _) => destruct x
      end ].

Lemma handleCreateTrip_keeps_checks s :
  keeps_checks (DriverDashboard.handleCreateTrip s).
Proof.
  unfold DriverDashboard.handleCreateTrip, alert. keeps_checks_steps.
Qed.

Lemma handleUpdateTrip_keeps_checks s k p :
  keeps_checks (DriverDashboard.handleUpdateTrip s k p).
Proof.
  unfold DriverDashboard.handleUpdateTrip, alert. keeps_checks_steps.
Qed.

Lemma handleDeleteTrip_keeps_checks s k c :
  keeps_checks (DriverDashboard.handleDeleteTrip s k c).
Proof.
  unfold DriverDashboard.handleDeleteTrip, alert. keeps_checks_steps.
Qed.

Lemma handleAssignRequest_keeps_checks s k t seats :
  keeps_checks (DriverDashboard.handleAssignRequest s k t seats).
Proof.
  unfold DriverDashboard.handleAssignRequest, alert. keeps_checks_steps.
Qed.

Lemma handleUpdateTripPrice_keeps_checks s k f v :
  keeps_checks (AdminDashboard.handleUpdateTripPrice s k f v).
Proof.
  unfold AdminDashboard.handleUpdateTripPrice, alert. keeps_checks_steps.
Qed.

Lemma handleMatchRequest_keeps_checks s k t seats :
  keeps_checks (AdminDashboard.handleMatchRequest s k t seats).
Proof.
  unfold AdminDashboard.handleMatchRequest, alert. keeps_checks_steps.
Qed.

Lemma trip_step_keeps_checks d d' :
  Forall trip_checks (driver_trips d) -> trip_step d d' ->
  Forall trip_checks (driver_trips d').
Proof.
  intros H Hstep. destruct Hstep.
  - now apply handleCreateTrip_keeps_checks.
  - now apply handleUpdateTrip_keeps_checks.
  - now apply handleDeleteTrip_keeps_checks.
  - now apply handleAssignRequest_keeps_checks.
  - now apply handleUpdateTripPrice_keeps_checks.
  - now apply handleMatchRequest_keeps_checks.
Qed.

(** C9.  The check constraints of [driver_trips] ([available_seats > 0],
    [booked_seats >= 0] and [seats_check]) hold of every row the database
    accepts, on insert and on update; every operation of the application
    that creates, updates or deletes a trip ([handleCreateTrip],
    [handleUpdateTrip], [handleDeleteTrip], [handleAssignRequest],
    [handleUpdateTripPrice], [handleMatchRequest]) keeps them; hence in any
    database these operations build from one without trips, every trip has
    [0 <= booked_seats <= available_seats], [available_seats > 0] and a
    remaining seat count that is not negative. *)
Theorem trip_seats_invariant :
  (forall now fresh d k p n d',
     Forall trip_checks (driver_trips d) ->
     db_update_driver_trips now d k p = inr d' \/
       db_insert_driver_trip now fresh d n = inr d' ->
     Forall trip_checks (driver_trips d')) /\
  (forall d d',
     Forall trip_checks (driver_trips d) -> trip_step d d' ->
     Forall trip_checks (driver_trips d')) /\
  (forall d d',
     driver_trips d = [] -> rtc trip_step d d' ->
     forall row, row ∈ driver_trips d' ->
       0 <= Trip.booked_seats row <= Trip.available_seats row /\
       Trip.available_seats row > 0 /\
       remaining row >= 0).
Proof.
  split; [| split].
  - intros now fresh d k p n d' H [Hd' | Hd'].
    + eapply db_update_driver_trips_checks; eassumption.
    + eapply db_insert_driver_trip_checks; eassumption.
  - exact trip_step_keeps_checks.
  - intros d d' Hempty Hsteps.
    assert (Forall trip_checks (driver_trips d')) as Hinv.
    { assert (Forall trip_checks (driver_trips d)) as Hd
        by (rewrite Hempty; constructor).
      clear Hempty. induction Hsteps as [d | d d1 d2 Hstep _ IH].
      - exact Hd.
      - apply IH. eapply trip_step_keeps_checks; eassumption. }
    intros row Hrow. rewrite Forall_forall in Hinv.
    destruct (Hinv row Hrow) as (Ha & Hb & Hc).
    unfold remaining. lia.
Qed.

Lemma trip_seats_invariant_witness :
  let d' := final (DriverDashboard.handleCreateTrip Sample.creating
                     Sample.no_trips [Sample.created 7; Sample.ok 8]) in
  length (driver_trips d') = 1%nat /\
  forall row, row ∈ driver_trips d' ->
    0 <= Trip.booked_seats row <= Trip.available_seats row /\
    Trip.available_seats row > 0 /\
    remaining row >= 0.
Proof.
  split; [vm_compute; reflexivity |].
  apply (proj2 (proj2 trip_seats_invariant) Sample.no_trips).
  - reflexivity.
  - apply rtc_once. apply step_create_trip.
Defined.

(** ** The trips offered for a request *)

(** C10.  The driver's list of matching trips for a request holds exactly
    the trips of the dashboard (after [fetchMyTrips], the driver's own
    trips in the database) that are [scheduled], start where the request
    is picked up, end where it is dropped off, have a free seat and leave
    no earlier than the request's scheduled time.  The admin's panel lists
    exactly the dashboard's trips that are [scheduled] and leave no earlier
    than the scheduled time, whatever their route.  The two differ: there
    is a request and a trip on another route which the admin's panel lists,
    the driver's list does not, and which the admin can match the request
    to. *)
Theorem candidate_trips_differ :
  (forall trips request trip,
     trip ∈ DriverDashboard.matchingTrips trips request <->
     trip ∈ trips /\
     Trip.status trip = TripStatus.scheduled /\
     Trip.origin trip = Booking.pickup_location request /\
     Trip.destination trip = Booking.dropoff_location request /\
     remaining trip > 0 /\
     Trip.departure_time trip >= Booking.scheduled_time request) /\
  (forall s uid d n trip,
     let r := DriverDashboard.fetchMyTrips s d n in
     DriverDashboard.user s = Some uid ->
     Request (SelectMyTrips uid) None ∈ trace r ->
     (trip ∈ DriverDashboard.myTrips (value r) <->
      trip ∈ driver_trips d /\ Trip.driver_id trip = uid)) /\
  (forall trips request trip,
     trip ∈ AdminDashboard.tripsToMatch trips request <->
     trip ∈ trips /\
     Trip.status trip = TripStatus.scheduled /\
     Trip.departure_time trip >= Booking.scheduled_time request) /\
  (exists trips request trip s d n,
     trip ∈ AdminDashboard.tripsToMatch trips request /\
     (trip ∉ DriverDashboard.matchingTrips trips request) /\
     Trip.origin trip <> Booking.pickup_location request /\
     AdminDashboard.driverTrips s = trips /\
     find_booking (Booking.id request) (AdminDashboard.customRequests s)
       = Some request /\
     let r :=
       AdminDashboard.handleMatchRequest s (Booking.id request)
         (Trip.id trip) None d n in
     booking_updated (Booking.id request) (trace r) /\
     trip_updated (Trip.id trip) (trace r) /\
     forall b, b ∈ bookings (final r) ->
       Booking.driver_trip_id b = Some (Trip.id trip)).
Proof.
  split; [| split; [| split]].
  - intros trips request trip. unfold DriverDashboard.matchingTrips.
    rewrite list_elem_of_filter. unfold remaining. tauto.
  - intros s uid d n trip r Huser. subst r.
    unfold DriverDashboard.fetchMyTrips. rewrite Huser.
    unfold bind, select_my_trips.
    destruct (request_read_cases (SelectMyTrips uid)
                (fun d =>
                   order Trip.departure_time true
                     (filter (fun r => Trip.driver_id r = uid)
                             (driver_trips d)))
                d n) as [-> | [e ->]]; simpl; intros Hin.
    + rewrite elem_of_order, list_elem_of_filter. tauto.
    + apply list_elem_of_singleton in Hin. discriminate Hin.
  - intros trips request trip. unfold AdminDashboard.tripsToMatch.
    rewrite list_elem_of_filter. tauto.
  - exists [Sample.hawassa; Sample.gondar], Sample.request, Sample.gondar,
      Sample.admin, Sample.db, [Sample.ok 1; Sample.ok 2].
    split; [| split; [| split; [| split; [| split]]]].
    + vm_compute. apply list_elem_of_further, list_elem_of_here.
    + assert (DriverDashboard.matchingTrips [Sample.hawassa; Sample.gondar]
                Sample.request = [Sample.hawassa]) as ->
        by (vm_compute; reflexivity).
      intros Hin. apply list_elem_of_singleton in Hin. discriminate Hin.
    + discriminate.
    + reflexivity.
    + reflexivity.
    + intros r. split; [| split].
      * eexists. vm_compute. apply list_elem_of_here.
      * eexists. vm_compute. apply list_elem_of_further, list_elem_of_here.
      * assert (bookings (final r) =
                [BookingPatch.apply
                   (AdminDashboard.updateData "t2" Sample.gondar 1)
                   Sample.request]) as -> by (vm_compute; reflexivity).
        intros b Hb. apply list_elem_of_singleton in Hb as ->. reflexivity.
Qed.

Lemma candidate_trips_differ_witness :
  let r := DriverDashboard.fetchMyTrips Sample.driver Sample.db
             [Sample.ok 1] in
  Sample.gondar ∈ DriverDashboard.myTrips (value r) /\
  Sample.gondar ∈ AdminDashboard.tripsToMatch (DriverDashboard.myTrips (value r))
                    Sample.request.
Proof.
  destruct candidate_trips_differ as (_ & Hmine & Hadmin & _).
  assert (Sample.gondar ∈
          DriverDashboard.myTrips
            (value (DriverDashboard.fetchMyTrips Sample.driver Sample.db
                      [Sample.ok 1]))) as Hin.
  { apply (Hmine Sample.driver "d1" Sample.db [Sample.ok 1] Sample.gondar).
    - reflexivity.
    - vm_compute. apply list_elem_of_here.
    - split; [| reflexivity].
      apply list_elem_of_further, list_elem_of_here. }
  split; [exact Hin |].
  apply Hadmin. split; [exact Hin |]. split; [reflexivity |].
  vm_compute. discriminate.
Defined.

(** * The rest of the dashboards *)

(** ** The admin's refresh, query by query *)

Lemma fetchData_run s d n :
  let f := AdminDashboard.filters s in
  let bookingsData :=
    order Booking.created_at false
      (filter (fun b => in_window (filter_date f) (Booking.scheduled_time b))
              (bookings d)) in
  let tripsData :=
    order Trip.departure_time true
      (filter (fun r =>
                 matches (filter_driver f) (Trip.driver_id r) /\
                 matches (filter_status f) (Trip.status r) /\
                 in_window (filter_date f) (Trip.departure_time r))
              (driver_trips d)) in
  let driversData :=
    filter (fun p => Profile.role p = UserRole.driver) (profiles d) in
  let r := AdminDashboard.fetchData s d n in
  exists o1 o2 o3,
    final r = d /\
    trace r =
      Request (SelectBookings (filter_date f)) o1 ::
      match o1 with Some e => [ConsoleError e] | None => [] end ++
      [Request (SelectDriverTrips f) o2; Request SelectDrivers o3] /\
    AdminDashboard.bookings (value r) =
      match o1 with None => bookingsData | _ => AdminDashboard.bookings s end
    /\
    AdminDashboard.customRequests (value r) =
      match o1 with
      | None => AdminDashboard.pendingRequests bookingsData
      | _ => AdminDashboard.customRequests s
      end /\
    AdminDashboard.driverTrips (value r) =
      match o2 with None => tripsData | _ => AdminDashboard.driverTrips s end
    /\
    AdminDashboard.drivers (value r) =
      match o3 with None => driversData | _ => AdminDashboard.drivers s end
    /\
    AdminDashboard.filters (value r) = f /\
    AdminDashboard.matchingSeats (value r) = AdminDashboard.matchingSeats s.
Proof.
  intros f bookingsData tripsData driversData r.
  subst r bookingsData tripsData driversData f.
  unfold AdminDashboard.fetchData, bind, select_bookings,
    select_driver_trips, select_drivers.
  destruct (request_read_cases
              (SelectBookings (filter_date (AdminDashboard.filters s)))
              (fun d =>
                 order Booking.created_at false
                   (filter (fun b =>
                              in_window
                                (filter_date (AdminDashboard.filters s))
                                (Booking.scheduled_time b))
                           (bookings d)))
              d n) as [-> | [e1 ->]]; cbn;
    match goal with
    | |- context [request (SelectDriverTrips ?f) ?x d ?m] =>
        destruct (request_read_cases (SelectDriverTrips f)
                    (fun d =>
                       order Trip.departure_time true
                         (filter (fun r =>
                                    matches (filter_driver f)
                                      (Trip.driver_id r) /\
                                    matches (filter_status f)
                                      (Trip.status r) /\
                                    in_window (filter_date f)
                                      (Trip.departure_time r))
                                 (driver_trips d)))
                    d m) as [-> | [e2 ->]]
    end; cbn;
    match goal with
    | |- context [request SelectDrivers ?x d ?m] =>
        destruct (request_read_cases SelectDrivers
                    (fun d =>
                       filter (fun p => Profile.role p = UserRole.driver)
                              (profiles d))
                    d m) as [-> | [e3 ->]]
    end; cbn;
    first
      [ exists None, None, None; repeat split; reflexivity
      | exists None, None, (Some e3); repeat split; reflexivity
      | exists None, (Some e2), None; repeat split; reflexivity
      | exists None, (Some e2), (Some e3); repeat split; reflexivity
      | exists (Some e1), None, None; repeat split; reflexivity
      | exists (Some e1), None, (Some e3); repeat split; reflexivity
      | exists (Some e1), (Some e2), None; repeat split; reflexivity
      | exists (Some e1), (Some e2), (Some e3); repeat split; reflexivity ].
Qed.

(** ** The seat selectors *)

Lemma js_or_else_truthy v b : v <> 0 -> js_or_else (Some v) b = v.
Proof.
  intros Hv. apply Z.eqb_neq in Hv.
  unfold js_or_else, js_or, truthy. now rewrite Hv.
Qed.

Lemma js_or_else_falsy a b : a = None \/ a = Some 0 -> js_or_else a b = b.
Proof. intros [-> | ->]; reflexivity. Qed.

(** What the driver's seat selector shows when it was left alone or last
    set through its input. *)
Lemma driver_selectedSeats s request trip :
  DriverDashboard.assignmentSeats s
    !! seatKey (Booking.id request) (Trip.id trip) = None \/
  (exists s0 typed, s = DriverTabs.changeSeats s0 request trip typed) ->
  1 <= DriverTabs.maxSeats request trip ->
  1 <= DriverTabs.selectedSeats s request trip
    <= DriverTabs.maxSeats request trip.
Proof.
  intros [Hnone | (s0 & typed & ->)] Hmax; unfold DriverTabs.selectedSeats.
  - rewrite Hnone, js_or_else_falsy by auto.
    unfold DriverTabs.maxSeats in *. lia.
  - simpl. rewrite lookup_insert_eq, js_or_else_truthy; lia.
Qed.

Lemma admin_selectedSeats s request trip :
  AdminDashboard.matchingSeats s
    !! seatKey (Booking.id request) (Trip.id trip) = None \/
  (exists s0 typed, s = AdminTabs.changeSeats s0 request trip typed) ->
  1 <= AdminTabs.maxSeats request trip ->
  1 <= AdminTabs.selectedSeats s request trip
    <= AdminTabs.maxSeats request trip.
Proof.
  intros [Hnone | (s0 & typed & ->)] Hmax; unfold AdminTabs.selectedSeats.
  - rewrite Hnone, js_or_else_falsy by auto.
    unfold AdminTabs.maxSeats in *. lia.
  - simpl. rewrite lookup_insert_eq, js_or_else_truthy; lia.
Qed.

(** What either selector shows when its entry holds a count. *)
Lemma driver_selectedSeats_entry s request trip v :
  DriverDashboard.assignmentSeats s
    !! seatKey (Booking.id request) (Trip.id trip) = Some v ->
  v <> 0 ->
  DriverTabs.selectedSeats s request trip = v.
Proof.
  intros Hentry Hv. unfold DriverTabs.selectedSeats.
  rewrite Hentry. now apply js_or_else_truthy.
Qed.

Lemma admin_selectedSeats_entry s request trip v :
  AdminDashboard.matchingSeats s
    !! seatKey (Booking.id request) (Trip.id trip) = Some v ->
  v <> 0 ->
  AdminTabs.selectedSeats s request trip = v.
Proof.
  intros Hentry Hv. unfold AdminTabs.selectedSeats.
  rewrite Hentry. now apply js_or_else_truthy.
Qed.

(** The driver's fetches leave the entries of the seat selectors alone. *)
Lemma fetchMyTrips_assignmentSeats s d n :
  DriverDashboard.assignmentSeats
    (value (DriverDashboard.fetchMyTrips s d n))
  = DriverDashboard.assignmentSeats s.
Proof.
  unfold DriverDashboard.fetchMyTrips.
  destruct (DriverDashboard.user s) as [uid |]; [| reflexivity].
  unfold bind, select_my_trips.
  destruct (request_read_cases (SelectMyTrips uid)
              (fun d =>
                 order Trip.departure_time true
                   (filter (fun r => Trip.driver_id r = uid)
                           (driver_trips d)))
              d n) as [-> | [e ->]]; reflexivity.
Qed.

(** X1.  The seat selector of the driver's Pending Requests tab, for a
    request that asks for at least one seat and a trip copy with at least
    one seat left.

    As long as the selector's entry in [assignmentSeats] is absent, or was
    last set through the input against the trip copy now shown (whatever
    was typed), the count shown lies between 1 and the smaller of the seats
    left and the seats asked for, and the Assign button is not turned down
    by a seat guard: the first thing it does is to send the booking update,
    for exactly that many seats.

    The entry is not clamped again when the trip list is fetched anew:
    [fetchMyTrips] leaves [assignmentSeats] as it was.  A count entered
    earlier is shown whatever the trip copy has become; when it exceeds
    the seats the copy has left, the Assign button is answered with the
    "not enough seats" alert and nothing is sent. *)
Theorem driver_selector_and_seat_guards :
  (forall s request trip uid asked d n,
     DriverDashboard.user s = Some uid ->
     find_booking (Booking.id request) (DriverDashboard.pendingRequests s)
       = Some request ->
     find_trip (Trip.id trip) (DriverDashboard.myTrips s) = Some trip ->
     Booking.seats_booked request = Some asked ->
     1 <= asked ->
     1 <= remaining trip ->
     DriverDashboard.assignmentSeats s
       !! seatKey (Booking.id request) (Trip.id trip) = None \/
     (exists s0 typed, s = DriverTabs.changeSeats s0 request trip typed) ->
     let seats := DriverTabs.selectedSeats s request trip in
     1 <= seats <= Z.min (remaining trip) asked /\
     exists e,
       head (trace (DriverTabs.assign s request trip d n)) =
       Some (Request
               (UpdateBookings (Booking.id request)
                  (DriverDashboard.assignment (Trip.id trip) uid seats
                     (seats * Trip.price_per_seat trip))) e)) /\
  (forall s d n,
     DriverDashboard.assignmentSeats
       (value (DriverDashboard.fetchMyTrips s d n))
     = DriverDashboard.assignmentSeats s) /\
  (forall s request trip uid v d n,
     DriverDashboard.user s = Some uid ->
     find_booking (Booking.id request) (DriverDashboard.pendingRequests s)
       = Some request ->
     find_trip (Trip.id trip) (DriverDashboard.myTrips s) = Some trip ->
     DriverDashboard.assignmentSeats s
       !! seatKey (Booking.id request) (Trip.id trip) = Some v ->
     v <> 0 ->
     DriverTabs.selectedSeats s request trip = v /\
     (remaining trip < v ->
      let r := DriverTabs.assign s request trip d n in
      trace r = [Alert (NotEnoughSeats (remaining trip))] /\
      final r = d /\ value r = s)).
Proof.
  split; [| split; [exact fetchMyTrips_assignmentSeats |]].
  - intros s request trip uid asked d n Huser Hrequest Htrip Hasked Hone
      Hfree Hsel seats.
    assert (DriverTabs.maxSeats request trip = Z.min (remaining trip) asked)
      as Hmax.
    { unfold DriverTabs.maxSeats, remaining.
      rewrite Hasked, js_or_else_truthy by lia. reflexivity. }
    assert (1 <= seats <= Z.min (remaining trip) asked) as Hseats.
    { rewrite <- Hmax. apply driver_selectedSeats; [assumption | lia]. }
    split; [exact Hseats |].
    eapply outcome_first_request. unfold DriverTabs.assign. fold seats.
    apply (handleAssignRequest_admitted s (Booking.id request) (Trip.id trip)
             uid seats request trip Huser Hrequest Htrip d n).
    + lia.
    + rewrite Hasked. simpl. lia.
  - intros s request trip uid v d n Huser Hrequest Htrip Hentry Hv.
    pose proof (driver_selectedSeats_entry s request trip v Hentry Hv)
      as Hshown.
    split; [exact Hshown |]. intros Hstale r. subst r.
    unfold DriverTabs.assign. rewrite Hshown.
    unfold DriverDashboard.handleAssignRequest.
    rewrite Huser, Hrequest, Htrip. unfold remaining in Hstale.
    destruct (decide (v > Trip.available_seats trip - Trip.booked_seats trip))
      as [_ | Hno]; [| lia].
    repeat split; reflexivity.
Qed.

Lemma driver_selector_and_seat_guards_witness :
  let s0 := DriverTabs.changeSeats Sample2.driver_of_two Sample2.for_two
              Sample.hawassa (Some 7) in
  let s := value (DriverDashboard.fetchMyTrips s0 Sample2.booked
                    [Sample.ok 6]) in
  (DriverTabs.selectedSeats s0 Sample2.for_two Sample.hawassa = 2 /\
   1 <= DriverTabs.selectedSeats s0 Sample2.for_two Sample.hawassa
     <= Z.min (remaining Sample.hawassa) 2) /\
  (find_trip "t1" (DriverDashboard.myTrips s) = Some Sample2.hawassa_booked /\
   DriverTabs.maxSeats Sample2.for_two Sample2.hawassa_booked = 1 /\
   DriverTabs.selectedSeats s Sample2.for_two Sample2.hawassa_booked = 2 /\
   trace (DriverTabs.assign s Sample2.for_two Sample2.hawassa_booked
            Sample2.booked []) = [Alert (NotEnoughSeats 1)]).
Proof.
  split.
  - split; [vm_compute; reflexivity |].
    refine (proj1 (proj1 driver_selector_and_seat_guards
                     (DriverTabs.changeSeats Sample2.driver_of_two
                        Sample2.for_two Sample.hawassa (Some 7))
                     Sample2.for_two Sample.hawassa "d1" 2 Sample2.two_requests
                     [] eq_refl eq_refl eq_refl eq_refl _ _ _)).
    + lia.
    + vm_compute; discriminate.
    + right. eexists _, _. reflexivity.
  - split; [vm_compute; reflexivity |].
    split; [vm_compute; reflexivity |].
    destruct (proj2 (proj2 driver_selector_and_seat_guards)
                (value (DriverDashboard.fetchMyTrips
                          (DriverTabs.changeSeats Sample2.driver_of_two
                             Sample2.for_two Sample.hawassa (Some 7))
                          Sample2.booked [Sample.ok 6]))
                Sample2.for_two Sample2.hawassa_booked "d1" 2
                Sample2.booked [] eq_refl eq_refl eq_refl)
      as [Hshown Hrefused].
    + vm_compute. reflexivity.
    + discriminate.
    + split; [exact Hshown |].
      destruct Hrefused as (Htrace & _ & _); [vm_compute; reflexivity |].
      exact Htrace.
Defined.

(** X2.  The seat selector of the admin's matching panel, for a request
    that asks for at least one seat and a trip copy with at least one seat
    left: the Match button is rendered.

    As long as the selector's entry in [matchingSeats] is absent, or was
    last set through the input against the trip copy now shown, the count
    shown lies between 1 and the smaller of the seats left and the seats
    asked for, [handleMatchRequest] settles on exactly that count, and no
    seat guard turns it down.

    The entry is not clamped again when the lists are fetched anew:
    [fetchData] leaves [matchingSeats] as it was.  A count entered earlier
    is shown whatever the trip copy has become; when it exceeds the seats
    the copy has left, the Match button is answered with the "not enough
    seats" alert and nothing is sent. *)
Theorem admin_selector_and_seat_guards :
  (forall s request trip asked d n,
     find_booking (Booking.id request) (AdminDashboard.customRequests s)
       = Some request ->
     find_trip (Trip.id trip) (AdminDashboard.driverTrips s) = Some trip ->
     Booking.seats_booked request = Some asked ->
     1 <= asked ->
     1 <= remaining trip ->
     AdminDashboard.matchingSeats s
       !! seatKey (Booking.id request) (Trip.id trip) = None \/
     (exists s0 typed, s = AdminTabs.changeSeats s0 request trip typed) ->
     let seats := AdminTabs.selectedSeats s request trip in
     AdminTabs.canMatch request trip = true /\
     1 <= seats <= Z.min (remaining trip) asked /\
     AdminDashboard.seatsFor s request (Booking.id request) (Trip.id trip)
       (Some seats) = seats /\
     exists e,
       head (trace (AdminTabs.clickMatch s request trip d n)) =
       Some (Request
               (UpdateBookings (Booking.id request)
                  (AdminDashboard.updateData (Trip.id trip) trip seats)) e)) /\
  (forall s d n,
     AdminDashboard.matchingSeats (value (AdminDashboard.fetchData s d n))
     = AdminDashboard.matchingSeats s) /\
  (forall s request trip v d n,
     find_booking (Booking.id request) (AdminDashboard.customRequests s)
       = Some request ->
     find_trip (Trip.id trip) (AdminDashboard.driverTrips s) = Some trip ->
     AdminDashboard.matchingSeats s
       !! seatKey (Booking.id request) (Trip.id trip) = Some v ->
     v <> 0 ->
     AdminTabs.selectedSeats s request trip = v /\
     (remaining trip < v ->
      let r := AdminTabs.clickMatch s request trip d n in
      trace r = [Alert (NotEnoughSeats (remaining trip))] /\
      final r = d /\ value r = s)).
Proof.
  split; [| split].
  - intros s request trip asked d n Hrequest Htrip Hasked Hone Hfree Hsel
      seats.
    assert (AdminTabs.requestedSeats request = asked) as Hreq.
    { unfold AdminTabs.requestedSeats.
      rewrite Hasked, js_or_else_truthy by lia. reflexivity. }
    assert (AdminTabs.maxSeats request trip = Z.min (remaining trip) asked)
      as Hmax.
    { unfold AdminTabs.maxSeats. now rewrite Hreq. }
    assert (1 <= seats <= Z.min (remaining trip) asked) as Hseats.
    { rewrite <- Hmax. apply admin_selectedSeats; [assumption | lia]. }
    assert (AdminDashboard.seatsFor s request (Booking.id request)
              (Trip.id trip) (Some seats) = seats) as Hfor
      by (apply seatsFor_given; lia).
    split; [| split; [exact Hseats | split; [exact Hfor |]]].
    + unfold AdminTabs.canMatch. rewrite Hreq. unfold remaining in Hfree.
      apply andb_true_iff. split; apply Z.gtb_lt; lia.
    + unfold AdminTabs.clickMatch. fold seats.
      pose proof (handleMatchRequest_admitted s (Booking.id request)
                    (Trip.id trip) (Some seats) request trip Hrequest Htrip
                    d n) as Hr.
      rewrite Hfor in Hr.
      eapply outcome_first_request. apply Hr.
      * lia.
      * rewrite Hasked. simpl. lia.
  - intros s d n.
    destruct (fetchData_run s d n)
      as (o1 & o2 & o3 & _ & _ & _ & _ & _ & _ & _ & Hseats).
    exact Hseats.
  - intros s request trip v d n Hrequest Htrip Hentry Hv.
    pose proof (admin_selectedSeats_entry s request trip v Hentry Hv)
      as Hshown.
    split; [exact Hshown |]. intros Hstale r. subst r.
    unfold AdminTabs.clickMatch. rewrite Hshown.
    unfold AdminDashboard.handleMatchRequest.
    rewrite Hrequest, Htrip, seatsFor_given by assumption.
    unfold remaining in Hstale.
    destruct (decide (v > Trip.available_seats trip - Trip.booked_seats trip))
      as [_ | Hno]; [| lia].
    repeat split; reflexivity.
Qed.

Lemma admin_selector_and_seat_guards_witness :
  let s0 := AdminTabs.changeSeats Sample2.admin_of_two Sample2.for_two
              Sample.hawassa (Some 7) in
  let s := value (AdminDashboard.fetchData s0 Sample2.booked
                    [Sample.ok 6; Sample.ok 7; Sample.ok 8]) in
  (AdminTabs.canMatch Sample2.for_two Sample.hawassa = true /\
   AdminTabs.selectedSeats s0 Sample2.for_two Sample.hawassa = 2) /\
  (find_trip "t1" (AdminDashboard.driverTrips s) = Some Sample2.hawassa_booked /\
   AdminTabs.canMatch Sample2.for_two Sample2.hawassa_booked = true /\
   AdminTabs.maxSeats Sample2.for_two Sample2.hawassa_booked = 1 /\
   AdminTabs.selectedSeats s Sample2.for_two Sample2.hawassa_booked = 2 /\
   trace (AdminTabs.clickMatch s Sample2.for_two Sample2.hawassa_booked
            Sample2.booked []) = [Alert (NotEnoughSeats 1)]).
Proof.
  split.
  - split; [| vm_compute; reflexivity].
    refine (proj1 (proj1 admin_selector_and_seat_guards
                     (AdminTabs.changeSeats Sample2.admin_of_two
                        Sample2.for_two Sample.hawassa (Some 7))
                     Sample2.for_two Sample.hawassa 2 Sample2.two_requests []
                     eq_refl eq_refl eq_refl _ _ _)).
    + lia.
    + vm_compute; discriminate.
    + right. eexists _, _. reflexivity.
  - split; [vm_compute; reflexivity |].
    split; [vm_compute; reflexivity |].
    split; [vm_compute; reflexivity |].
    destruct (proj2 (proj2 admin_selector_and_seat_guards)
                (value (AdminDashboard.fetchData
                          (AdminTabs.changeSeats Sample2.admin_of_two
                             Sample2.for_two Sample.hawassa (Some 7))
                          Sample2.booked
                          [Sample.ok 6; Sample.ok 7; Sample.ok 8]))
                Sample2.for_two Sample2.hawassa_booked 2
                Sample2.booked [] eq_refl eq_refl)
      as [Hshown Hrefused].
    + vm_compute. reflexivity.
    + discriminate.
    + split; [exact Hshown |].
      destruct Hrefused as (Htrace & _ & _); [vm_compute; reflexivity |].
      exact Htrace.
Defined.

(** X3.  A request whose [seats_booked] is null or zero cannot be matched
    from either panel: with a seat left on the trip the selector shows 1
    (the admin's Match button is rendered), and the handler answers the
    click with the "more seats than requested" alert, because 1 exceeds
    what [null] or [0] compares as.  Nothing is sent to the database. *)
Theorem seatless_request_is_never_matched :
  (forall s request trip uid d n,
     DriverDashboard.user s = Some uid ->
     find_booking (Booking.id request) (DriverDashboard.pendingRequests s)
       = Some request ->
     find_trip (Trip.id trip) (DriverDashboard.myTrips s) = Some trip ->
     Booking.seats_booked request = None \/
       Booking.seats_booked request = Some 0 ->
     1 <= remaining trip ->
     DriverDashboard.assignmentSeats s
       !! seatKey (Booking.id request) (Trip.id trip) = None \/
     (exists s0 typed, s = DriverTabs.changeSeats s0 request trip typed) ->
     DriverTabs.selectedSeats s request trip = 1 /\
     DriverTabs.assign s request trip d n =
       mkRun s d n [Alert (MoreThanRequested (Booking.seats_booked request))])
  /\
  (forall s request trip d n,
     find_booking (Booking.id request) (AdminDashboard.customRequests s)
       = Some request ->
     find_trip (Trip.id trip) (AdminDashboard.driverTrips s) = Some trip ->
     Booking.seats_booked request = None \/
       Booking.seats_booked request = Some 0 ->
     1 <= remaining trip ->
     AdminDashboard.matchingSeats s
       !! seatKey (Booking.id request) (Trip.id trip) = None \/
     (exists s0 typed, s = AdminTabs.changeSeats s0 request trip typed) ->
     AdminTabs.canMatch request trip = true /\
     AdminTabs.selectedSeats s request trip = 1 /\
     AdminTabs.clickMatch s request trip d n =
       mkRun s d n [Alert (MoreThanRequested (Booking.seats_booked request))]).
Proof.
  split.
  - intros s request trip uid d n Huser Hrequest Htrip Hnull Hfree Hsel.
    assert (js_or_else (Booking.seats_booked request) 1 = 1) as Hone
      by now apply js_or_else_falsy.
    assert (DriverTabs.maxSeats request trip = 1) as Hmax.
    { unfold DriverTabs.maxSeats. rewrite Hone. unfold remaining in Hfree.
      lia. }
    assert (DriverTabs.selectedSeats s request trip = 1) as Hseats.
    { pose proof (driver_selectedSeats s request trip Hsel) as H.
      rewrite Hmax in H. lia. }
    split; [exact Hseats |].
    unfold DriverTabs.assign, DriverDashboard.handleAssignRequest.
    rewrite Hseats, Huser, Hrequest, Htrip. unfold remaining in Hfree.
    assert (to_number (Booking.seats_booked request) = 0) as Hzero
      by (destruct Hnull as [-> | ->]; reflexivity).
    rewrite Hzero.
    repeat case_decide; try (exfalso; lia). reflexivity.
  - intros s request trip d n Hrequest Htrip Hnull Hfree Hsel.
    assert (AdminTabs.requestedSeats request = 1) as Hone
      by now apply js_or_else_falsy.
    assert (AdminTabs.maxSeats request trip = 1) as Hmax.
    { unfold AdminTabs.maxSeats. rewrite Hone. unfold remaining in Hfree.
      lia. }
    assert (AdminTabs.selectedSeats s request trip = 1) as Hseats.
    { pose proof (admin_selectedSeats s request trip Hsel) as H.
      rewrite Hmax in H. lia. }
    split; [| split; [exact Hseats |]].
    + unfold AdminTabs.canMatch. rewrite Hone. unfold remaining in Hfree.
      apply andb_true_iff. split; apply Z.gtb_lt; lia.
    + unfold AdminTabs.clickMatch, AdminDashboard.handleMatchRequest.
      rewrite Hseats, Hrequest, Htrip, seatsFor_given by lia.
      unfold remaining in Hfree.
      assert (to_number (Booking.seats_booked request) = 0) as Hzero
        by (destruct Hnull as [-> | ->]; reflexivity).
      rewrite Hzero.
      repeat case_decide; try (exfalso; lia). reflexivity.
Qed.

Lemma seatless_request_is_never_matched_witness :
  DriverTabs.assign Sample2.driver Sample2.seatless Sample.hawassa
    Sample2.db [Sample.ok 1; Sample.ok 2] =
  mkRun Sample2.driver Sample2.db [Sample.ok 1; Sample.ok 2]
    [Alert (MoreThanRequested None)].
Proof.
  refine (proj2 (proj1 seatless_request_is_never_matched
                   Sample2.driver Sample2.seatless Sample.hawassa "d1"
                   Sample2.db [Sample.ok 1; Sample.ok 2]
                   eq_refl eq_refl eq_refl _ _ _)).
  - left. reflexivity.
  - vm_compute; discriminate.
  - left. reflexivity.
Defined.

(** ** The seat guards and the check constraints *)

Lemma db_update_driver_trips_negative now d k v :
  k ∈ (Trip.id <$> driver_trips d) -> v < 0 ->
  exists e,
    db_update_driver_trips now d k (TripPatch.setBookedSeats v) = inl e /\
    (e = check_violation \/ e = numeric_out_of_range).
Proof.
  intros Hk Hv. unfold db_update_driver_trips.
  case_decide as Hrange; [| eauto].
  case_decide as Hchecks; [exfalso | eauto].
  apply list_elem_of_fmap in Hk as (row & -> & Hrow).
  rewrite Forall_forall in Hchecks.
  destruct (Hchecks (patch_trip now (Trip.id row)
                       (TripPatch.setBookedSeats v) row))
    as (_ & Hbooked & _).
  - apply list_elem_of_filter. split; [apply patch_trip_id |].
    apply list_elem_of_fmap. eauto.
  - rewrite patch_trip_hit in Hbooked by reflexivity. simpl in Hbooked. lia.
Qed.

Lemma db_update_driver_trips_accepts now d k trip seats :
  Forall trip_checks (driver_trips d) ->
  Forall trip_in_range (driver_trips d) ->
  (forall row, row ∈ driver_trips d -> Trip.id row = k -> row = trip) ->
  0 <= seats <= remaining trip ->
  exists d',
    db_update_driver_trips now d k
      (TripPatch.setBookedSeats (Trip.booked_seats trip + seats)) = inr d'.
Proof.
  intros Hchecks Hrange Hfresh Hseats. unfold db_update_driver_trips.
  rewrite Forall_forall in Hchecks, Hrange.
  assert (forall row',
            row' ∈ filter (fun r => Trip.id r = k)
                     (patch_trip now k
                        (TripPatch.setBookedSeats
                           (Trip.booked_seats trip + seats))
                        <$> driver_trips d) ->
            trip ∈ driver_trips d /\
            row' = touch now
                     (TripPatch.apply
                        (TripPatch.setBookedSeats
                           (Trip.booked_seats trip + seats)) trip))
    as Hhit.
  { intros row' Hrow'. apply list_elem_of_filter in Hrow' as [Hid Hin].
    apply list_elem_of_fmap in Hin as (row & -> & Hrow).
    rewrite patch_trip_id in Hid.
    pose proof (Hfresh row Hrow Hid) as ->.
    split; [assumption | now apply patch_trip_hit]. }
  unfold remaining in Hseats.
  case_decide as H1.
  - case_decide as H2; [eauto |].
    exfalso. apply H2. apply Forall_forall. intros row' Hrow'.
    destruct (Hhit row' Hrow') as [Hin ->].
    destruct (Hchecks trip Hin) as (Ha & Hb & Hc).
    unfold trip_checks. simpl. lia.
  - exfalso. apply H1. apply Forall_forall. intros row' Hrow'.
    destruct (Hhit row' Hrow') as [Hin ->].
    destruct (Hchecks trip Hin) as (Ha & Hb & Hc).
    destruct (Hrange trip Hin) as (Ra & Rb & Rp & Rw).
    unfold trip_in_range, int4, decimal_10_2, trip_checks in *. simpl. lia.
Qed.

(** X4.  [handleAssignRequest] puts no lower bound on the seat count: a
    negative count that is no greater than the seats asked for passes both
    guards.  When it would take the trip's [booked_seats] below zero, the
    booking update is applied all the same (the booking is rewritten with
    the negative seat count) and the database then refuses the trip update;
    the handler alerts and leaves [driver_trips] as it was. *)
Theorem negative_seats_pass_the_guards :
  forall s requestId tripId uid seats request trip d r1 r2 n d1,
    DriverDashboard.user s = Some uid ->
    find_booking requestId (DriverDashboard.pendingRequests s)
      = Some request ->
    find_trip tripId (DriverDashboard.myTrips s) = Some trip ->
    seats <= remaining trip ->
    seats <= to_number (Booking.seats_booked request) ->
    Trip.booked_seats trip + seats < 0 ->
    tripId ∈ (Trip.id <$> driver_trips d) ->
    delivered r1 = true -> delivered r2 = true ->
    db_update_bookings d requestId
      (DriverDashboard.assignment tripId uid seats
         (seats * Trip.price_per_seat trip)) = inr d1 ->
    exists e,
      DriverDashboard.handleAssignRequest s requestId tripId seats d
        (r1 :: r2 :: n) =
      mkRun s d1 n
        [Request
           (UpdateBookings requestId
              (DriverDashboard.assignment tripId uid seats
                 (seats * Trip.price_per_seat trip))) None;
         Request
           (UpdateDriverTrips tripId
              (TripPatch.setBookedSeats (Trip.booked_seats trip + seats)))
           (Some e);
         Alert (ErrorUpdatingTrip e)] /\
      (e = check_violation \/ e = numeric_out_of_range) /\
      driver_trips d1 = driver_trips d /\
      forall b, b ∈ bookings d1 -> Booking.id b = requestId ->
        Booking.seats_booked b = Some seats.
Proof.
  intros s requestId tripId uid seats req trip d r1 r2 n d1
    Huser Hrequest Htrip Hfree Hasked Hneg Hin Hr1 Hr2 Hd1.
  unfold remaining in Hfree.
  pose proof (db_update_bookings_inr _ _ _ _ Hd1) as Hd1'.
  destruct (db_update_driver_trips_negative (server_time r2) d1 tripId
              (Trip.booked_seats trip + seats)) as (e & He & Hkind).
  { subst d1. exact Hin. }
  { exact Hneg. }
  exists e. split; [| split; [exact Hkind | split]].
  - unfold DriverDashboard.handleAssignRequest.
    rewrite Huser, Hrequest, Htrip.
    repeat case_decide; try (exfalso; lia).
    unfold bind, update_bookings, update_driver_trips, request.
    rewrite Hr1, Hd1. cbn. rewrite Hr2, He. reflexivity.
  - subst d1. reflexivity.
  - intros b Hb Hid. subst d1. simpl in Hb.
    apply patched_booking_row in Hb as (b0 & _ & _ & ->); [| assumption].
    reflexivity.
Qed.

Lemma negative_seats_pass_the_guards_witness :
  DriverTabs.selectedSeats Sample2.driver Sample2.negative Sample.hawassa
    = -1 /\
  exists e d1,
    final (DriverTabs.assign Sample2.driver Sample2.negative Sample.hawassa
             Sample2.db [Sample.ok 1; Sample.ok 2]) = d1 /\
    (e = check_violation \/ e = numeric_out_of_range) /\
    driver_trips d1 = driver_trips Sample2.db /\
    forall b, b ∈ bookings d1 -> Booking.id b = "r4" ->
      Booking.seats_booked b = Some (-1).
Proof.
  split; [vm_compute; reflexivity |].
  assert (exists d1,
            db_update_bookings Sample2.db "r4"
              (DriverDashboard.assignment "t1" "d1" (-1)
                 (-1 * Trip.price_per_seat Sample.hawassa)) = inr d1)
    as [d1 Hd1] by (vm_compute; eauto).
  destruct (negative_seats_pass_the_guards
              Sample2.driver "r4" "t1" "d1" (-1) Sample2.negative
              Sample.hawassa Sample2.db (Sample.ok 1) (Sample.ok 2) [] d1
              eq_refl eq_refl eq_refl)
    as (e & Hrun & Hkind & Htrips & Hrows);
    try (vm_compute; discriminate); try reflexivity; try exact Hd1.
  - vm_compute. apply list_elem_of_here.
  - exists e, d1. split; [| auto].
    change (DriverTabs.assign Sample2.driver Sample2.negative Sample.hawassa
              Sample2.db [Sample.ok 1; Sample.ok 2])
      with (DriverDashboard.handleAssignRequest Sample2.driver "r4" "t1"
              (-1) Sample2.db [Sample.ok 1; Sample.ok 2]).
    now rewrite Hrun.
Defined.

Lemma assign_with_fresh_snapshot
    s requestId tripId uid seats req trip d r1 r2 n :
  DriverDashboard.user s = Some uid ->
  find_booking requestId (DriverDashboard.pendingRequests s) = Some req ->
  find_trip tripId (DriverDashboard.myTrips s) = Some trip ->
  0 <= seats <= remaining trip ->
  seats <= to_number (Booking.seats_booked req) ->
  Forall trip_checks (driver_trips d) ->
  Forall trip_in_range (driver_trips d) ->
  (forall row, row ∈ driver_trips d -> Trip.id row = tripId -> row = trip) ->
  delivered r2 = true ->
  booking_updated requestId
    (trace (DriverDashboard.handleAssignRequest s requestId tripId seats d
              (r1 :: r2 :: n))) ->
  trip_updated tripId
    (trace (DriverDashboard.handleAssignRequest s requestId tripId seats d
              (r1 :: r2 :: n))).
Proof.
  intros Huser Hrequest Htrip Hseats Hasked Hchecks Hrange Hfresh Hr2.
  unfold DriverDashboard.handleAssignRequest.
  rewrite Huser, Hrequest, Htrip.
  pose proof Hseats as Hseats'. unfold remaining in Hseats'.
  repeat case_decide; try (exfalso; lia).
  unfold bind.
  destruct (update_bookings_run requestId
              (DriverDashboard.assignment tripId uid seats
                 (seats * Trip.price_per_seat trip)) d (r1 :: r2 :: n))
    as [[e ->] | [d1 [Hd1 ->]]]; cbn.
  - intros [p Hp]. apply list_elem_of_In in Hp. simpl in Hp.
    destruct Hp as [Hp | [Hp | []]]; discriminate Hp.
  - intros _. apply db_update_bookings_inr in Hd1.
    destruct (db_update_driver_trips_accepts (server_time r2) d1 tripId
                trip seats) as [d2 Hd2]; try (subst d1; assumption).
    unfold update_driver_trips, request. rewrite Hr2, Hd2. cbn.
    eexists. apply list_elem_of_further, list_elem_of_here.
Qed.

(** X5.  The first seat guard is the [seats_check] constraint, as long as
    the client's copy of the trip is the row the database holds: when the
    seat count is not negative and passes the guards, the stored trips
    satisfy their constraints and the reply to the trip update is
    delivered, a match whose booking update was applied has its trip update
    applied too.  This holds for the driver's and for the admin's
    handler. *)
Theorem fresh_snapshot_is_never_refused :
  (forall s requestId tripId uid seats request trip d r1 r2 n,
     DriverDashboard.user s = Some uid ->
     find_booking requestId (DriverDashboard.pendingRequests s)
       = Some request ->
     find_trip tripId (DriverDashboard.myTrips s) = Some trip ->
     0 <= seats <= remaining trip ->
     seats <= to_number (Booking.seats_booked request) ->
     Forall trip_checks (driver_trips d) ->
     Forall trip_in_range (driver_trips d) ->
     (forall row, row ∈ driver_trips d -> Trip.id row = tripId ->
        row = trip) ->
     delivered r2 = true ->
     let r := DriverDashboard.handleAssignRequest s requestId tripId seats d
                (r1 :: r2 :: n) in
     booking_updated requestId (trace r) -> trip_updated tripId (trace r)) /\
  (forall s requestId tripId seatsToAssign request trip d r1 r2 n,
     find_booking requestId (AdminDashboard.customRequests s)
       = Some request ->
     find_trip tripId (AdminDashboard.driverTrips s) = Some trip ->
     let seats :=
       AdminDashboard.seatsFor s request requestId tripId seatsToAssign in
     0 <= seats <= remaining trip ->
     seats <= to_number (Booking.seats_booked request) ->
     Forall trip_checks (driver_trips d) ->
     Forall trip_in_range (driver_trips d) ->
     (forall row, row ∈ driver_trips d -> Trip.id row = tripId ->
        row = trip) ->
     delivered r2 = true ->
     let r := AdminDashboard.handleMatchRequest s requestId tripId
                seatsToAssign d (r1 :: r2 :: n) in
     booking_updated requestId (trace r) -> trip_updated tripId (trace r)).
Proof.
  split.
  - intros s requestId tripId uid seats req trip d r1 r2 n
      Huser Hrequest Htrip Hseats Hasked Hchecks Hrange Hfresh Hr2 r.
    subst r. now apply (assign_with_fresh_snapshot s requestId tripId uid
                          seats req trip).
  - intros s requestId tripId seatsToAssign req trip d r1 r2 n
      Hrequest Htrip seats Hseats Hasked Hchecks Hrange Hfresh Hr2 r.
    subst r. unfold AdminDashboard.handleMatchRequest.
    rewrite Hrequest, Htrip. fold seats.
    pose proof Hseats as Hseats'. unfold remaining in Hseats'.
    repeat case_decide; try (exfalso; lia).
    unfold bind.
    destruct (update_bookings_run requestId
                (AdminDashboard.updateData tripId trip seats) d
                (r1 :: r2 :: n))
      as [[e ->] | [d1 [Hd1 ->]]]; cbn.
    + intros [p Hp]. apply list_elem_of_In in Hp. simpl in Hp.
      destruct Hp as [Hp | [Hp | []]]; discriminate Hp.
    + intros _. apply db_update_bookings_inr in Hd1.
      destruct (db_update_driver_trips_accepts (server_time r2) d1 tripId
                  trip seats) as [d2 Hd2]; try (subst d1; assumption).
      unfold update_driver_trips, request. rewrite Hr2, Hd2. cbn.
      eexists. apply list_elem_of_further, list_elem_of_here.
Qed.

Lemma fresh_snapshot_is_never_refused_witness :
  trip_updated "t1"
    (trace (DriverDashboard.handleAssignRequest Sample.driver "r1" "t1" 1
              Sample.db [Sample.ok 1; Sample.ok 2])).
Proof.
  refine (proj1 fresh_snapshot_is_never_refused
            Sample.driver "r1" "t1" "d1" 1 Sample.request Sample.hawassa
            Sample.db (Sample.ok 1) (Sample.ok 2) []
            eq_refl eq_refl eq_refl _ _ _ _ _ eq_refl _).
  - vm_compute. split; discriminate.
  - vm_compute. discriminate.
  - repeat constructor; vm_compute; congruence.
  - repeat constructor; vm_compute; congruence.
  - intros row Hrow Hid. apply list_elem_of_In in Hrow. simpl in Hrow.
    destruct Hrow as [<- | [<- | []]]; [reflexivity | discriminate Hid].
  - exists (DriverDashboard.assignment "t1" "d1" 1 50000).
    vm_compute. apply list_elem_of_here.
Defined.

(** ** Completing a job *)

Lemma completeJob_run s bookingId d n :
  (exists e,
     DriverTabs.completeJob s bookingId d n =
     mkRun s d (tail n)
       [Request
          (UpdateBookings bookingId
             (BookingPatch.mk None None (Some BookingStatus.completed)
                None None)) (Some e)]) \/
  (exists d1,
     db_update_bookings d bookingId
       (BookingPatch.mk None None (Some BookingStatus.completed) None None)
       = inr d1 /\
     DriverTabs.completeJob s bookingId d n =
     let r := DriverDashboard.fetchBookings s d1 (tail n) in
     mkRun (value r) d1 (rest r)
       (Request
          (UpdateBookings bookingId
             (BookingPatch.mk None None (Some BookingStatus.completed)
                None None)) None :: trace r)).
Proof.
  unfold DriverTabs.completeJob, bind.
  destruct (update_bookings_run bookingId
              (BookingPatch.mk None None (Some BookingStatus.completed)
                 None None) d n)
    as [[e ->] | [d1 [Hd1 ->]]]; cbn.
  - left. eauto.
  - right. exists d1. split; [exact Hd1 |].
    now rewrite (proj1 (fetchBookings_refreshes s d1 (tail n))).
Qed.

(** X6.  When "Complete Job" goes through and the refresh that follows is
    answered, the booking is stored as [completed] and is gone from the
    driver's Assigned Jobs, which now holds exactly the bookings assigned
    to the driver that are not completed. *)
Theorem completed_job_leaves_the_list :
  forall s bookingId uid d n,
    DriverDashboard.user s = Some uid ->
    let r := DriverTabs.completeJob s bookingId d n in
    booking_updated bookingId (trace r) ->
    Request (SelectAssignedBookings uid) None ∈ trace r ->
    (forall b, b ∈ bookings (final r) -> Booking.id b = bookingId ->
       Booking.status b = BookingStatus.completed) /\
    (forall b, b ∈ DriverDashboard.assignedBookings (value r) <->
       b ∈ bookings (final r) /\
       Booking.assigned_driver_id b = Some uid /\
       Booking.status b <> BookingStatus.completed) /\
    (forall b, b ∈ DriverDashboard.assignedBookings (value r) ->
       Booking.id b <> bookingId).
Proof.
  intros s bookingId uid d n Huser r Hdone Hread. subst r.
  destruct (completeJob_run s bookingId d n) as [[e He] | [d1 [Hd1 He]]];
    rewrite He in *; clear He; cbn in *.
  { destruct Hdone as [p Hp]. apply list_elem_of_singleton in Hp.
    discriminate Hp. }
  apply db_update_bookings_inr in Hd1.
  assert (forall b, b ∈ bookings d1 -> Booking.id b = bookingId ->
            Booking.status b = BookingStatus.completed) as Hstatus.
  { intros b Hb Hid. subst d1. simpl in Hb.
    apply patched_booking_row in Hb as (b0 & _ & _ & ->); [| assumption].
    reflexivity. }
  revert Hread. unfold DriverDashboard.fetchBookings. rewrite Huser.
  unfold bind, select_assigned_bookings.
  destruct (request_read_cases (SelectAssignedBookings uid)
              (fun d =>
                 order Booking.scheduled_time true
                   (filter (fun b =>
                              Booking.assigned_driver_id b = Some uid /\
                              Booking.status b <> BookingStatus.completed)
                           (bookings d)))
              d1 (tail n)) as [-> | [e ->]]; cbn; intros Hread.
  - assert (forall b,
              b ∈ order Booking.scheduled_time true
                    (filter (fun b =>
                               Booking.assigned_driver_id b = Some uid /\
                               Booking.status b <> BookingStatus.completed)
                            (bookings d1)) <->
              b ∈ bookings d1 /\
              Booking.assigned_driver_id b = Some uid /\
              Booking.status b <> BookingStatus.completed) as Hlist.
    { intros b. rewrite elem_of_order, list_elem_of_filter. tauto. }
    split; [exact Hstatus | split; [exact Hlist |]].
    intros b Hb Hid. apply Hlist in Hb as (Hb & _ & Hnot).
    apply Hnot. now apply Hstatus.
  - exfalso. apply list_elem_of_In in Hread. simpl in Hread.
    destruct Hread as [H | [H | []]]; discriminate H.
Qed.

Lemma completed_job_leaves_the_list_witness :
  let r := DriverTabs.completeJob Sample2.driver "r5" Sample2.db
             [Sample.ok 1; Sample.ok 2] in
  Sample2.job ∈ DriverDashboard.assignedBookings Sample2.driver /\
  forall b, b ∈ DriverDashboard.assignedBookings (value r) ->
    Booking.id b <> "r5".
Proof.
  split; [apply list_elem_of_here |].
  refine (proj2 (proj2 (completed_job_leaves_the_list
                          Sample2.driver "r5" "d1" Sample2.db
                          [Sample.ok 1; Sample.ok 2] eq_refl _ _))).
  - eexists. vm_compute. apply list_elem_of_here.
  - vm_compute. apply list_elem_of_further, list_elem_of_here.
Defined.

(** X7.  "Complete Job" never touches [driver_trips]: the seats a completed
    booking held stay booked.  It never alerts either: when the update is
    refused the handler returns with the state and the database as they
    were, and the trace holds the refused request alone. *)
Theorem complete_job_is_silent_and_keeps_seats :
  forall s bookingId d n,
    let r := DriverTabs.completeJob s bookingId d n in
    driver_trips (final r) = driver_trips d /\
    (forall m, Alert m ∉ trace r) /\
    (~ booking_updated bookingId (trace r) ->
     value r = s /\ final r = d /\
     exists p e, trace r = [Request (UpdateBookings bookingId p) (Some e)]).
Proof.
  intros s bookingId d n r. subst r.
  destruct (completeJob_run s bookingId d n) as [[e He] | [d1 [Hd1 He]]];
    rewrite He; clear He; cbn.
  - split; [reflexivity | split].
    + intros m Hm. apply list_elem_of_singleton in Hm. discriminate Hm.
    + intros _. eauto.
  - apply db_update_bookings_inr in Hd1.
    split; [now subst d1 | split].
    + intros m Hm. apply elem_of_cons in Hm as [Hm | Hm]; [discriminate Hm |].
      pose proof (proj2 (fetchBookings_refreshes s d1 (tail n))) as Href.
      rewrite Forall_forall in Href. exact (Href _ Hm).
    + intros Hno. exfalso. apply Hno. eexists. apply list_elem_of_here.
Qed.

(** ** Deleting a trip *)

Lemma unlink_trip_spec k b :
  Booking.driver_trip_id (unlink_trip k b) <> Some k /\
  Booking.id (unlink_trip k b) = Booking.id b /\
  Booking.status (unlink_trip k b) = Booking.status b /\
  Booking.assigned_driver_id (unlink_trip k b) = Booking.assigned_driver_id b
  /\
  (Booking.driver_trip_id b <> Some k -> unlink_trip k b = b) /\
  (Booking.driver_trip_id b = Some k ->
   Booking.driver_trip_id (unlink_trip k b) = None).
Proof.
  unfold unlink_trip. case_decide as H; simpl.
  - repeat split; try discriminate; try reflexivity. intros Hne. contradiction.
  - repeat split; try assumption; try reflexivity. intros Heq. contradiction.
Qed.

(** X8.  Declining the confirmation of "delete trip" does nothing at all.
    When the deletion goes through, no trip with that id is left and the
    other trips are as before; every booking that pointed to the trip is
    kept with its [driver_trip_id] cleared ([on delete set null]) while its
    status and its assigned driver are left alone, so a booking that was
    matched to the trip stays [assigned], without a trip, and does not
    return to the pending requests. *)
Theorem deleted_trip_unlinks_its_bookings :
  (forall s tripId d n,
     DriverDashboard.handleDeleteTrip s tripId false d n = mkRun s d n []) /\
  (forall s tripId d n,
     let r := DriverDashboard.handleDeleteTrip s tripId true d n in
     Request (DeleteDriverTrip tripId) None ∈ trace r ->
     (forall row, row ∈ driver_trips (final r) <->
        row ∈ driver_trips d /\ Trip.id row <> tripId) /\
     length (bookings (final r)) = length (bookings d) /\
     forall i b, bookings d !! i = Some b ->
       exists b',
         bookings (final r) !! i = Some b' /\
         Booking.id b' = Booking.id b /\
         Booking.status b' = Booking.status b /\
         Booking.assigned_driver_id b' = Booking.assigned_driver_id b /\
         Booking.driver_trip_id b' <> Some tripId /\
         (Booking.driver_trip_id b = Some tripId ->
          Booking.driver_trip_id b' = None) /\
         (Booking.driver_trip_id b <> Some tripId -> b' = b)).
Proof.
  split; [reflexivity |].
  intros s tripId d n r. subst r.
  unfold DriverDashboard.handleDeleteTrip, bind, delete_driver_trip.
  destruct (request_write (DeleteDriverTrip tripId)
              (fun _ d => inr (db_delete_driver_trip d tripId)) d n)
    as [[e ->] | (r1 & n' & d' & -> & _ & [= <-] & ->)]; cbn.
  - intros Hin. apply list_elem_of_In in Hin. simpl in Hin.
    destruct Hin as [H | [H | []]]; discriminate H.
  - intros _.
    rewrite (proj1 (fetchMyTrips_refreshes s
                      (db_delete_driver_trip d tripId) n')).
    simpl. split; [| split].
    + intros row. rewrite list_elem_of_filter. tauto.
    + apply length_fmap.
    + intros i b Hb. exists (unlink_trip tripId b). split.
      * rewrite list_lookup_fmap, Hb. reflexivity.
      * destruct (unlink_trip_spec tripId b) as (H1 & H2 & H3 & H4 & H5 & H6).
        auto 10.
Qed.

Lemma deleted_trip_unlinks_its_bookings_witness :
  let r := DriverDashboard.handleDeleteTrip Sample2.driver "t1" true
             Sample2.db [Sample.ok 1; Sample.ok 2] in
  exists b',
    bookings (final r) !! 3%nat = Some b' /\
    Booking.status b' = BookingStatus.assigned /\
    Booking.driver_trip_id b' = None.
Proof.
  destruct (proj2 deleted_trip_unlinks_its_bookings
              Sample2.driver "t1" Sample2.db [Sample.ok 1; Sample.ok 2])
    as (_ & _ & Hrows).
  - vm_compute. apply list_elem_of_here.
  - destruct (Hrows 3%nat Sample2.job eq_refl)
      as (b' & Hb' & _ & Hstatus & _ & _ & Hnull & _).
    exists b'. split; [exact Hb' |]. split; [exact Hstatus |].
    now apply Hnull.
Defined.

(** ** Creating a trip *)

Lemma db_insert_driver_trip_inr now fresh d nt d' :
  db_insert_driver_trip now fresh d nt = inr d' ->
  exists dep avail pps wcp,
    NewTrip.departure_time nt = Some dep /\
    NewTrip.available_seats nt = Some avail /\
    NewTrip.price_per_seat nt = Some pps /\
    NewTrip.whole_car_price nt = Some wcp /\
    avail > 0 /\
    (fresh ∉ (Trip.id <$> driver_trips d)) /\
    NewTrip.driver_id nt ∈ (Profile.id <$> profiles d) /\
    d' = mkDb (bookings d)
           (driver_trips d ++
            [Trip.mk fresh (NewTrip.driver_id nt) (NewTrip.origin nt)
               (NewTrip.destination nt) dep avail 0 pps wcp
               TripStatus.scheduled now now])
           (profiles d).
Proof.
  unfold db_insert_driver_trip.
  destruct (NewTrip.departure_time nt) as [dep |]; [| discriminate].
  destruct (NewTrip.available_seats nt) as [avail |]; [| discriminate].
  destruct (NewTrip.price_per_seat nt) as [pps |]; [| discriminate].
  destruct (NewTrip.whole_car_price nt) as [wcp |]; [| discriminate].
  repeat case_decide; try discriminate. intros [= <-].
  exists dep, avail, pps, wcp.
  match goal with H : trip_checks _ |- _ => destruct H as (Ha & _) end.
  simpl in Ha. auto 10.
Qed.

Lemma fetchMyTrips_run s d n :
  final (DriverDashboard.fetchMyTrips s d n) = d /\
  ((value (DriverDashboard.fetchMyTrips s d n) = s /\
    forall uid,
      Request (SelectMyTrips uid) None
        ∉ trace (DriverDashboard.fetchMyTrips s d n)) \/
   (exists uid,
      DriverDashboard.user s = Some uid /\
      value (DriverDashboard.fetchMyTrips s d n) =
        DriverDashboard.setMyTrips
          (order Trip.departure_time true
             (filter (fun r => Trip.driver_id r = uid) (driver_trips d)))
          s)).
Proof.
  split; [apply fetchMyTrips_refreshes |].
  unfold DriverDashboard.fetchMyTrips.
  destruct (DriverDashboard.user s) as [uid |].
  2: { left. split; [reflexivity |]. intros uid. apply not_elem_of_nil. }
  unfold bind, select_my_trips.
  destruct (request_read_cases (SelectMyTrips uid)
              (fun d =>
                 order Trip.departure_time true
                   (filter (fun r => Trip.driver_id r = uid)
                           (driver_trips d)))
              d n) as [-> | [e ->]]; cbn.
  - right. exists uid. auto.
  - left. split; [reflexivity |]. intros uid' Hin.
    apply list_elem_of_singleton in Hin. discriminate Hin.
Qed.

(** X9.  When the insert of "create trip" goes through, [driver_trips]
    gains exactly one row, under an id no trip had: it belongs to the
    signed-in driver, has no seat booked, is [scheduled], and carries the
    form's route, seats (more than zero) and prices; bookings are
    untouched.  The form is cleared and closed, and if the refresh that
    follows is answered the new trip is in the driver's list. *)
Theorem created_trip_is_empty_and_scheduled :
  forall s uid d n,
    DriverDashboard.user s = Some uid ->
    let r := DriverDashboard.handleCreateTrip s d n in
    (exists nt, Request (InsertDriverTrip nt) None ∈ trace r) ->
    exists row,
      driver_trips (final r) = driver_trips d ++ [row] /\
      bookings (final r) = bookings d /\
      (Trip.id row ∉ (Trip.id <$> driver_trips d)) /\
      Trip.driver_id row = uid /\
      Trip.booked_seats row = 0 /\
      Trip.status row = TripStatus.scheduled /\
      Trip.available_seats row > 0 /\
      DriverDashboard.newTrip s =
        DriverDashboard.mkTripForm (Trip.origin row) (Trip.destination row)
          (Some (Trip.departure_time row)) (Some (Trip.available_seats row))
          (Some (Trip.price_per_seat row)) (Some (Trip.whole_car_price row))
      /\
      DriverDashboard.showCreateTrip (value r) = false /\
      DriverDashboard.newTrip (value r) = DriverDashboard.blank_form /\
      (Request (SelectMyTrips uid) None ∈ trace r ->
       row ∈ DriverDashboard.myTrips (value r)).
Proof.
  intros s uid d n Huser r. subst r.
  unfold DriverDashboard.handleCreateTrip. rewrite Huser.
  unfold bind, insert_driver_trip.
  match goal with
  | |- context [request (InsertDriverTrip ?nt) _ d n] =>
      destruct (request_write (InsertDriverTrip nt)
                  (fun r d =>
                     db_insert_driver_trip (server_time r) (fresh_uuid r)
                       d nt) d n)
        as [[e ->] | (r1 & n' & d' & -> & _ & Hd' & ->)]
  end; cbn.
  - intros [nt Hin]. apply list_elem_of_In in Hin. simpl in Hin.
    destruct Hin as [H | [H | []]]; discriminate H.
  - intros _.
    apply db_insert_driver_trip_inr in Hd'
      as (dep & avail & pps & wcp & Hdep & Havail & Hpps & Hwcp & Hpos
          & Hfresh & _ & ->).
    simpl in Hdep, Havail, Hpps, Hwcp.
    match goal with
    | |- context [DriverDashboard.fetchMyTrips ?s' ?d' n'] =>
        destruct (fetchMyTrips_run s' d' n') as [Hfinal Hvalue];
        rewrite Hfinal
    end.
    eexists. split; [reflexivity |]. split; [reflexivity |].
    split; [exact Hfresh |]. split; [reflexivity |].
    split; [reflexivity |]. split; [reflexivity |].
    split; [exact Hpos |]. split.
    { destruct (DriverDashboard.newTrip s). simpl in *. congruence. }
    destruct Hvalue as [[-> Hno] | (uid' & Huid' & ->)].
    + split; [reflexivity |]. split; [reflexivity |].
      intros Hin. exfalso. apply elem_of_cons in Hin as [Hin | Hin].
      * discriminate Hin.
      * exact (Hno uid Hin).
    + simpl in Huid'. assert (uid' = uid) as -> by congruence.
      split; [reflexivity |]. split; [reflexivity |].
      intros _. simpl. apply elem_of_order, list_elem_of_filter.
      split; [reflexivity |]. apply elem_of_app. right.
      apply list_elem_of_here.
Qed.

Lemma created_trip_is_empty_and_scheduled_witness :
  let r := DriverDashboard.handleCreateTrip Sample.creating Sample.no_trips
             [Sample.created 7; Sample.ok 8] in
  exists row,
    driver_trips (final r) = driver_trips Sample.no_trips ++ [row] /\
    Trip.booked_seats row = 0 /\
    DriverDashboard.newTrip (value r) = DriverDashboard.blank_form.
Proof.
  destruct (created_trip_is_empty_and_scheduled
              Sample.creating "d1" Sample.no_trips
              [Sample.created 7; Sample.ok 8] eq_refl)
    as (row & Hrows & _ & _ & _ & Hbooked & _ & _ & _ & _ & Hform & _).
  - eexists. vm_compute. apply list_elem_of_here.
  - exists row. auto.
Defined.

(** X10.  "Create trip" with a form whose seats, departure time or one of
    the prices does not parse, or whose seat count is not positive, creates
    nothing: the insert is refused, the database is as before, an alert is
    shown, and the form stays open with what was typed. *)
Theorem invalid_trip_form_is_refused :
  forall s uid d n,
    DriverDashboard.user s = Some uid ->
    let f := DriverDashboard.newTrip s in
    DriverDashboard.form_departure_time f = None \/
    DriverDashboard.form_price_per_seat f = None \/
    DriverDashboard.form_whole_car_price f = None \/
    (forall seats, DriverDashboard.form_available_seats f = Some seats ->
       seats <= 0) ->
    let r := DriverDashboard.handleCreateTrip s d n in
    final r = d /\ value r = s /\
    exists nt e,
      trace r = [Request (InsertDriverTrip nt) (Some e);
                 Alert (ErrorCreatingTrip e)].
Proof.
  intros s uid d n Huser f Hbad r. subst r f.
  unfold DriverDashboard.handleCreateTrip. rewrite Huser.
  unfold bind, insert_driver_trip.
  match goal with
  | |- context [request (InsertDriverTrip ?nt) _ d n] =>
      destruct (request_write (InsertDriverTrip nt)
                  (fun r d =>
                     db_insert_driver_trip (server_time r) (fresh_uuid r)
                       d nt) d n)
        as [[e ->] | (r1 & n' & d' & -> & _ & Hd' & ->)]
  end; cbn.
  - split; [reflexivity |]. split; [reflexivity |]. eauto.
  - exfalso.
    apply db_insert_driver_trip_inr in Hd'
      as (dep & avail & pps & wcp & Hdep & Havail & Hpps & Hwcp & Hpos & _).
    simpl in Hdep, Havail, Hpps, Hwcp.
    destruct Hbad as [H | [H | [H | H]]]; try congruence.
    specialize (H avail Havail). lia.
Qed.

Lemma invalid_trip_form_is_refused_witness :
  final (DriverDashboard.handleCreateTrip
           (DriverDashboard.setNewTrip
              (DriverDashboard.mkTripForm "Addis Ababa" "Adama" (Some 5000)
                 (Some 0) (Some 20000) (Some 70000))
              Sample.creating)
           Sample.no_trips [Sample.created 7; Sample.ok 8])
  = Sample.no_trips.
Proof.
  refine (proj1 (invalid_trip_form_is_refused
                   (DriverDashboard.setNewTrip
                      (DriverDashboard.mkTripForm "Addis Ababa" "Adama"
                         (Some 5000) (Some 0) (Some 20000) (Some 70000))
                      Sample.creating)
                   "d1" Sample.no_trips [Sample.created 7; Sample.ok 8]
                   eq_refl _)).
  right. right. right. intros seats [= <-]. lia.
Defined.

(** ** Editing prices *)

Lemma price_patch_row now k v row (field : AdminDashboard.PriceField) :
  let p := match field with
           | AdminDashboard.price_per_seat => TripPatch.setPricePerSeat v
           | AdminDashboard.whole_car_price => TripPatch.setWholeCarPrice v
           end in
  let row' := patch_trip now k p row in
  Trip.id row' = Trip.id row /\
  Trip.available_seats row' = Trip.available_seats row /\
  Trip.booked_seats row' = Trip.booked_seats row /\
  Trip.status row' = Trip.status row /\
  (Trip.id row <> k -> row' = row) /\
  (Trip.id row = k ->
   match field with
   | AdminDashboard.price_per_seat =>
       Trip.price_per_seat row' = v /\
       Trip.whole_car_price row' = Trip.whole_car_price row
   | AdminDashboard.whole_car_price =>
       Trip.whole_car_price row' = v /\
       Trip.price_per_seat row' = Trip.price_per_seat row
   end).
Proof.
  intros p row'. subst p row'.
  destruct (decide (Trip.id row = k)) as [Heq | Hne].
  - rewrite patch_trip_hit by assumption.
    destruct field; simpl; repeat split; try reflexivity;
      intros; contradiction.
  - rewrite patch_trip_miss by assumption.
    repeat split; try reflexivity. intros; contradiction.
Qed.

(** X11.  Editing a trip's price from the admin dashboard never touches a
    booking: bookings matched earlier keep the price they were given.  In
    [driver_trips] it leaves every row's id, seats and status alone and
    changes no row but the trip's; when the update is applied, the trip
    carries the new value in the edited column and its other price is
    unchanged. *)
Theorem price_edit_leaves_bookings_and_seats :
  forall s tripId field v d n,
    let r := AdminDashboard.handleUpdateTripPrice s tripId field v d n in
    bookings (final r) = bookings d /\
    length (driver_trips (final r)) = length (driver_trips d) /\
    forall i row, driver_trips d !! i = Some row ->
      exists row',
        driver_trips (final r) !! i = Some row' /\
        Trip.id row' = Trip.id row /\
        Trip.available_seats row' = Trip.available_seats row /\
        Trip.booked_seats row' = Trip.booked_seats row /\
        Trip.status row' = Trip.status row /\
        (Trip.id row <> tripId -> row' = row) /\
        (trip_updated tripId (trace r) -> Trip.id row = tripId ->
         match field with
         | AdminDashboard.price_per_seat =>
             Trip.price_per_seat row' = v /\
             Trip.whole_car_price row' = Trip.whole_car_price row
         | AdminDashboard.whole_car_price =>
             Trip.whole_car_price row' = v /\
             Trip.price_per_seat row' = Trip.price_per_seat row
         end).
Proof.
  intros s tripId field v d n r. subst r.
  unfold AdminDashboard.handleUpdateTripPrice, bind.
  match goal with
  | |- context [update_driver_trips tripId ?p d n] =>
      destruct (update_driver_trips_run tripId p d n)
        as [[e ->] | (now & d' & Hd' & ->)]
  end; cbn.
  - split; [reflexivity |]. split; [reflexivity |].
    intros i row Hrow. exists row. repeat split; try assumption.
    intros [q Hq]. exfalso. apply list_elem_of_In in Hq. simpl in Hq.
    destruct Hq as [H | [H | []]]; discriminate H.
  - destruct (fetchData_run (AdminDashboard.setEditingPrice None s) d'
                (tail n)) as (o1 & o2 & o3 & Hfinal & _).
    rewrite Hfinal. apply db_update_driver_trips_inr in Hd' as [-> _].
    simpl. split; [reflexivity |]. split; [apply length_fmap |].
    intros i row Hrow. eexists. split.
    + rewrite list_lookup_fmap, Hrow. reflexivity.
    + destruct (price_patch_row now tripId v row field)
        as (H1 & H2 & H3 & H4 & H5 & H6).
      repeat split; try assumption. intros _ Hid. now apply H6.
Qed.

Lemma refreshes_no_alert {A} (m : M A) d n msg :
  refreshes m -> Alert msg ∉ trace (m d n).
Proof.
  intros Hm Hin. destruct (Hm d n) as [_ Hall].
  rewrite Forall_forall in Hall. exact (Hall _ Hin).
Qed.

(** X12.  A refresh that gets no answer keeps what the dashboard showed:
    each list of the admin dashboard ([bookings] with [customRequests],
    [driverTrips], [drivers]) is replaced only when its own query is
    answered, whatever happens to the other two; the three driver fetches
    behave the same way.  A refresh never alerts and never changes the
    database. *)
Theorem failed_refresh_keeps_the_lists :
  (forall s d n,
     let r := AdminDashboard.fetchData s d n in
     let f := AdminDashboard.filters s in
     final r = d /\
     (forall m, Alert m ∉ trace r) /\
     ((Request (SelectBookings (filter_date f)) None ∉ trace r) ->
      AdminDashboard.bookings (value r) = AdminDashboard.bookings s /\
      AdminDashboard.customRequests (value r) =
        AdminDashboard.customRequests s) /\
     ((Request (SelectDriverTrips f) None ∉ trace r) ->
      AdminDashboard.driverTrips (value r) = AdminDashboard.driverTrips s) /\
     ((Request SelectDrivers None ∉ trace r) ->
      AdminDashboard.drivers (value r) = AdminDashboard.drivers s)) /\
  (forall s d n,
     let r := DriverDashboard.fetchMyTrips s d n in
     final r = d /\
     (forall m, Alert m ∉ trace r) /\
     ((forall uid, Request (SelectMyTrips uid) None ∉ trace r) ->
      value r = s)) /\
  (forall s d n,
     let r := DriverDashboard.fetchPendingRequests s d n in
     final r = d /\
     (forall m, Alert m ∉ trace r) /\
     ((Request SelectPendingRequests None ∉ trace r) -> value r = s)) /\
  (forall s d n,
     let r := DriverDashboard.fetchBookings s d n in
     final r = d /\
     (forall m, Alert m ∉ trace r) /\
     ((forall uid, Request (SelectAssignedBookings uid) None ∉ trace r) ->
      value r = s)).
Proof.
  split; [| split; [| split]].
  - intros s d n r f. subst r f.
    destruct (fetchData_run s d n)
      as (o1 & o2 & o3 & Hfinal & Htrace & Hb & Hc & Ht & Hd & _).
    split; [exact Hfinal |]. rewrite Htrace, Hb, Hc, Ht, Hd.
    split; [| split; [| split]].
    + intros m Hm. apply list_elem_of_In in Hm.
      destruct o1; simpl in Hm; intuition discriminate.
    + intros Hno. destruct o1; [auto |].
      exfalso. apply Hno. apply list_elem_of_here.
    + intros Hno. destruct o2; [auto |].
      exfalso. apply Hno. apply list_elem_of_further, elem_of_app. right.
      apply list_elem_of_here.
    + intros Hno. destruct o3; [auto |].
      exfalso. apply Hno. apply list_elem_of_further, elem_of_app. right.
      apply list_elem_of_further, list_elem_of_here.
  - intros s d n r. subst r.
    split; [apply fetchMyTrips_refreshes |].
    split; [intros m; apply refreshes_no_alert, fetchMyTrips_refreshes |].
    unfold DriverDashboard.fetchMyTrips.
    destruct (DriverDashboard.user s) as [uid |]; [| reflexivity].
    unfold bind, select_my_trips.
    destruct (request_read_cases (SelectMyTrips uid)
                (fun d =>
                   order Trip.departure_time true
                     (filter (fun r => Trip.driver_id r = uid)
                             (driver_trips d)))
                d n) as [-> | [e ->]]; cbn; intros Hno; [| reflexivity].
    exfalso. apply (Hno uid), list_elem_of_here.
  - intros s d n r. subst r.
    split; [apply fetchPendingRequests_refreshes |].
    split; [intros m; apply refreshes_no_alert, fetchPendingRequests_refreshes |].
    unfold DriverDashboard.fetchPendingRequests.
    destruct (DriverDashboard.user s) as [uid |]; [| reflexivity].
    unfold bind, select_pending_requests.
    destruct (request_read_cases SelectPendingRequests
                (fun d =>
                   order Booking.created_at false
                     (filter (fun b =>
                                Booking.booking_type b =
                                  BookingType.custom_request /\
                                Booking.status b = BookingStatus.pending /\
                                Booking.driver_trip_id b = None)
                             (bookings d)))
                d n) as [-> | [e ->]]; cbn; intros Hno; [| reflexivity].
    exfalso. apply Hno, list_elem_of_here.
  - intros s d n r. subst r.
    split; [apply fetchBookings_refreshes |].
    split; [intros m; apply refreshes_no_alert, fetchBookings_refreshes |].
    unfold DriverDashboard.fetchBookings.
    destruct (DriverDashboard.user s) as [uid |]; [| reflexivity].
    unfold bind, select_assigned_bookings.
    destruct (request_read_cases (SelectAssignedBookings uid)
                (fun d =>
                   order Booking.scheduled_time true
                     (filter (fun b =>
                                Booking.assigned_driver_id b = Some uid /\
                                Booking.status b <> BookingStatus.completed)
                             (bookings d)))
                d n) as [-> | [e ->]]; cbn; intros Hno; [| reflexivity].
    exfalso. apply (Hno uid), list_elem_of_here.
Qed.

(** ** The order of the lists *)

Lemma insert_by_perm {A} (key : A -> Z) asc x (l : list A) :
  insert_by key asc x l ≡ₚ x :: l.
Proof.
  induction l as [| y l IH]; simpl; [reflexivity |].
  destruct (if asc then key x <=? key y else key y <=? key x);
    [reflexivity |].
  rewrite IH. apply Permutation_swap.
Qed.

Lemma order_perm {A} (key : A -> Z) asc (l : list A) :
  order key asc l ≡ₚ l.
Proof.
  unfold order. induction l as [| x l IH]; simpl; [reflexivity |].
  now rewrite insert_by_perm, IH.
Qed.

Lemma insert_by_ordered {A} (key : A -> Z) asc x (l : list A) :
  ordered key asc l -> ordered key asc (insert_by key asc x l).
Proof.
  induction l as [| y l IH]; simpl; [intros _; split; constructor |].
  intros [Hy Hl].
  destruct (if asc then key x <=? key y else key y <=? key x) eqn:Hxy; simpl.
  - split; [| split; assumption].
    constructor.
    + destruct asc; [apply Z.leb_le in Hxy | apply Z.leb_le in Hxy]; exact Hxy.
    + eapply Forall_impl; [exact Hy |]. intros z Hz.
      destruct asc; apply Z.leb_le in Hxy; lia.
  - split; [| now apply IH].
    rewrite insert_by_perm. constructor; [| exact Hy].
    destruct asc; apply Z.leb_gt in Hxy; lia.
Qed.

Lemma order_ordered {A} (key : A -> Z) asc (l : list A) :
  ordered key asc (order key asc l).
Proof.
  unfold order. induction l as [| x l IH]; simpl; [exact I |].
  now apply insert_by_ordered.
Qed.

(** X13.  What a driver fetch shows is ordered and complete.  After
    [fetchMyTrips] is answered, the driver's trips are listed by departure
    time, earliest first, each of the driver's rows of [driver_trips]
    exactly once; after [fetchPendingRequests] is answered, the pending
    requests are listed newest first, each pending custom request without
    a trip exactly once. *)
Theorem fetched_lists_are_ordered :
  (forall s uid d n,
     DriverDashboard.user s = Some uid ->
     let r := DriverDashboard.fetchMyTrips s d n in
     Request (SelectMyTrips uid) None ∈ trace r ->
     ordered Trip.departure_time true (DriverDashboard.myTrips (value r)) /\
     DriverDashboard.myTrips (value r) ≡ₚ
       filter (fun row => Trip.driver_id row = uid) (driver_trips d)) /\
  (forall s d n,
     let r := DriverDashboard.fetchPendingRequests s d n in
     Request SelectPendingRequests None ∈ trace r ->
     ordered Booking.created_at false
       (DriverDashboard.pendingRequests (value r)) /\
     DriverDashboard.pendingRequests (value r) ≡ₚ
       filter (fun b =>
                 Booking.booking_type b = BookingType.custom_request /\
                 Booking.status b = BookingStatus.pending /\
                 Booking.driver_trip_id b = None)
              (bookings d)).
Proof.
  split.
  - intros s uid d n Huser r. subst r.
    unfold DriverDashboard.fetchMyTrips. rewrite Huser.
    unfold bind, select_my_trips.
    destruct (request_read_cases (SelectMyTrips uid)
                (fun d =>
                   order Trip.departure_time true
                     (filter (fun r => Trip.driver_id r = uid)
                             (driver_trips d)))
                d n) as [-> | [e ->]]; cbn; intros Hin.
    + split; [apply order_ordered | apply order_perm].
    + apply list_elem_of_singleton in Hin. discriminate Hin.
  - intros s d n r. subst r.
    unfold DriverDashboard.fetchPendingRequests.
    destruct (DriverDashboard.user s) as [uid |]; cbn.
    2: { intros Hin. now apply elem_of_nil in Hin. }
    unfold bind, select_pending_requests.
    destruct (request_read_cases SelectPendingRequests
                (fun d =>
                   order Booking.created_at false
                     (filter (fun b =>
                                Booking.booking_type b =
                                  BookingType.custom_request /\
                                Booking.status b = BookingStatus.pending /\
                                Booking.driver_trip_id b = None)
                             (bookings d)))
                d n) as [-> | [e ->]]; cbn; intros Hin.
    + split; [apply order_ordered | apply order_perm].
    + apply list_elem_of_singleton in Hin. discriminate Hin.
Qed.

Lemma fetched_lists_are_ordered_witness :
  let r := DriverDashboard.fetchMyTrips Sample.driver
             (mkDb [] [Sample.gondar; Sample.hawassa] [Sample.abel])
             [Sample.ok 1] in
  DriverDashboard.myTrips (value r) = [Sample.hawassa; Sample.gondar] /\
  ordered Trip.departure_time true (DriverDashboard.myTrips (value r)).
Proof.
  split; [vm_compute; reflexivity |].
  refine (proj1 (proj1 fetched_lists_are_ordered Sample.driver "d1"
                   (mkDb [] [Sample.gondar; Sample.hawassa] [Sample.abel])
                   [Sample.ok 1] eq_refl _)).
  vm_compute. apply list_elem_of_here.
Defined.

(** ** The seat count the admin handler settles on *)

Lemma truthy_nonzero o : truthy o = true -> exists v, o = Some v /\ v <> 0.
Proof.
  destruct o as [v |]; simpl; [| discriminate].
  intros H. exists v. split; [reflexivity |].
  apply negb_true_iff, Z.eqb_neq in H. exact H.
Qed.

Lemma seatsFor_nonzero s request requestId tripId seatsToAssign :
  AdminDashboard.seatsFor s request requestId tripId seatsToAssign <> 0.
Proof.
  unfold AdminDashboard.seatsFor.
  set (a := js_or (js_or seatsToAssign _) _).
  unfold js_or at 1.
  destruct (truthy a) eqn:Ha; simpl; [| discriminate].
  apply truthy_nonzero in Ha as (v & -> & Hv). exact Hv.
Qed.

(** X14.  [handleMatchRequest] never books zero seats: whatever it is
    called with, a booking update it sends sets [seats_booked] to a number
    other than zero (a missing or zero seat count falls back to the
    selector's entry, then to the request's own count, then to 1), sets
    the status to [assigned], and prices exactly that many seats. *)
Theorem admin_never_books_zero_seats :
  forall s requestId tripId seatsToAssign d n k p e,
    Request (UpdateBookings k p) e
      ∈ trace (AdminDashboard.handleMatchRequest s requestId tripId
                 seatsToAssign d n) ->
    exists request trip seats,
      find_booking requestId (AdminDashboard.customRequests s)
        = Some request /\
      find_trip tripId (AdminDashboard.driverTrips s) = Some trip /\
      seats = AdminDashboard.seatsFor s request requestId tripId
                seatsToAssign /\
      seats <> 0 /\
      k = requestId /\
      BookingPatch.seats_booked p = Some seats /\
      BookingPatch.status p = Some BookingStatus.assigned /\
      BookingPatch.price p = Some (seats * Trip.price_per_seat trip).
Proof.
  intros s requestId tripId seatsToAssign d n k p e Hin.
  destruct (find_booking requestId (AdminDashboard.customRequests s))
    as [req |] eqn:Hrequest.
  2: { unfold AdminDashboard.handleMatchRequest in Hin.
       rewrite Hrequest in Hin. now apply elem_of_nil in Hin. }
  destruct (find_trip tripId (AdminDashboard.driverTrips s))
    as [trip |] eqn:Htrip.
  2: { unfold AdminDashboard.handleMatchRequest in Hin.
       rewrite Hrequest, Htrip in Hin. now apply elem_of_nil in Hin. }
  destruct (decide
              (AdminDashboard.seatsFor s req requestId tripId
                 seatsToAssign > remaining trip \/
               AdminDashboard.seatsFor s req requestId tripId
                 seatsToAssign > to_number (Booking.seats_booked req)))
    as [Hguard | Hguard].
  { destruct (handleMatchRequest_refused s requestId tripId seatsToAssign
                req trip Hrequest Htrip d n Hguard) as [m Hm].
    rewrite Hm in Hin. apply list_elem_of_singleton in Hin.
    discriminate Hin. }
  assert (match_outcome d s requestId tripId
            (AdminDashboard.updateData tripId trip
               (AdminDashboard.seatsFor s req requestId tripId
                  seatsToAssign))
            (TripPatch.setBookedSeats
               (Trip.booked_seats trip +
                AdminDashboard.seatsFor s req requestId tripId
                  seatsToAssign))
            ErrorMatchingRequest ErrorUpdatingTrip
            (AdminDashboard.handleMatchRequest s requestId tripId
               seatsToAssign d n)) as Hr
    by (apply handleMatchRequest_admitted; [assumption | assumption | lia
                                            | lia]).
  apply outcome_flow in Hr.
  apply list_elem_of_lookup_1 in Hin as [i Hi].
  destruct (match_flow_writes _ _ _ Hr i _ _ Hi eq_refl)
    as [[_ Hc] | (_ & Hc & _)]; [| discriminate Hc].
  injection Hc as -> ->.
  exists req, trip, (AdminDashboard.seatsFor s req requestId tripId
                       seatsToAssign).
  repeat split; try reflexivity. apply seatsFor_nonzero.
Qed.

Lemma admin_never_books_zero_seats_witness :
  exists seats,
    seats <> 0 /\
    seats = AdminDashboard.seatsFor Sample.admin Sample.request "r1" "t1"
              (Some 0).
Proof.
  destruct (admin_never_books_zero_seats Sample.admin "r1" "t1" (Some 0)
              Sample.db [Sample.ok 1; Sample.ok 2] "r1"
              (AdminDashboard.updateData "t1" Sample.hawassa 1) None)
    as (request & trip & seats & Hrequest & Htrip & Hseats & Hnz & _).
  - vm_compute. apply list_elem_of_here.
  - exists seats. split; [exact Hnz |].
    injection Hrequest as <-. exact Hseats.
Defined.

(** ** The driver's trips stay the driver's own *)

Lemma own_trips_same s s' :
  DriverDashboard.user s' = DriverDashboard.user s ->
  DriverDashboard.myTrips s' = DriverDashboard.myTrips s ->
  own_trips s -> own_trips s'.
Proof. unfold own_trips. intros -> ->. auto. Qed.

Lemma own_trips_bind {A} (m : M A) (f : A -> M DriverDashboard.State) d n :
  (forall a d' n', own_trips (value (f a d' n'))) ->
  own_trips (value (bind m f d n)).
Proof. intros H. unfold bind. simpl. apply H. Qed.

Lemma fetchBookings_own s d n :
  own_trips s -> own_trips (value (DriverDashboard.fetchBookings s d n)).
Proof.
  intros Hown. unfold DriverDashboard.fetchBookings.
  destruct (DriverDashboard.user s); [| exact Hown].
  apply own_trips_bind. intros [e | rows] d' n'; simpl; [exact Hown |].
  now apply (own_trips_same s).
Qed.

Lemma fetchPendingRequests_own s d n :
  own_trips s ->
  own_trips (value (DriverDashboard.fetchPendingRequests s d n)).
Proof.
  intros Hown. unfold DriverDashboard.fetchPendingRequests.
  destruct (DriverDashboard.user s); [| exact Hown].
  apply own_trips_bind. intros [e | rows] d' n'; simpl; [exact Hown |].
  now apply (own_trips_same s).
Qed.

Lemma refresh_own s d n :
  own_trips s -> own_trips (value (DriverDashboard.refresh s d n)).
Proof.
  intros Hown. unfold DriverDashboard.refresh, bind. simpl.
  apply fetchBookings_own, fetchMyTrips_own, fetchPendingRequests_own, Hown.
Qed.

(** X15.  The trips the driver dashboard holds are always the signed-in
    driver's own: this holds of a dashboard that holds no trip yet, and
    every handler and fetch of the dashboard keeps it, as does the seat
    selector.  (It is what makes [user.id], which [handleAssignRequest]
    writes to [assigned_driver_id], the driver of the trip.) *)
Theorem driver_dashboard_holds_own_trips :
  forall s,
    (DriverDashboard.myTrips s = [] -> own_trips s) /\
    (own_trips s ->
     forall d n,
       own_trips (value (DriverDashboard.fetchBookings s d n)) /\
       own_trips (value (DriverDashboard.fetchMyTrips s d n)) /\
       own_trips (value (DriverDashboard.fetchPendingRequests s d n)) /\
       own_trips (value (DriverDashboard.handleCreateTrip s d n)) /\
       (forall k p,
          own_trips (value (DriverDashboard.handleUpdateTrip s k p d n))) /\
       (forall k c,
          own_trips (value (DriverDashboard.handleDeleteTrip s k c d n))) /\
       (forall k t seats,
          own_trips
            (value (DriverDashboard.handleAssignRequest s k t seats d n))) /\
       (forall k, own_trips (value (DriverTabs.completeJob s k d n))) /\
       (forall request trip typed,
          own_trips (DriverTabs.changeSeats s request trip typed))).
Proof.
  intros s. split.
  { intros Hempty uid _. rewrite Hempty. constructor. }
  intros Hown d n.
  repeat match goal with |- _ /\ _ => split end.
  - now apply fetchBookings_own.
  - now apply fetchMyTrips_own.
  - now apply fetchPendingRequests_own.
  - unfold DriverDashboard.handleCreateTrip.
    destruct (DriverDashboard.user s) eqn:Huser; [| exact Hown].
    apply own_trips_bind. intros [e | []] d' n'.
    + apply own_trips_bind. intros _ d'' n''. exact Hown.
    + apply fetchMyTrips_own. now apply (own_trips_same s).
  - intros k p. unfold DriverDashboard.handleUpdateTrip.
    apply own_trips_bind. intros [e | []] d' n'.
    + apply own_trips_bind. intros _ d'' n''. exact Hown.
    + apply fetchMyTrips_own. now apply (own_trips_same s).
  - intros k c. unfold DriverDashboard.handleDeleteTrip.
    destruct c; [| exact Hown].
    apply own_trips_bind. intros [e | []] d' n'.
    + apply own_trips_bind. intros _ d'' n''. exact Hown.
    + now apply fetchMyTrips_own.
  - intros k t seats. unfold DriverDashboard.handleAssignRequest.
    destruct (DriverDashboard.user s); [| exact Hown].
    destruct (find_booking k (DriverDashboard.pendingRequests s));
      [| exact Hown].
    destruct (find_trip t (DriverDashboard.myTrips s)); [| exact Hown].
    repeat case_decide.
    + apply own_trips_bind. intros _ d' n'. exact Hown.
    + apply own_trips_bind. intros _ d' n'. exact Hown.
    + apply own_trips_bind. intros [e | []] d' n'.
      * apply own_trips_bind. intros _ d'' n''. exact Hown.
      * apply own_trips_bind. intros [e | []] d'' n''.
        -- apply own_trips_bind. intros _ d3 n3. exact Hown.
        -- apply refresh_own. now apply (own_trips_same s).
  - intros k. unfold DriverTabs.completeJob.
    apply own_trips_bind. intros [e | []] d' n'; [exact Hown |].
    now apply fetchBookings_own.
  - intros request trip typed. now apply (own_trips_same s).
Qed.

Lemma driver_dashboard_holds_own_trips_witness :
  own_trips
    (value (DriverDashboard.handleAssignRequest Sample.driver "r1" "t1" 1
              Sample.db
              [Sample.ok 1; Sample.ok 2; Sample.ok 3; Sample.ok 4;
               Sample.ok 5])).
Proof.
  apply (proj2 (driver_dashboard_holds_own_trips Sample.driver)
           (proj1 fetchMyTrips_sample_own) Sample.db).
Defined.

(** ** Setting a booking's price *)

(** X16.  Setting a price on a request from the admin's card changes
    nothing but that price: no trip is touched, and every booking keeps its
    status, type, trip, driver and seat count, so a pending request stays
    pending.  When the update is applied the bookings with that id carry
    the new price and the others are as before; when it is refused nothing
    changes and the admin is alerted. *)
Theorem booking_price_edit_changes_the_price_only :
  forall s bookingId price d n,
    let r := AdminTabs.handleUpdateBookingPrice s bookingId price d n in
    driver_trips (final r) = driver_trips d /\
    length (bookings (final r)) = length (bookings d) /\
    (forall i b, bookings d !! i = Some b ->
       exists b',
         bookings (final r) !! i = Some b' /\
         Booking.id b' = Booking.id b /\
         Booking.status b' = Booking.status b /\
         Booking.booking_type b' = Booking.booking_type b /\
         Booking.driver_trip_id b' = Booking.driver_trip_id b /\
         Booking.assigned_driver_id b' = Booking.assigned_driver_id b /\
         Booking.seats_booked b' = Booking.seats_booked b /\
         (Booking.id b <> bookingId -> b' = b) /\
         (booking_updated bookingId (trace r) -> Booking.id b = bookingId ->
          Booking.price b' = Some price)) /\
    (~ booking_updated bookingId (trace r) ->
     final r = d /\ value r = s /\
     exists p e,
       trace r = [Request (UpdateBookings bookingId p) (Some e);
                  Alert (ErrorUpdatingPrice e)]).
Proof.
  intros s bookingId price d n r. subst r.
  unfold AdminTabs.handleUpdateBookingPrice, bind.
  destruct (update_bookings_run bookingId
              (BookingPatch.mk None None None None (Some price)) d n)
    as [[e ->] | [d1 [Hd1 ->]]]; cbn.
  - split; [reflexivity |]. split; [reflexivity |]. split.
    + intros i b Hb. exists b. repeat split; try assumption.
      intros [p Hp]. exfalso. apply list_elem_of_In in Hp. simpl in Hp.
      destruct Hp as [H | [H | []]]; discriminate H.
    + intros _. eauto.
  - destruct (fetchData_run s d1 (tail n)) as (o1 & o2 & o3 & Hfinal & _).
    rewrite Hfinal. apply db_update_bookings_inr in Hd1 as ->. simpl.
    split; [reflexivity |]. split; [apply length_fmap |]. split.
    + intros i b Hb. exists (patch_booking bookingId
                               (BookingPatch.mk None None None None
                                  (Some price)) b).
      split; [rewrite list_lookup_fmap, Hb; reflexivity |].
      destruct (decide (Booking.id b = bookingId)) as [Heq | Hne].
      * rewrite patch_booking_hit by assumption. simpl.
        repeat split; try reflexivity. intros; contradiction.
      * rewrite patch_booking_miss by assumption.
        repeat split; try reflexivity. intros; contradiction.
    + intros Hno. exfalso. apply Hno. eexists. apply list_elem_of_here.
Qed.

(** ** The admin's filters and the matching panel *)

(** X17.  After [fetchData] got its trips, the admin's trip list holds
    exactly the trips of the database that pass the filters that are set:
    the driver, the status, and a [departure_time] between the two instants
    [startDate] and [endDate], both included, that [fetchData] computes
    from the date of the filter in the browser's time zone.  The matching
    panel works on that list: a trip it offers for a request also passes
    the driver filter and lies in that window, and with the status filter
    on anything but [scheduled] the panel of every request is empty. *)
Theorem admin_filters_narrow_the_matching_panel :
  forall s d n,
    let r := AdminDashboard.fetchData s d n in
    let f := AdminDashboard.filters s in
    Request (SelectDriverTrips f) None ∈ trace r ->
    (forall t,
       t ∈ AdminDashboard.driverTrips (value r) <->
       t ∈ driver_trips d /\
       matches (filter_driver f) (Trip.driver_id t) /\
       matches (filter_status f) (Trip.status t) /\
       in_window (filter_date f) (Trip.departure_time t)) /\
    (forall request t,
       t ∈ AdminDashboard.tripsToMatch
             (AdminDashboard.driverTrips (value r)) request ->
       t ∈ driver_trips d /\
       matches (filter_driver f) (Trip.driver_id t) /\
       in_window (filter_date f) (Trip.departure_time t)) /\
    (forall st request,
       filter_status f = Some st -> st <> TripStatus.scheduled ->
       AdminDashboard.tripsToMatch
         (AdminDashboard.driverTrips (value r)) request = []).
Proof.
  intros s d n r f. subst r f.
  destruct (fetchData_run s d n)
    as (o1 & o2 & o3 & _ & Htrace & _ & _ & Htrips & _).
  rewrite Htrace. intros Hin.
  assert (o2 = None) as ->.
  { apply elem_of_cons in Hin as [Hin | Hin]; [discriminate Hin |].
    apply elem_of_app in Hin as [Hin | Hin].
    - destruct o1; [apply list_elem_of_singleton in Hin; discriminate Hin |].
      now apply elem_of_nil in Hin.
    - apply elem_of_cons in Hin as [Hin | Hin]; [congruence |].
      apply list_elem_of_singleton in Hin. discriminate Hin. }
  rewrite Htrips.
  assert (forall t,
            t ∈ order Trip.departure_time true
                  (filter (fun r =>
                             matches (filter_driver (AdminDashboard.filters s))
                               (Trip.driver_id r) /\
                             matches (filter_status (AdminDashboard.filters s))
                               (Trip.status r) /\
                             in_window
                               (filter_date (AdminDashboard.filters s))
                               (Trip.departure_time r))
                          (driver_trips d)) <->
            t ∈ driver_trips d /\
            matches (filter_driver (AdminDashboard.filters s))
              (Trip.driver_id t) /\
            matches (filter_status (AdminDashboard.filters s))
              (Trip.status t) /\
            in_window (filter_date (AdminDashboard.filters s))
              (Trip.departure_time t)) as Hlist.
  { intros t. rewrite elem_of_order, list_elem_of_filter. tauto. }
  split; [exact Hlist | split].
  - intros request t Ht. unfold AdminDashboard.tripsToMatch in Ht.
    apply list_elem_of_filter in Ht as [_ Ht]. apply Hlist in Ht. tauto.
  - intros st request Hst Hne.
    apply elem_of_nil_inv. intros t Ht.
    unfold AdminDashboard.tripsToMatch in Ht.
    apply list_elem_of_filter in Ht as [[Hsched _] Ht].
    apply Hlist in Ht as (_ & _ & Hmatch & _).
    rewrite Hst in Hmatch. simpl in Hmatch. congruence.
Qed.

Lemma admin_filters_narrow_the_matching_panel_witness :
  let s := AdminDashboard.mkState [] [] [] []
             (mkFilters None None (Some TripStatus.completed))
             None None ∅ in
  AdminDashboard.tripsToMatch
    (AdminDashboard.driverTrips
       (value (AdminDashboard.fetchData s Sample.db
                 [Sample.ok 1; Sample.ok 2; Sample.ok 3])))
    Sample.request = [] /\
  (Sample.hawassa ∉
   AdminDashboard.driverTrips
     (value (AdminDashboard.fetchData Sample.admin_on_day Sample.db
               [Sample.ok 1; Sample.ok 2; Sample.ok 3]))).
Proof.
  split.
  2: { intros Hin.
       apply (proj1 (admin_filters_narrow_the_matching_panel
                       Sample.admin_on_day Sample.db
                       [Sample.ok 1; Sample.ok 2; Sample.ok 3]
                       ltac:(vm_compute;
                             apply list_elem_of_further, list_elem_of_here)))
         in Hin.
       destruct Hin as (_ & _ & _ & Hwindow). simpl in Hwindow. lia. }
  refine (proj2 (proj2 (admin_filters_narrow_the_matching_panel
                          (AdminDashboard.mkState [] [] [] []
                             (mkFilters None None
                                (Some TripStatus.completed))
                             None None ∅)
                          Sample.db [Sample.ok 1; Sample.ok 2; Sample.ok 3]
                          _))
            TripStatus.completed Sample.request eq_refl _).
  - vm_compute. apply list_elem_of_further, list_elem_of_here.
  - discriminate.
Defined.

(** ** After a refresh *)

Lemma fetchPendingRequests_cases s uid d n :
  DriverDashboard.user s = Some uid ->
  exists o,
    DriverDashboard.fetchPendingRequests s d n =
    mkRun
      match o with
      | None =>
          DriverDashboard.setPendingRequests
            (order Booking.created_at false
               (filter (fun b =>
                          Booking.booking_type b =
                            BookingType.custom_request /\
                          Booking.status b = BookingStatus.pending /\
                          Booking.driver_trip_id b = None)
                       (bookings d))) s
      | Some _ => s
      end d (tail n) [Request SelectPendingRequests o].
Proof.
  intros Huser. unfold DriverDashboard.fetchPendingRequests.
  rewrite Huser. unfold bind, select_pending_requests.
  destruct (request_read_cases SelectPendingRequests
              (fun d =>
                 order Booking.created_at false
                   (filter (fun b =>
                              Booking.booking_type b =
                                BookingType.custom_request /\
                              Booking.status b = BookingStatus.pending /\
                              Booking.driver_trip_id b = None)
                           (bookings d)))
              d n) as [-> | [e ->]]; cbn;
    [exists None | exists (Some e)]; reflexivity.
Qed.

Lemma fetchMyTrips_cases s uid d n :
  DriverDashboard.user s = Some uid ->
  exists o,
    DriverDashboard.fetchMyTrips s d n =
    mkRun
      match o with
      | None =>
          DriverDashboard.setMyTrips
            (order Trip.departure_time true
               (filter (fun r => Trip.driver_id r = uid) (driver_trips d))) s
      | Some _ => s
      end d (tail n) [Request (SelectMyTrips uid) o].
Proof.
  intros Huser. unfold DriverDashboard.fetchMyTrips.
  rewrite Huser. unfold bind, select_my_trips.
  destruct (request_read_cases (SelectMyTrips uid)
              (fun d =>
                 order Trip.departure_time true
                   (filter (fun r => Trip.driver_id r = uid)
                           (driver_trips d)))
              d n) as [-> | [e ->]]; cbn;
    [exists None | exists (Some e)]; reflexivity.
Qed.

Lemma fetchBookings_cases s uid d n :
  DriverDashboard.user s = Some uid ->
  exists o,
    DriverDashboard.fetchBookings s d n =
    mkRun
      match o with
      | None =>
          DriverDashboard.setAssignedBookings
            (order Booking.scheduled_time true
               (filter (fun b =>
                          Booking.assigned_driver_id b = Some uid /\
                          Booking.status b <> BookingStatus.completed)
                       (bookings d))) s
      | Some _ => s
      end d (tail n) [Request (SelectAssignedBookings uid) o].
Proof.
  intros Huser. unfold DriverDashboard.fetchBookings.
  rewrite Huser. unfold bind, select_assigned_bookings.
  destruct (request_read_cases (SelectAssignedBookings uid)
              (fun d =>
                 order Booking.scheduled_time true
                   (filter (fun b =>
                              Booking.assigned_driver_id b = Some uid /\
                              Booking.status b <> BookingStatus.completed)
                           (bookings d)))
              d n) as [-> | [e ->]]; cbn;
    [exists None | exists (Some e)]; reflexivity.
Qed.

Lemma refresh_run s uid d n :
  DriverDashboard.user s = Some uid ->
  let pending :=
    order Booking.created_at false
      (filter (fun b =>
                 Booking.booking_type b = BookingType.custom_request /\
                 Booking.status b = BookingStatus.pending /\
                 Booking.driver_trip_id b = None)
              (bookings d)) in
  let mine :=
    order Trip.departure_time true
      (filter (fun r => Trip.driver_id r = uid) (driver_trips d)) in
  let r := DriverDashboard.refresh s d n in
  exists o1 o2 o3,
    final r = d /\
    trace r = [Request SelectPendingRequests o1;
               Request (SelectMyTrips uid) o2;
               Request (SelectAssignedBookings uid) o3] /\
    DriverDashboard.pendingRequests (value r) =
      match o1 with
      | None => pending
      | _ => DriverDashboard.pendingRequests s
      end /\
    DriverDashboard.myTrips (value r) =
      match o2 with None => mine | _ => DriverDashboard.myTrips s end /\
    DriverDashboard.user (value r) = Some uid.
Proof.
  intros Huser pending mine r. subst r pending mine.
  unfold DriverDashboard.refresh, bind.
  destruct (fetchPendingRequests_cases s uid d n Huser) as [o1 ->]. cbn.
  match goal with
  | |- context [DriverDashboard.fetchMyTrips ?s1 d ?m] =>
      assert (DriverDashboard.user s1 = Some uid) as Huser1
        by (destruct o1; exact Huser);
      destruct (fetchMyTrips_cases s1 uid d m Huser1) as [o2 ->]
  end. cbn.
  match goal with
  | |- context [DriverDashboard.fetchBookings ?s2 d ?m] =>
      assert (DriverDashboard.user s2 = Some uid) as Huser2
        by (destruct o2; exact Huser1);
      destruct (fetchBookings_cases s2 uid d m Huser2) as [o3 ->]
  end. cbn.
  exists o1, o2, o3.
  destruct o1, o2, o3; repeat split; try reflexivity; exact Huser.
Qed.

Lemma find_booking_None k (rows : list Booking.t) :
  (forall b, b ∈ rows -> Booking.id b <> k) -> find_booking k rows = None.
Proof.
  unfold find_booking. induction rows as [| b rows IH]; simpl;
    [reflexivity |].
  intros Hne. destruct (String.eqb_spec (Booking.id b) k) as [Heq | _].
  - exfalso. apply (Hne b); [apply list_elem_of_here | exact Heq].
  - apply IH. intros b' Hb'. apply Hne. now apply list_elem_of_further.
Qed.

Lemma handleAssignRequest_done s requestId tripId uid seats request trip d n :
  DriverDashboard.user s = Some uid ->
  find_booking requestId (DriverDashboard.pendingRequests s) = Some request ->
  find_trip tripId (DriverDashboard.myTrips s) = Some trip ->
  seats <= remaining trip ->
  seats <= to_number (Booking.seats_booked request) ->
  trip_updated tripId
    (trace (DriverDashboard.handleAssignRequest s requestId tripId seats
              d n)) ->
  exists d1 now d2 n2,
    db_update_bookings d requestId
      (DriverDashboard.assignment tripId uid seats
         (seats * Trip.price_per_seat trip)) = inr d1 /\
    db_update_driver_trips now d1 tripId
      (TripPatch.setBookedSeats (Trip.booked_seats trip + seats)) = inr d2 /\
    DriverDashboard.handleAssignRequest s requestId tripId seats d n =
    let rr := DriverDashboard.refresh
                (DriverDashboard.setAssignmentSeats ∅
                   (DriverDashboard.setAssigningRequest None s)) d2 n2 in
    mkRun (value rr) (final rr) (rest rr)
      (Request
         (UpdateBookings requestId
            (DriverDashboard.assignment tripId uid seats
               (seats * Trip.price_per_seat trip))) None ::
       Request
         (UpdateDriverTrips tripId
            (TripPatch.setBookedSeats (Trip.booked_seats trip + seats)))
         None :: trace rr).
Proof.
  intros Huser Hrequest Htrip Hfree Hasked.
  unfold DriverDashboard.handleAssignRequest.
  rewrite Huser, Hrequest, Htrip. unfold remaining in Hfree.
  repeat case_decide; try (exfalso; lia).
  unfold bind.
  destruct (update_bookings_run requestId
              (DriverDashboard.assignment tripId uid seats
                 (seats * Trip.price_per_seat trip)) d n)
    as [[e ->] | [d1 [Hd1 ->]]]; cbn.
  { intros [q Hq]. apply list_elem_of_In in Hq. simpl in Hq.
    destruct Hq as [Hq | [Hq | []]]; discriminate Hq. }
  destruct (update_driver_trips_run tripId
              (TripPatch.setBookedSeats (Trip.booked_seats trip + seats))
              d1 (tail n))
    as [[e ->] | [now [d2 [Hd2 ->]]]]; cbn.
  { intros [q Hq]. apply list_elem_of_In in Hq. simpl in Hq.
    destruct Hq as [Hq | [Hq | [Hq | []]]]; discriminate Hq. }
  intros _. exists d1, now, d2, (tail (tail n)). auto.
Qed.

Lemma handleMatchRequest_done s requestId tripId seatsToAssign request trip
    d n :
  find_booking requestId (AdminDashboard.customRequests s) = Some request ->
  find_trip tripId (AdminDashboard.driverTrips s) = Some trip ->
  AdminDashboard.seatsFor s request requestId tripId seatsToAssign
    <= remaining trip ->
  AdminDashboard.seatsFor s request requestId tripId seatsToAssign
    <= to_number (Booking.seats_booked request) ->
  trip_updated tripId
    (trace (AdminDashboard.handleMatchRequest s requestId tripId
              seatsToAssign d n)) ->
  exists d1 now d2 n2,
    db_update_bookings d requestId
      (AdminDashboard.updateData tripId trip
         (AdminDashboard.seatsFor s request requestId tripId seatsToAssign))
      = inr d1 /\
    db_update_driver_trips now d1 tripId
      (TripPatch.setBookedSeats
         (Trip.booked_seats trip +
          AdminDashboard.seatsFor s request requestId tripId seatsToAssign))
      = inr d2 /\
    AdminDashboard.handleMatchRequest s requestId tripId seatsToAssign d n =
    let rr := AdminDashboard.fetchData
                (AdminDashboard.setMatchingSeats ∅
                   (AdminDashboard.setMatchingRequest None s)) d2 n2 in
    mkRun (value rr) (final rr) (rest rr)
      (Request
         (UpdateBookings requestId
            (AdminDashboard.updateData tripId trip
               (AdminDashboard.seatsFor s request requestId tripId
                  seatsToAssign))) None ::
       Request
         (UpdateDriverTrips tripId
            (TripPatch.setBookedSeats
               (Trip.booked_seats trip +
                AdminDashboard.seatsFor s request requestId tripId
                  seatsToAssign)))
         None :: trace rr).
Proof.
  intros Hrequest Htrip Hfree Hasked.
  unfold AdminDashboard.handleMatchRequest.
  rewrite Hrequest, Htrip. unfold remaining in Hfree.
  repeat case_decide; try (exfalso; lia).
  unfold bind.
  destruct (update_bookings_run requestId
              (AdminDashboard.updateData tripId trip
                 (AdminDashboard.seatsFor s request requestId tripId
                    seatsToAssign)) d n)
    as [[e ->] | [d1 [Hd1 ->]]]; cbn.
  { intros [q Hq]. apply list_elem_of_In in Hq. simpl in Hq.
    destruct Hq as [Hq | [Hq | []]]; discriminate Hq. }
  destruct (update_driver_trips_run tripId
              (TripPatch.setBookedSeats
                 (Trip.booked_seats trip +
                  AdminDashboard.seatsFor s request requestId tripId
                    seatsToAssign))
              d1 (tail n))
    as [[e ->] | [now [d2 [Hd2 ->]]]]; cbn.
  { intros [q Hq]. apply list_elem_of_In in Hq. simpl in Hq.
    destruct Hq as [Hq | [Hq | [Hq | []]]]; discriminate Hq. }
  intros _. exists d1, now, d2, (tail (tail n)). auto.
Qed.

Lemma matched_rows_are_assigned d k p q now t d1 d2 b :
  BookingPatch.status p = Some BookingStatus.assigned ->
  db_update_bookings d k p = inr d1 ->
  db_update_driver_trips now d1 t q = inr d2 ->
  b ∈ bookings d2 -> Booking.id b = k ->
  Booking.status b = BookingStatus.assigned.
Proof.
  intros Hp Hd1 Hd2 Hb Hid.
  apply db_update_bookings_inr in Hd1 as ->.
  apply db_update_driver_trips_inr in Hd2 as [-> _]. simpl in Hb.
  apply patched_booking_row in Hb as (b0 & _ & _ & ->); [| assumption].
  simpl. now rewrite Hp.
Qed.

(** X18.  Once a match went through and the refresh of the request list
    that follows it was answered, the request is no longer in the
    dashboard's list of pending requests, and asking the handler to match
    it again, to any trip and for any seat count, does nothing: no request
    is sent and nothing changes.  (Matching twice adds the seats twice only
    when that refresh fails.) *)
Theorem refreshed_match_cannot_be_repeated :
  (forall s requestId tripId uid seats request trip d n,
     DriverDashboard.user s = Some uid ->
     find_booking requestId (DriverDashboard.pendingRequests s)
       = Some request ->
     find_trip tripId (DriverDashboard.myTrips s) = Some trip ->
     seats <= remaining trip ->
     seats <= to_number (Booking.seats_booked request) ->
     let once :=
       DriverDashboard.handleAssignRequest s requestId tripId seats d n in
     trip_updated tripId (trace once) ->
     Request SelectPendingRequests None ∈ trace once ->
     find_booking requestId (DriverDashboard.pendingRequests (value once))
       = None /\
     forall tripId' seats' n',
       DriverDashboard.handleAssignRequest (value once) requestId tripId'
         seats' (final once) n' =
       mkRun (value once) (final once) n' []) /\
  (forall s requestId tripId seatsToAssign request trip d n,
     find_booking requestId (AdminDashboard.customRequests s)
       = Some request ->
     find_trip tripId (AdminDashboard.driverTrips s) = Some trip ->
     AdminDashboard.seatsFor s request requestId tripId seatsToAssign
       <= remaining trip ->
     AdminDashboard.seatsFor s request requestId tripId seatsToAssign
       <= to_number (Booking.seats_booked request) ->
     let once :=
       AdminDashboard.handleMatchRequest s requestId tripId seatsToAssign d n
     in
     trip_updated tripId (trace once) ->
     Request (SelectBookings (filter_date (AdminDashboard.filters s))) None
       ∈ trace once ->
     find_booking requestId (AdminDashboard.customRequests (value once))
       = None /\
     forall tripId' seats' n',
       AdminDashboard.handleMatchRequest (value once) requestId tripId'
         seats' (final once) n' =
       mkRun (value once) (final once) n' []).
Proof.
  split.
  - intros s requestId tripId uid seats req trip d n
      Huser Hrequest Htrip Hfree Hasked once Hdone Hread. subst once.
    destruct (handleAssignRequest_done s requestId tripId uid seats req trip
                d n Huser Hrequest Htrip Hfree Hasked Hdone)
      as (d1 & now & d2 & n2 & Hd1 & Hd2 & Hrun).
    rewrite Hrun in *. clear Hrun. cbn in *.
    destruct (refresh_run
                (DriverDashboard.setAssignmentSeats ∅
                   (DriverDashboard.setAssigningRequest None s))
                uid d2 n2 Huser)
      as (o1 & o2 & o3 & Hfinal & Htrace & Hpending & _ & Huser').
    rewrite Htrace in Hread. rewrite Hfinal.
    assert (o1 = None) as ->.
    { apply list_elem_of_In in Hread. simpl in Hread.
      destruct Hread as [H | [H | [H | [H | [H | []]]]]];
        try discriminate H; congruence. }
    assert (find_booking requestId
              (DriverDashboard.pendingRequests
                 (value
                    (DriverDashboard.refresh
                       (DriverDashboard.setAssignmentSeats ∅
                          (DriverDashboard.setAssigningRequest None s))
                       d2 n2))) = None) as Hgone.
    { rewrite Hpending. apply find_booking_None. intros b Hb Hid.
      apply elem_of_order, list_elem_of_filter in Hb
        as [(_ & Hstatus & _) Hb].
      assert (Booking.status b = BookingStatus.assigned) as Hassigned
        by (eapply matched_rows_are_assigned;
            [| exact Hd1 | exact Hd2 | exact Hb | exact Hid]; reflexivity).
      congruence. }
    split; [exact Hgone |]. intros tripId' seats' n'.
    unfold DriverDashboard.handleAssignRequest.
    rewrite Huser', Hgone. reflexivity.
  - intros s requestId tripId seatsToAssign req trip d n
      Hrequest Htrip Hfree Hasked once Hdone Hread. subst once.
    destruct (handleMatchRequest_done s requestId tripId seatsToAssign req
                trip d n Hrequest Htrip Hfree Hasked Hdone)
      as (d1 & now & d2 & n2 & Hd1 & Hd2 & Hrun).
    rewrite Hrun in *. clear Hrun. cbn in *.
    destruct (fetchData_run
                (AdminDashboard.setMatchingSeats ∅
                   (AdminDashboard.setMatchingRequest None s)) d2 n2)
      as (o1 & o2 & o3 & Hfinal & Htrace & _ & Hcustom & _).
    cbn in Htrace, Hcustom.
    rewrite Htrace in Hread. rewrite Hfinal.
    assert (o1 = None) as ->.
    { apply list_elem_of_In in Hread.
      destruct o1; simpl in Hread; [| reflexivity].
      destruct Hread as [H | [H | [H | [H | [H | [H | []]]]]]];
        try discriminate H; congruence. }
    assert (find_booking requestId
              (AdminDashboard.customRequests
                 (value
                    (AdminDashboard.fetchData
                       (AdminDashboard.setMatchingSeats ∅
                          (AdminDashboard.setMatchingRequest None s))
                       d2 n2))) = None) as Hgone.
    { rewrite Hcustom. apply find_booking_None. intros b Hb Hid.
      unfold AdminDashboard.pendingRequests in Hb.
      apply list_elem_of_filter in Hb as [(_ & Hstatus & _) Hb].
      apply elem_of_order, list_elem_of_filter in Hb as [_ Hb].
      assert (Booking.status b = BookingStatus.assigned) as Hassigned
        by (eapply matched_rows_are_assigned;
            [| exact Hd1 | exact Hd2 | exact Hb | exact Hid]; reflexivity).
      congruence. }
    split; [exact Hgone |]. intros tripId' seats' n'.
    unfold AdminDashboard.handleMatchRequest.
    rewrite Hgone. reflexivity.
Qed.

Lemma refreshed_match_cannot_be_repeated_witness :
  let once :=
    DriverDashboard.handleAssignRequest Sample.driver "r1" "t1" 1 Sample.db
      [Sample.ok 1; Sample.ok 2; Sample.ok 3; Sample.ok 4; Sample.ok 5] in
  find_booking "r1" (DriverDashboard.pendingRequests (value once)) = None.
Proof.
  refine (proj1 (proj1 refreshed_match_cannot_be_repeated
                   Sample.driver "r1" "t1" "d1" 1 Sample.request
                   Sample.hawassa Sample.db
                   [Sample.ok 1; Sample.ok 2; Sample.ok 3; Sample.ok 4;
                    Sample.ok 5]
                   eq_refl eq_refl eq_refl _ _ _ _)).
  - vm_compute; discriminate.
  - vm_compute; discriminate.
  - eexists. vm_compute. apply list_elem_of_further, list_elem_of_here.
  - vm_compute.
    apply list_elem_of_further, list_elem_of_further, list_elem_of_here.
Defined.

(** ** A refresh, then a match *)

Lemma same_id_same_row (rows : list Trip.t) x y :
  NoDup (Trip.id <$> rows) -> x ∈ rows -> y ∈ rows ->
  Trip.id x = Trip.id y -> x = y.
Proof.
  induction rows as [| z rows IH]; intros Hnd Hx Hy Hid.
  - now apply elem_of_nil in Hx.
  - rewrite fmap_cons in Hnd. apply NoDup_cons in Hnd as [Hz Hnd].
    apply elem_of_cons in Hx as [-> | Hx];
      apply elem_of_cons in Hy as [-> | Hy].
    + reflexivity.
    + exfalso. apply Hz. rewrite Hid. apply list_elem_of_fmap. eauto.
    + exfalso. apply Hz. rewrite <- Hid. apply list_elem_of_fmap. eauto.
    + now apply IH.
Qed.

(** X19.  Right after an answered [fetchMyTrips] the driver's copy of a
    trip is the row the database holds (trip ids being unique), so an
    assignment made from it is all or nothing as far as the database is
    concerned: with a seat count that is not negative and passes the
    guards, stored trips that satisfy their constraints and a delivered
    reply, the trip update is applied whenever the booking update was. *)
Theorem assign_after_refresh_is_not_refused :
  forall s uid d n0 requestId tripId seats request trip r1 r2 n,
    DriverDashboard.user s = Some uid ->
    NoDup (Trip.id <$> driver_trips d) ->
    Forall trip_checks (driver_trips d) ->
    Forall trip_in_range (driver_trips d) ->
    let fetched := DriverDashboard.fetchMyTrips s d n0 in
    Request (SelectMyTrips uid) None ∈ trace fetched ->
    find_booking requestId (DriverDashboard.pendingRequests (value fetched))
      = Some request ->
    find_trip tripId (DriverDashboard.myTrips (value fetched)) = Some trip ->
    0 <= seats <= remaining trip ->
    seats <= to_number (Booking.seats_booked request) ->
    delivered r2 = true ->
    let r := DriverDashboard.handleAssignRequest (value fetched) requestId
               tripId seats d (r1 :: r2 :: n) in
    trip ∈ driver_trips d /\
    (booking_updated requestId (trace r) -> trip_updated tripId (trace r)).
Proof.
  intros s uid d n0 requestId tripId seats req trip r1 r2 n
    Huser Hnodup Hchecks Hrange fetched Hread Hrequest Htrip Hseats Hasked
    Hr2 r.
  subst r fetched.
  destruct (fetchMyTrips_cases s uid d n0 Huser) as [o Hrun].
  rewrite Hrun in *. cbn in *.
  assert (o = None) as ->.
  { apply list_elem_of_singleton in Hread. congruence. }
  pose proof (find_trip_Some _ _ _ Htrip) as [Hin Hid]. simpl in Hin.
  apply elem_of_order, list_elem_of_filter in Hin as [_ Hin].
  split; [exact Hin |].
  apply (assign_with_fresh_snapshot _ requestId tripId uid seats req trip);
    try assumption.
  intros row Hrow Hrow_id.
  apply (same_id_same_row (driver_trips d)); try assumption. congruence.
Qed.

Lemma assign_after_refresh_is_not_refused_witness :
  let fetched := DriverDashboard.fetchMyTrips Sample.driver Sample.db
                   [Sample.ok 1] in
  trip_updated "t1"
    (trace (DriverDashboard.handleAssignRequest (value fetched) "r1" "t1" 1
              Sample.db [Sample.ok 2; Sample.ok 3])).
Proof.
  refine (proj2 (assign_after_refresh_is_not_refused
                   Sample.driver "d1" Sample.db [Sample.ok 1] "r1" "t1" 1
                   Sample.request Sample.hawassa (Sample.ok 2) (Sample.ok 3)
                   [] eq_refl _ _ _ _ eq_refl eq_refl _ _ eq_refl) _).
  - apply (bool_decide_unpack _). vm_compute. exact I.
  - repeat constructor; vm_compute; congruence.
  - repeat constructor; vm_compute; congruence.
  - vm_compute. apply list_elem_of_here.
  - vm_compute. split; discriminate.
  - vm_compute. discriminate.
  - exists (DriverDashboard.assignment "t1" "d1" 1 50000).
    vm_compute. apply list_elem_of_here.
Defined.

(** ** Editing a trip from the driver dashboard *)

Lemma price_patch_same now k v row (field : AdminDashboard.PriceField) :
  same_but_prices row
    (patch_trip now k
       (match field with
        | AdminDashboard.price_per_seat => TripPatch.setPricePerSeat v
        | AdminDashboard.whole_car_price => TripPatch.setWholeCarPrice v
        end) row).
Proof.
  destruct (decide (Trip.id row = k)) as [Heq | Hne].
  - rewrite patch_trip_hit by assumption.
    destruct field; unfold same_but_prices; simpl; tauto.
  - rewrite patch_trip_miss by assumption.
    unfold same_but_prices. tauto.
Qed.

(** [handleUpdateTrip] on the update object of a price field. *)
Lemma handleUpdateTrip_price s tripId (field : AdminDashboard.PriceField) v
    d n :
  let p := match field with
           | AdminDashboard.price_per_seat => TripPatch.setPricePerSeat v
           | AdminDashboard.whole_car_price => TripPatch.setWholeCarPrice v
           end in
  let r := DriverDashboard.handleUpdateTrip s tripId p d n in
  bookings (final r) = bookings d /\
  length (driver_trips (final r)) = length (driver_trips d) /\
  (forall i row, driver_trips d !! i = Some row ->
     exists row',
       driver_trips (final r) !! i = Some row' /\
       same_but_prices row row' /\
       match field with
       | AdminDashboard.price_per_seat =>
           Trip.whole_car_price row' = Trip.whole_car_price row
       | AdminDashboard.whole_car_price =>
           Trip.price_per_seat row' = Trip.price_per_seat row
       end /\
       (Trip.id row <> tripId -> row' = row) /\
       (trip_updated tripId (trace r) -> Trip.id row = tripId ->
        match field with
        | AdminDashboard.price_per_seat => Trip.price_per_seat row' = v
        | AdminDashboard.whole_car_price => Trip.whole_car_price row' = v
        end)) /\
  (trip_updated tripId (trace r) ->
   DriverDashboard.editingTrip (value r) = None) /\
  (~ trip_updated tripId (trace r) ->
   final r = d /\ value r = s /\
   exists e,
     trace r = [Request (UpdateDriverTrips tripId p) (Some e);
                Alert (ErrorUpdatingTrip e)]).
Proof.
  intros p r. subst r.
  unfold DriverDashboard.handleUpdateTrip, bind.
  destruct (update_driver_trips_run tripId p d n)
    as [[e ->] | (now & d' & Hd' & ->)]; cbn.
  - assert (~ trip_updated tripId
                [Request (UpdateDriverTrips tripId p) (Some e);
                 Alert (ErrorUpdatingTrip e)]) as Hno.
    { intros [q Hq]. apply list_elem_of_In in Hq. simpl in Hq.
      destruct Hq as [H | [H | []]]; discriminate H. }
    split; [reflexivity |]. split; [reflexivity |]. split; [| split].
    + intros i row Hrow. exists row. split; [exact Hrow |].
      split; [unfold same_but_prices; tauto |].
      split; [destruct field; reflexivity |].
      split; [reflexivity |]. intros Hdone. contradiction.
    + intros Hdone. contradiction.
    + intros _. eauto.
  - assert (trip_updated tripId
              (Request (UpdateDriverTrips tripId p) None ::
               trace (DriverDashboard.fetchMyTrips
                        (DriverDashboard.setEditingTrip None s) d' (tail n))))
      as Hdone by (eexists; apply list_elem_of_here).
    destruct (fetchMyTrips_run (DriverDashboard.setEditingTrip None s) d'
                (tail n)) as [Hfinal Hvalue].
    rewrite Hfinal. apply db_update_driver_trips_inr in Hd' as [-> _].
    simpl. split; [reflexivity |]. split; [apply length_fmap |].
    split; [| split].
    + intros i row Hrow. exists (patch_trip now tripId p row).
      split; [rewrite list_lookup_fmap, Hrow; reflexivity |].
      split; [apply price_patch_same |].
      destruct (price_patch_row now tripId v row field)
        as (_ & _ & _ & _ & Hmiss & Hhit).
      split; [| split; [exact Hmiss |]].
      * destruct (decide (Trip.id row = tripId)) as [Hid | Hid].
        -- specialize (Hhit Hid). destruct field; tauto.
        -- rewrite patch_trip_miss by assumption.
           destruct field; reflexivity.
      * intros _ Hid. specialize (Hhit Hid). destruct field; tauto.
    + intros _. destruct Hvalue as [[-> _] | (uid & _ & ->)]; reflexivity.
    + intros Hno. contradiction.
Qed.

(** X20.  The two price fields of the "Edit Trip Pricing" panel are the
    only callers of [handleUpdateTrip].  Leaving a field empty does
    nothing.  Leaving it with a value sends one update, of that price
    column of the trip shown; whatever its outcome, no booking is touched,
    no trip is added or removed, every row of [driver_trips] keeps its id,
    driver, route, departure time, seats, status and creation time, and no
    row but the trip's is changed.  When the update is applied the trip
    carries the new value in the edited column, its other price is
    unchanged, and the edit panel is closed; when it is refused the driver
    is alerted and both the database and the dashboard (the edit panel
    included) stay as they were. *)
Theorem trip_edit_is_confined_to_the_trip :
  forall s trip d n,
    (DriverTabs.blurPricePerSeat s trip None d n = mkRun s d n [] /\
     DriverTabs.blurWholeCarPrice s trip None d n = mkRun s d n []) /\
    (forall v,
       let r := DriverTabs.blurPricePerSeat s trip (Some v) d n in
       bookings (final r) = bookings d /\
       length (driver_trips (final r)) = length (driver_trips d) /\
       (forall i row, driver_trips d !! i = Some row ->
          exists row',
            driver_trips (final r) !! i = Some row' /\
            same_but_prices row row' /\
            Trip.whole_car_price row' = Trip.whole_car_price row /\
            (Trip.id row <> Trip.id trip -> row' = row) /\
            (trip_updated (Trip.id trip) (trace r) ->
             Trip.id row = Trip.id trip -> Trip.price_per_seat row' = v)) /\
       (trip_updated (Trip.id trip) (trace r) ->
        DriverDashboard.editingTrip (value r) = None) /\
       (~ trip_updated (Trip.id trip) (trace r) ->
        final r = d /\ value r = s /\
        exists e,
          trace r =
            [Request (UpdateDriverTrips (Trip.id trip)
                        (TripPatch.setPricePerSeat v)) (Some e);
             Alert (ErrorUpdatingTrip e)])) /\
    (forall v,
       let r := DriverTabs.blurWholeCarPrice s trip (Some v) d n in
       bookings (final r) = bookings d /\
       length (driver_trips (final r)) = length (driver_trips d) /\
       (forall i row, driver_trips d !! i = Some row ->
          exists row',
            driver_trips (final r) !! i = Some row' /\
            same_but_prices row row' /\
            Trip.price_per_seat row' = Trip.price_per_seat row /\
            (Trip.id row <> Trip.id trip -> row' = row) /\
            (trip_updated (Trip.id trip) (trace r) ->
             Trip.id row = Trip.id trip -> Trip.whole_car_price row' = v)) /\
       (trip_updated (Trip.id trip) (trace r) ->
        DriverDashboard.editingTrip (value r) = None) /\
       (~ trip_updated (Trip.id trip) (trace r) ->
        final r = d /\ value r = s /\
        exists e,
          trace r =
            [Request (UpdateDriverTrips (Trip.id trip)
                        (TripPatch.setWholeCarPrice v)) (Some e);
             Alert (ErrorUpdatingTrip e)])).
Proof.
  intros s trip d n. split; [split; reflexivity |]. split.
  - intros v r. subst r. unfold DriverTabs.blurPricePerSeat.
    exact (handleUpdateTrip_price s (Trip.id trip)
             AdminDashboard.price_per_seat v d n).
  - intros v r. subst r. unfold DriverTabs.blurWholeCarPrice.
    exact (handleUpdateTrip_price s (Trip.id trip)
             AdminDashboard.whole_car_price v d n).
Qed.

(** ** Two matches from the same copy of a trip *)

Lemma twice_patched_trip now1 now2 k v1 v2 (rows : list Trip.t) row :
  row ∈ (patch_trip now2 k (TripPatch.setBookedSeats v2) <$>
         (patch_trip now1 k (TripPatch.setBookedSeats v1) <$> rows)) ->
  Trip.id row = k -> Trip.booked_seats row = v2.
Proof.
  intros Hrow Hid.
  apply list_elem_of_fmap in Hrow as (row1 & -> & Hrow1).
  rewrite patch_trip_id in Hid.
  rewrite patch_trip_hit by assumption. reflexivity.
Qed.

(** X21.  Seats are lost when two matches are made from the same copy of a
    trip.  Let a driver assign one request and an admin then match another
    to the same trip, each passing the guards against the copy of the trip
    their dashboard holds, the two copies being equal, and let all four
    updates be applied.  Then the trip's [booked_seats] is the copy's
    value plus the admin's seat count alone, although both bookings now
    point to the trip with their own seat counts: the second write
    replaces the first instead of adding to it. *)
Theorem stale_copies_lose_seats :
  forall sd sa request1 request2 tripId uid seats1 seatsToAssign r1 r2 trip
         d n n',
    DriverDashboard.user sd = Some uid ->
    find_booking request1 (DriverDashboard.pendingRequests sd) = Some r1 ->
    find_trip tripId (DriverDashboard.myTrips sd) = Some trip ->
    seats1 <= remaining trip ->
    seats1 <= to_number (Booking.seats_booked r1) ->
    find_booking request2 (AdminDashboard.customRequests sa) = Some r2 ->
    find_trip tripId (AdminDashboard.driverTrips sa) = Some trip ->
    let seats2 :=
      AdminDashboard.seatsFor sa r2 request2 tripId seatsToAssign in
    seats2 <= remaining trip ->
    seats2 <= to_number (Booking.seats_booked r2) ->
    let first :=
      DriverDashboard.handleAssignRequest sd request1 tripId seats1 d n in
    let second :=
      AdminDashboard.handleMatchRequest sa request2 tripId seatsToAssign
        (final first) n' in
    trip_updated tripId (trace first) ->
    trip_updated tripId (trace second) ->
    (forall row, row ∈ driver_trips (final second) -> Trip.id row = tripId ->
       Trip.booked_seats row = Trip.booked_seats trip + seats2) /\
    (request1 <> request2 ->
     forall b, b ∈ bookings (final second) -> Booking.id b = request1 ->
       Booking.driver_trip_id b = Some tripId /\
       Booking.seats_booked b = Some seats1) /\
    (forall b, b ∈ bookings (final second) -> Booking.id b = request2 ->
       Booking.driver_trip_id b = Some tripId /\
       Booking.seats_booked b = Some seats2).
Proof.
  intros sd sa request1 request2 tripId uid seats1 seatsToAssign r1 r2 trip
    d n n' Huser Hr1 Htrip1 Hfree1 Hasked1 Hr2 Htrip2 seats2 Hfree2 Hasked2
    first second Hdone1 Hdone2.
  pose proof (handleAssignRequest_admitted sd request1 tripId uid seats1 r1
                trip Huser Hr1 Htrip1 d n Hfree1 Hasked1) as Hfirst.
  fold first in Hfirst.
  pose proof (handleMatchRequest_admitted sa request2 tripId seatsToAssign
                r2 trip Hr2 Htrip2 (final first) n' Hfree2 Hasked2)
    as Hsecond.
  fold seats2 in Hsecond. fold second in Hsecond.
  destruct (outcome_trip_updated _ _ _ _ _ _ _ _ _ Hfirst _ Hdone1)
    as (now1 & Htrips1 & Hbookings1).
  destruct (outcome_trip_updated _ _ _ _ _ _ _ _ _ Hsecond _ Hdone2)
    as (now2 & Htrips2 & Hbookings2).
  rewrite Htrips2, Htrips1, Hbookings2, Hbookings1.
  split; [| split].
  - intros row Hrow Hid. eapply twice_patched_trip; eassumption.
  - intros Hne b Hb Hid.
    apply list_elem_of_fmap in Hb as (b1 & -> & Hb1).
    rewrite patch_booking_id in Hid.
    rewrite patch_booking_miss by congruence.
    apply patched_booking_row in Hb1 as (b0 & _ & _ & ->); [| assumption].
    split; reflexivity.
  - intros b Hb Hid.
    apply patched_booking_row in Hb as (b1 & _ & _ & ->); [| assumption].
    split; reflexivity.
Qed.

Lemma stale_copies_lose_seats_witness :
  let first :=
    DriverDashboard.handleAssignRequest Sample2.driver_of_two "r1" "t1" 1
      Sample2.two_requests [Sample.ok 1; Sample.ok 2] in
  let second :=
    AdminDashboard.handleMatchRequest Sample2.admin_of_two "r2" "t1" (Some 2)
      (final first) [Sample.ok 3; Sample.ok 4] in
  remaining Sample.hawassa = 4 /\
  forall row, row ∈ driver_trips (final second) -> Trip.id row = "t1" ->
    Trip.booked_seats row = 0 + 2.
Proof.
  split; [reflexivity |].
  refine (proj1 (stale_copies_lose_seats
                   Sample2.driver_of_two Sample2.admin_of_two "r1" "r2" "t1"
                   "d1" 1 (Some 2) Sample.request Sample2.for_two
                   Sample.hawassa Sample2.two_requests
                   [Sample.ok 1; Sample.ok 2] [Sample.ok 3; Sample.ok 4]
                   eq_refl eq_refl eq_refl _ _ eq_refl eq_refl _ _ _ _)).
  - vm_compute; discriminate.
  - vm_compute; discriminate.
  - vm_compute; discriminate.
  - vm_compute; discriminate.
  - eexists. vm_compute. apply list_elem_of_further, list_elem_of_here.
  - eexists. vm_compute. apply list_elem_of_further, list_elem_of_here.
Defined.

(** ** Instances *)

Lemma complete_job_is_silent_and_keeps_seats_witness :
  let r := DriverTabs.completeJob Sample2.driver "r5" Sample2.db
             [Sample.lost] in
  value r = Sample2.driver /\ final r = Sample2.db.
Proof.
  destruct (complete_job_is_silent_and_keeps_seats
              Sample2.driver "r5" Sample2.db [Sample.lost])
    as (_ & _ & Hrefused).
  destruct Hrefused as (Hvalue & Hfinal & _); [| split; assumption].
  intros [p Hp]. vm_compute in Hp. apply list_elem_of_singleton in Hp.
  discriminate Hp.
Defined.

Lemma price_edit_leaves_bookings_and_seats_witness :
  let r := AdminDashboard.handleUpdateTripPrice Sample.admin "t1"
             AdminDashboard.price_per_seat 60000 Sample.db
             [Sample.ok 1; Sample.ok 2; Sample.ok 3; Sample.ok 4] in
  bookings (final r) = bookings Sample.db /\
  exists row',
    driver_trips (final r) !! 0%nat = Some row' /\
    Trip.price_per_seat row' = 60000 /\
    Trip.booked_seats row' = 0.
Proof.
  destruct (price_edit_leaves_bookings_and_seats
              Sample.admin "t1" AdminDashboard.price_per_seat 60000
              Sample.db [Sample.ok 1; Sample.ok 2; Sample.ok 3; Sample.ok 4])
    as (Hbookings & _ & Hrows).
  split; [exact Hbookings |].
  destruct (Hrows 0%nat Sample.hawassa eq_refl)
    as (row' & Hrow' & _ & _ & Hbooked & _ & _ & Hprice).
  exists row'. split; [exact Hrow' |]. split; [| exact Hbooked].
  apply Hprice; [| reflexivity].
  eexists. vm_compute. apply list_elem_of_here.
Defined.

Lemma failed_refresh_keeps_the_lists_witness :
  value (DriverDashboard.fetchMyTrips Sample.driver Sample2.db [Sample.lost])
  = Sample.driver.
Proof.
  destruct (proj1 (proj2 failed_refresh_keeps_the_lists)
              Sample.driver Sample2.db [Sample.lost]) as (_ & _ & Hstale).
  apply Hstale. intros uid Hin. vm_compute in Hin.
  apply list_elem_of_singleton in Hin. discriminate Hin.
Defined.

Lemma booking_price_edit_changes_the_price_only_witness :
  let r := AdminTabs.handleUpdateBookingPrice Sample.admin "r1" 45000
             Sample.db [Sample.ok 1; Sample.ok 2; Sample.ok 3; Sample.ok 4]
  in
  exists b',
    bookings (final r) !! 0%nat = Some b' /\
    Booking.price b' = Some 45000 /\
    Booking.status b' = BookingStatus.pending.
Proof.
  destruct (booking_price_edit_changes_the_price_only
              Sample.admin "r1" 45000 Sample.db
              [Sample.ok 1; Sample.ok 2; Sample.ok 3; Sample.ok 4])
    as (_ & _ & Hrows & _).
  destruct (Hrows 0%nat Sample.request eq_refl)
    as (b' & Hb' & _ & Hstatus & _ & _ & _ & _ & _ & Hprice).
  exists b'. split; [exact Hb' |]. split; [| exact Hstatus].
  apply Hprice; [| reflexivity].
  eexists. vm_compute. apply list_elem_of_here.
Defined.

Lemma trip_edit_is_confined_to_the_trip_witness :
  (let r := DriverTabs.blurPricePerSeat Sample.driver Sample.hawassa
              (Some 60000) Sample.db [Sample.lost] in
   final r = Sample.db /\ value r = Sample.driver) /\
  (let r := DriverTabs.blurWholeCarPrice Sample.driver Sample.hawassa
              (Some 200000) Sample.db [Sample.ok 6; Sample.ok 7] in
   exists row',
     driver_trips (final r) !! 0%nat = Some row' /\
     same_but_prices Sample.hawassa row' /\
     Trip.price_per_seat row' = 50000 /\
     Trip.whole_car_price row' = 200000).
Proof.
  split.
  - destruct (trip_edit_is_confined_to_the_trip
                Sample.driver Sample.hawassa Sample.db [Sample.lost])
      as (_ & Hseat & _).
    destruct (Hseat 60000) as (_ & _ & _ & _ & Hrefused).
    destruct Hrefused as (Hfinal & Hvalue & _); [| split; assumption].
    intros [p Hp]. vm_compute in Hp. apply list_elem_of_In in Hp.
    simpl in Hp. destruct Hp as [H | [H | []]]; discriminate H.
  - destruct (trip_edit_is_confined_to_the_trip
                Sample.driver Sample.hawassa Sample.db
                [Sample.ok 6; Sample.ok 7])
      as (_ & _ & Hcar).
    destruct (Hcar 200000) as (_ & _ & Hrows & _).
    destruct (Hrows 0%nat Sample.hawassa eq_refl)
      as (row' & Hrow' & Hsame & Hother & _ & Hnew).
    exists row'. split; [exact Hrow' |]. split; [exact Hsame |].
    split; [exact Hother |]. apply Hnew; [| reflexivity].
    eexists. vm_compute. apply list_elem_of_here.
Defined.
